(** * Response reconciliation in [backend/api/routers/search.py]

    A shallow embedding of the search router: the decoded JSON payloads
    the catalog client hands over, the Python operations the router
    applies to them ([dict.get], [in], [or], [str], [strip], [split],
    [int], iteration, [list.sort]) and the endpoint bodies themselves,
    then the output parser of [backend/troi_integration.py] and the
    track loops of [backend/api/clients/spotify.py], followed by the
    properties established about them.

    Conventions of the embedding.
    - A decoded payload is a [json] tree.  Numbers are the integers;
      fractional numbers do not occur in the modelled payloads.
    - A Python [str] is a [string] whose characters are code points
      below 256.
    - A Python [dict] is an association list in insertion order; the
      decoder never produces a repeated key and [dict_set] keeps it so.
    - Python exceptions are the [Raise] outcomes of [result].  Every
      endpoint wraps its body in [try ... except Exception] and answers
      HTTP 500, so [Raise e] at an endpoint stands for that answer.
    - The pydantic models of [backend/api/models.py] are records of
      decoded values.  A constructor call first evaluates its keyword
      arguments and then validates every field against the declared
      type: a [str] field takes a string only, an [int] field takes an
      integer as it is, an [Optional] field also takes [None], and a
      refused value raises pydantic's [ValidationError], a [ValueError].
      What the library makes of a boolean or of a string given for an
      [int] field is not in the sources; it is the parameter [lax_int],
      about which nothing is assumed. *)

From Stdlib Require Import ZArith List String Ascii Bool Lia.
From Stdlib Require Import Permutation Sorted DecimalString.
From Stdlib Require DecimalPos DecimalZ.
Import ListNotations.

Local Open Scope string_scope.
Local Open Scope Z_scope.

(* ================================================================== *)
(** ** Decoded JSON values *)

#[local] Unset Elimination Schemes.

Inductive json : Type :=
| JNull
| JBool (b : bool)
| JInt (n : Z)
| JStr (s : string)
| JList (items : list json)
| JDict (fields : list (string * json)).

#[local] Set Elimination Schemes.

(** Python exceptions the router can run into. *)
Inductive exn : Type :=
| KeyError (key : string)
| AttributeError
| TypeError
| IndexError
| ValueError.

Inductive result (A : Type) : Type :=
| Ok (a : A)
| Raise (e : exn).

Arguments Ok {A} a.
Arguments Raise {A} e.

Definition bind {A B : Type} (m : result A) (k : A -> result B) : result B :=
  match m with
  | Ok a => k a
  | Raise e => Raise e
  end.

Notation "x <- m ;; k" := (bind m (fun x => k))
  (at level 61, m at next level, right associativity).

(** [try: body except Exception: handler] *)
Definition try_except {A : Type} (body : result A) (handler : A) : A :=
  match body with
  | Ok a => a
  | Raise _ => handler
  end.

(** Sequential loop whose body appends to one accumulator: the bodies
    run in order and the first exception ends the loop. *)
Fixpoint for_each {A B : Type} (f : A -> result (list B)) (l : list A)
  : result (list B) :=
  match l with
  | [] => Ok []
  | x :: l' => ys <- f x ;; zs <- for_each f l' ;; Ok (ys ++ zs)%list
  end.

(** List comprehension [[f x for x in l]]. *)
Fixpoint comprehension {A B : Type} (f : A -> result B) (l : list A)
  : result (list B) :=
  match l with
  | [] => Ok []
  | x :: l' => y <- f x ;; ys <- comprehension f l' ;; Ok (y :: ys)
  end.

(* ================================================================== *)
(** ** Strings *)

Definition chars (s : string) : list ascii := list_ascii_of_string s.
Definition of_chars (l : list ascii) : string := string_of_list_ascii l.

(** [str.isspace] on code points below 256. *)
Definition is_space (c : ascii) : bool :=
  let n := nat_of_ascii c in
  (((9 <=? n) && (n <=? 13)) || ((28 <=? n) && (n <=? 32))
   || (n =? 133) || (n =? 160))%nat.

Fixpoint lstrip_chars (l : list ascii) : list ascii :=
  match l with
  | [] => []
  | c :: l' => if is_space c then lstrip_chars l' else l
  end.

(** [s.strip()] *)
Definition strip (s : string) : string :=
  of_chars (rev (lstrip_chars (rev (lstrip_chars (chars s))))).

(** [s.split('-')[0]]: the text before the first dash, all of [s] when
    it has none. *)
Fixpoint split_dash_first (s : string) : string :=
  match s with
  | EmptyString => EmptyString
  | String c s' =>
      if Ascii.eqb c "-"%char then EmptyString
      else String c (split_dash_first s')
  end.

(** [sub in s] for strings. *)
Fixpoint str_contains (sub s : string) : bool :=
  String.prefix sub s ||
  match s with
  | EmptyString => false
  | String _ s' => str_contains sub s'
  end.

Definition string_of_Z (n : Z) : string :=
  NilZero.string_of_int (Z.to_int n).

Fixpoint join (sep : string) (l : list string) : string :=
  match l with
  | [] => EmptyString
  | [s] => s
  | s :: l' => s ++ sep ++ join sep l'
  end.

(** *** [repr] of a string *)

Definition squote : ascii := "039"%char.
Definition dquote : ascii := "034"%char.
Definition backslash : ascii := "092"%char.

Definition hex_digit (n : nat) : ascii :=
  nth n (chars "0123456789abcdef") "0"%char.

(** Code points that [repr] prints as they are. *)
Definition is_printable (c : ascii) : bool :=
  let n := nat_of_ascii c in
  ((32 <=? n) && (n <? 127) || (160 <? n) && negb (n =? 173))%nat.

Definition repr_char (quote : ascii) (c : ascii) : list ascii :=
  if Ascii.eqb c quote || Ascii.eqb c backslash then [backslash; c]
  else if Ascii.eqb c "009"%char then [backslash; "t"%char]
  else if Ascii.eqb c "010"%char then [backslash; "n"%char]
  else if Ascii.eqb c "013"%char then [backslash; "r"%char]
  else if is_printable c then [c]
  else let n := nat_of_ascii c in
       [backslash; "x"%char; hex_digit (n / 16); hex_digit (n mod 16)]%nat.

(** [repr(s)]: single quotes unless [s] has a single quote and no
    double quote. *)
Definition repr_str (s : string) : string :=
  let cs := chars s in
  let has c := existsb (Ascii.eqb c) cs in
  let quote := if has squote && negb (has dquote) then dquote else squote in
  of_chars (quote :: flat_map (repr_char quote) cs ++ [quote])%list.

(* ================================================================== *)
(** ** Python operations on decoded values *)

Definition dict : Type := list (string * json).

Fixpoint lookup (k : string) (d : dict) : option json :=
  match d with
  | [] => None
  | (k', v) :: d' => if String.eqb k' k then Some v else lookup k d'
  end.

Definition has_key (k : string) (d : dict) : bool :=
  match lookup k d with
  | Some _ => true
  | None => false
  end.

(** [d[k] = v]: the value is replaced in place, a new key goes last. *)
Fixpoint dict_set (k : string) (v : json) (d : dict) : dict :=
  match d with
  | [] => [(k, v)]
  | (k', v') :: d' =>
      if String.eqb k' k then (k, v) :: d' else (k', v') :: dict_set k v d'
  end.

(** Truth value of a decoded value in [if x], [not x], [x or y]. *)
Definition truthy (x : json) : bool :=
  match x with
  | JNull => false
  | JBool b => b
  | JInt n => negb (n =? 0)
  | JStr EmptyString => false
  | JStr _ => true
  | JList [] => false
  | JList _ => true
  | JDict [] => false
  | JDict _ => true
  end.

(** [a or b], for an operand [b] that is already evaluated. *)
Definition py_or (a b : json) : json := if truthy a then a else b.

Definition is_dict (x : json) : bool :=
  match x with JDict _ => true | _ => false end.

Definition is_list (x : json) : bool :=
  match x with JList _ => true | _ => false end.

Definition is_str (x : json) : bool :=
  match x with JStr _ => true | _ => false end.

Definition empty_dict : json := JDict [].

(** [x.get(k, dflt)]; only a dict has the method. *)
Definition py_get_d (x : json) (k : string) (dflt : json) : result json :=
  match x with
  | JDict d => Ok (match lookup k d with Some v => v | None => dflt end)
  | _ => Raise AttributeError
  end.

(** [x.get(k)] *)
Definition py_get (x : json) (k : string) : result json := py_get_d x k JNull.

(** [x[k]] for a string key. *)
Definition py_item (x : json) (k : string) : result json :=
  match x with
  | JDict d =>
      match lookup k d with
      | Some v => Ok v
      | None => Raise (KeyError k)
      end
  | _ => Raise TypeError
  end.

(** [k in x] for a string [k]. *)
Definition py_in (k : string) (x : json) : result bool :=
  match x with
  | JDict d => Ok (has_key k d)
  | JList l =>
      Ok (existsb (fun y => match y with JStr s => String.eqb s k | _ => false end) l)
  | JStr s => Ok (str_contains k s)
  | _ => Raise TypeError
  end.

(** [x[0]] *)
Definition py_first (x : json) : result json :=
  match x with
  | JList (y :: _) => Ok y
  | JList [] => Raise IndexError
  | JStr (String c _) => Ok (JStr (String c EmptyString))
  | JStr EmptyString => Raise IndexError
  | JDict _ => Raise (KeyError "0")
  | _ => Raise TypeError
  end.

(** The elements [for item in x] runs over. *)
Definition py_iter (x : json) : result (list json) :=
  match x with
  | JList l => Ok l
  | JDict d => Ok (map (fun kv => JStr (fst kv)) d)
  | JStr s => Ok (map (fun c => JStr (String c EmptyString)) (chars s))
  | _ => Raise TypeError
  end.

(** [x[:n]] *)
Definition py_slice_to (n : nat) (x : json) : result json :=
  match x with
  | JList l => Ok (JList (firstn n l))
  | JStr s => Ok (JStr (of_chars (firstn n (chars s))))
  | _ => Raise TypeError
  end.

(** [repr(x)] *)
Fixpoint py_repr (x : json) : string :=
  match x with
  | JNull => "None"
  | JBool true => "True"
  | JBool false => "False"
  | JInt n => string_of_Z n
  | JStr s => repr_str s
  | JList l => "[" ++ join ", " (map py_repr l) ++ "]"
  | JDict d =>
      "{" ++ join ", "
               (map (fun kv => match kv with
                               | (k, v) => repr_str k ++ ": " ++ py_repr v
                               end) d) ++ "}"
  end.

(** [str(x)] *)
Definition py_str (x : json) : string :=
  match x with
  | JStr s => s
  | _ => py_repr x
  end.

(** [s.split('-')[0]] as a method call: only a [str] has [split]. *)
Definition py_split_dash_first (x : json) : result json :=
  match x with
  | JStr s => Ok (JStr (split_dash_first s))
  | _ => Raise AttributeError
  end.

(** *** [int(x)] *)

Definition digit_val (c : ascii) : option Z :=
  let n := nat_of_ascii c in
  if ((48 <=? n) && (n <=? 57))%nat then Some (Z.of_nat (n - 48)) else None.

(** Decimal digits, a single underscore allowed between two digits. *)
Fixpoint parse_digits (acc : Z) (after_digit : bool) (l : list ascii)
  : option Z :=
  match l with
  | [] => if after_digit then Some acc else None
  | c :: l' =>
      match digit_val c with
      | Some d => parse_digits (10 * acc + d) true l'
      | None =>
          if Ascii.eqb c "_"%char && after_digit
          then parse_digits acc false l'
          else None
      end
  end.

(** The white space [int()] skips around a literal: the ASCII white
    space and, of the other code points below 256, the two that count
    as white space in a string that is not ASCII.  The separators 28 to
    31, which [str.strip] removes, are not among them. *)
Definition int_space (c : ascii) : bool :=
  let n := nat_of_ascii c in
  (((9 <=? n) && (n <=? 13)) || (n =? 32) || (n =? 133) || (n =? 160))%nat.

Fixpoint lstrip_int (l : list ascii) : list ascii :=
  match l with
  | [] => []
  | c :: l' => if int_space c then lstrip_int l' else l
  end.

(** The number of decimal digits of a literal, which [int()] bounds
    ([sys.int_info.default_max_str_digits]). *)
Definition count_digits (l : list ascii) : Z :=
  Z.of_nat (List.length (filter (fun c => match digit_val c with
                                          | Some _ => true
                                          | None => false
                                          end) l)).

Definition max_str_digits : Z := 4300.

Definition parse_unsigned (l : list ascii) : option Z :=
  if max_str_digits <? count_digits l then None else parse_digits 0 false l.

(** [int(s)] for a string: surrounding white space, an optional sign,
    then the digits. *)
Definition parse_int (s : string) : option Z :=
  match rev (lstrip_int (rev (lstrip_int (chars s)))) with
  | c :: l =>
      if Ascii.eqb c "-"%char then option_map Z.opp (parse_unsigned l)
      else if Ascii.eqb c "+"%char then parse_unsigned l
      else parse_unsigned (c :: l)
  | [] => None
  end.

Definition py_int (x : json) : result Z :=
  match x with
  | JInt n => Ok n
  | JBool b => Ok (if b then 1 else 0)
  | JStr s =>
      match parse_int s with
      | Some n => Ok n
      | None => Raise ValueError
      end
  | _ => Raise TypeError
  end.

(** [d.get(k)] on a value known to be a dict. *)
Definition dget (d : dict) (k : string) : json :=
  match lookup k d with
  | Some v => v
  | None => JNull
  end.

(* ================================================================== *)
(** ** Canonical records ([backend/api/models.py]) *)

Record TrackSearchResult : Type := mkTrack {
  t_id : json;
  t_title : json;
  t_artist : json;
  t_album : json;
  t_track_number : json;
  t_duration : json;
  t_cover : json;
  t_quality : json;
  t_trackNumber : json;
  t_albumArtist : json;
  t_tidal_artist_id : json;
  t_tidal_album_id : json
}.

Record PlaylistSearchResult : Type := mkPlaylist {
  p_id : json;
  p_title : json;
  p_creator : json;
  p_description : json;
  p_numberOfTracks : json;
  p_cover : json
}.

(** *** Field validation

    What pydantic makes of a boolean or of a string given for an [int]
    field (its lax mode converts some of them): library behaviour that
    the sources do not show, taken as a parameter.  [None] stands for a
    refused value. *)
Class LaxInt : Type := { lax_int : json -> option Z }.

(** The validation that converts nothing, for concrete evaluations. *)
Definition no_coercion : LaxInt := {| lax_int := fun _ => None |}.

(** A field declared [int]. *)
Definition validate_int {V : LaxInt} (x : json) : result json :=
  match x with
  | JInt _ => Ok x
  | JBool _ | JStr _ =>
      match lax_int x with
      | Some n => Ok (JInt n)
      | None => Raise ValueError
      end
  | _ => Raise ValueError
  end.

(** A field declared [str]. *)
Definition validate_str (x : json) : result json :=
  match x with
  | JStr _ => Ok x
  | _ => Raise ValueError
  end.

(** A field declared [Optional[...]]. *)
Definition optional (validate : json -> result json) (x : json)
  : result json :=
  match x with
  | JNull => Ok JNull
  | _ => validate x
  end.

(** [TrackSearchResult(...)] applied to evaluated arguments. *)
Definition validated_track {V : LaxInt} (args : TrackSearchResult)
  : result TrackSearchResult :=
  id <- validate_int (t_id args) ;;
  title <- validate_str (t_title args) ;;
  artist <- validate_str (t_artist args) ;;
  album <- optional validate_str (t_album args) ;;
  track_number <- optional validate_int (t_track_number args) ;;
  duration <- optional validate_int (t_duration args) ;;
  cover <- optional validate_str (t_cover args) ;;
  quality <- optional validate_str (t_quality args) ;;
  trackNumber <- optional validate_int (t_trackNumber args) ;;
  albumArtist <- optional validate_str (t_albumArtist args) ;;
  tidal_artist_id <- optional validate_int (t_tidal_artist_id args) ;;
  tidal_album_id <- optional validate_int (t_tidal_album_id args) ;;
  Ok {| t_id := id; t_title := title; t_artist := artist; t_album := album;
        t_track_number := track_number; t_duration := duration;
        t_cover := cover; t_quality := quality; t_trackNumber := trackNumber;
        t_albumArtist := albumArtist; t_tidal_artist_id := tidal_artist_id;
        t_tidal_album_id := tidal_album_id |}.

(** [PlaylistSearchResult(...)] applied to evaluated arguments. *)
Definition validated_playlist {V : LaxInt} (args : PlaylistSearchResult)
  : result PlaylistSearchResult :=
  id <- validate_str (p_id args) ;;
  title <- validate_str (p_title args) ;;
  creator <- optional validate_str (p_creator args) ;;
  description <- optional validate_str (p_description args) ;;
  numberOfTracks <- optional validate_int (p_numberOfTracks args) ;;
  cover <- optional validate_str (p_cover args) ;;
  Ok {| p_id := id; p_title := title; p_creator := creator;
        p_description := description; p_numberOfTracks := numberOfTracks;
        p_cover := cover |}.

(* ================================================================== *)
(** ** Item extraction *)

(** Modelled from the spec: [extract_items] of [api/utils/extraction.py],
    which the router imports and which is not among the sources.  The
    specification (sections 4.1 and 4.2) has it unwrap version envelopes
    [{data: ..., version: ...}] re-entrantly, take a top-level sequence
    as it is, otherwise accept the first of the container paths [items],
    [<kind>.items], [<kind>] and [data] that holds a non-empty sequence,
    and unwrap every item of the shape [{item: {...}, type: ...}]; no
    path yields the empty sequence. *)
Fixpoint unwrap_envelope (payload : json) : json :=
  match payload with
  | JDict d =>
      if has_key "version" d
      then (fix data_of (l : dict) : json :=
              match l with
              | [] => payload
              | (k, v) :: l' =>
                  if String.eqb k "data" then unwrap_envelope v else data_of l'
              end) d
      else payload
  | _ => payload
  end.

(** Modelled from the spec: the unwrapping [extract_items] applies to an
    item of the shape [{item: {...}, type: ...}] (section 4.2); the
    function belongs to [api/utils/extraction.py], which is missing. *)
Definition unwrap_wrapper (item : json) : json :=
  match item with
  | JDict d =>
      match lookup "item" d, lookup "type" d with
      | Some (JDict inner), Some _ => JDict inner
      | _, _ => item
      end
  | _ => item
  end.

(** Modelled from the spec: a container path of [extract_items] that is
    a direct list (section 4.2, [api/utils/extraction.py] is missing). *)
Definition sequence_at (x : option json) : list json :=
  match x with
  | Some (JList l) => l
  | _ => []
  end.

(** Modelled from the spec: the container path [<kind>.items] of
    [extract_items] (section 4.2, [api/utils/extraction.py] is missing). *)
Definition nested_items (x : option json) : list json :=
  match x with
  | Some (JDict d) => sequence_at (lookup "items" d)
  | _ => []
  end.

(** Modelled from the spec: [extract_items] accepts the first path that
    yields a non-empty sequence (section 4.2, [api/utils/extraction.py]
    is missing). *)
Fixpoint first_non_empty (paths : list (list json)) : list json :=
  match paths with
  | [] => []
  | [] :: rest => first_non_empty rest
  | l :: _ => l
  end.

(** Modelled from the spec: [extract_items(result, kind)] of
    [api/utils/extraction.py], which is missing; sections 4.1 and 4.2 as
    summarized above. *)
Definition extract_items (payload : json) (kind : string) : list json :=
  match unwrap_envelope payload with
  | JList l => map unwrap_wrapper l
  | JDict d =>
      map unwrap_wrapper
        (first_non_empty
           [sequence_at (lookup "items" d); nested_items (lookup kind d);
            sequence_at (lookup kind d); sequence_at (lookup "data" d)])
  | _ => []
  end.

(* ================================================================== *)
(** ** [search_tracks] *)

(** [track.get('artist', {}).get('name', 'Unknown')] *)
Definition search_track_artist (track : json) : result json :=
  a <- py_get_d track "artist" empty_dict ;;
  py_get_d a "name" (JStr "Unknown").

(** The keyword arguments of the [TrackSearchResult(...)] call of the
    comprehension, evaluated in the order written. *)
Definition search_track_args (track : json) : result TrackSearchResult :=
  id <- py_item track "id" ;;
  title <- py_item track "title" ;;
  artist <- search_track_artist track ;;
  album <- (a <- py_get_d track "album" empty_dict ;; py_get a "title") ;;
  duration <- py_get track "duration" ;;
  cover <- (a <- py_get_d track "album" empty_dict ;; py_get a "cover") ;;
  quality <- py_get track "audioQuality" ;;
  trackNumber <- py_get track "trackNumber" ;;
  albumArtist <-
    (al <- py_get_d track "album" empty_dict ;;
     ar <- py_get al "artist" ;;
     if truthy ar
     then (al' <- py_get_d track "album" empty_dict ;;
           ar' <- py_get_d al' "artist" empty_dict ;;
           py_get ar' "name")
     else search_track_artist track) ;;
  tidal_artist_id <-
    (a <- py_get_d track "artist" empty_dict ;; py_get a "id") ;;
  tidal_album_id <-
    (a <- py_get_d track "album" empty_dict ;; py_get a "id") ;;
  Ok {| t_id := id; t_title := title; t_artist := artist; t_album := album;
        t_track_number := JNull; t_duration := duration; t_cover := cover;
        t_quality := quality; t_trackNumber := trackNumber;
        t_albumArtist := albumArtist; t_tidal_artist_id := tidal_artist_id;
        t_tidal_album_id := tidal_album_id |}.

(** The [TrackSearchResult(...)] call. *)
Definition search_track_result {V : LaxInt} (track : json)
  : result TrackSearchResult :=
  args <- search_track_args track ;; validated_track args.

(** The endpoint body once [tracks] is extracted: the two debug log
    lines read the first track, then the comprehension runs. *)
Definition search_tracks_items {V : LaxInt} (tracks : list json)
  : result (list TrackSearchResult) :=
  _ <- match tracks with
       | t0 :: _ => _ <- py_get t0 "artist" ;; py_get t0 "album"
       | [] => Ok JNull
       end ;;
  comprehension search_track_result tracks.

Definition search_tracks {V : LaxInt} (payload : json)
  : result (list TrackSearchResult) :=
  if negb (truthy payload) then Ok []
  else search_tracks_items (extract_items payload "tracks").

(* ================================================================== *)
(** ** [get_album_tracks] *)

(** [if isinstance(result, dict) and 'data' in result and 'version' in
    result: result = result['data']] *)
Definition unwrap_v2 (payload : json) : json :=
  match payload with
  | JDict d =>
      match lookup "data" d with
      | Some v => if has_key "version" d then v else payload
      | None => payload
      end
  | _ => payload
  end.

(** [item.get('item', item) if isinstance(item, dict) else item] *)
Definition unwrap_item (item : json) : json :=
  match item with
  | JDict d =>
      match lookup "item" d with
      | Some v => v
      | None => item
      end
  | _ => item
  end.

(** [isinstance(track, dict) and 'id' in track] *)
Definition has_id (track : json) : bool :=
  match track with
  | JDict d => has_key "id" d
  | _ => false
  end.

(** The three assignments to [track_number] in the album loop; [count]
    is [len(tracks)] at that point. *)
Definition album_track_number (item : json) (track : dict) (count : nat)
  : json :=
  let tn := py_or (dget track "trackNumber") (dget track "track_number") in
  let tn := match item with
            | JDict i => if negb (truthy tn) then dget i "index" else tn
            | _ => tn
            end in
  if negb (truthy tn) then JInt (Z.of_nat count + 1) else tn.

(** One round of [for item in raw_items], [tracks] being the list built
    so far. *)
Definition album_loop_body (tracks : list json) (item : json) : list json :=
  match unwrap_item item with
  | JDict track =>
      if has_key "id" track
      then let track_number := album_track_number item track (List.length tracks) in
           (tracks ++ [JDict (dict_set "track_number" track_number track)])%list
      else tracks
  | _ => tracks
  end.

Definition album_loop (raw_items : list json) : list json :=
  fold_left album_loop_body raw_items [].

(** The [artist=] argument of the album comprehension. *)
Definition album_track_artist (track : json) : result json :=
  a <- py_get track "artist" ;;
  if is_dict a
  then (a' <- py_get_d track "artist" empty_dict ;;
        py_get_d a' "name" (JStr "Unknown"))
  else (l <- py_get track "artists" ;;
        if truthy l
        then (l' <- py_get_d track "artists" (JList [empty_dict]) ;;
              x <- py_first l' ;;
              py_get_d x "name" (JStr "Unknown"))
        else Ok (JStr "Unknown")).

(** [track.get('album', {}).get(k) if isinstance(track.get('album'),
    dict) else other] *)
Definition album_field (track : json) (k : string) (other : json)
  : result json :=
  a <- py_get track "album" ;;
  if is_dict a
  then (a' <- py_get_d track "album" empty_dict ;; py_get a' k)
  else Ok other.

Definition album_track_args (album_id : Z) (track : json)
  : result TrackSearchResult :=
  id <- py_item track "id" ;;
  title <- py_get_d track "title" (JStr "Unknown") ;;
  artist <- album_track_artist track ;;
  album <- album_field track "title" JNull ;;
  track_number <- py_get track "track_number" ;;
  duration <- py_get track "duration" ;;
  cover <- album_field track "cover" JNull ;;
  quality <- py_get track "audioQuality" ;;
  trackNumber <- py_get track "trackNumber" ;;
  albumArtist <-
    (al <- py_get_d track "album" empty_dict ;;
     ar <- py_get al "artist" ;;
     if truthy ar
     then (al' <- py_get_d track "album" empty_dict ;;
           ar' <- py_get_d al' "artist" empty_dict ;;
           py_get ar' "name")
     else (a <- py_get track "artist" ;;
           if is_dict a
           then (a' <- py_get_d track "artist" empty_dict ;;
                 py_get_d a' "name" (JStr "Unknown"))
           else Ok (JStr "Unknown"))) ;;
  tidal_artist_id <-
    (a <- py_get track "artist" ;;
     if is_dict a
     then (a' <- py_get_d track "artist" empty_dict ;; py_get a' "id")
     else (l <- py_get track "artists" ;;
           if truthy l
           then (l' <- py_get_d track "artists" (JList [empty_dict]) ;;
                 x <- py_first l' ;;
                 py_get x "id")
           else Ok JNull)) ;;
  tidal_album_id <- album_field track "id" (JInt album_id) ;;
  Ok {| t_id := id; t_title := title; t_artist := artist; t_album := album;
        t_track_number := track_number; t_duration := duration;
        t_cover := cover; t_quality := quality; t_trackNumber := trackNumber;
        t_albumArtist := albumArtist; t_tidal_artist_id := tidal_artist_id;
        t_tidal_album_id := tidal_album_id |}.

(** The [TrackSearchResult(...)] call of the album comprehension. *)
Definition album_track_result {V : LaxInt} (album_id : Z) (track : json)
  : result TrackSearchResult :=
  args <- album_track_args album_id track ;; validated_track args.

Definition get_album_tracks {V : LaxInt} (album_id : Z) (payload : json)
  : result (list TrackSearchResult) :=
  if negb (truthy payload) then Ok []
  else
    let payload := unwrap_v2 payload in
    raw_items <- (if is_dict payload
                  then py_get_d payload "items" (JList [])
                  else Ok payload) ;;
    items <- py_iter raw_items ;;
    comprehension (album_track_result album_id) (album_loop items).

(* ================================================================== *)
(** ** [search_playlists] *)

Definition priority_keys : list string :=
  ["squareImage"; "image"; "cover"; "picture"; "imageId"].

(** [x.get(k1) or x.get(k2)] *)
Definition get_or (x : json) (k1 k2 : string) : result json :=
  a <- py_get x k1 ;;
  if truthy a then Ok a else py_get x k2.

(** [x.get(k, {}) if isinstance(x, dict) else {}] *)
Definition sub_object (x : json) (k : string) : result json :=
  if is_dict x then py_get_d x k empty_dict else Ok empty_dict.

(** First loop of [get_cover_id]: [Some] carries the returned string. *)
Fixpoint cover_from_attributes (attrs : json) (keys : list string)
  : result (option json) :=
  match keys with
  | [] => Ok None
  | key :: keys' =>
      val <- py_get attrs key ;;
      if truthy val then Ok (Some (JStr (strip (py_str val))))
      else cover_from_attributes attrs keys'
  end.

(** Second loop of [get_cover_id]. *)
Fixpoint cover_from_root (pl : json) (keys : list string)
  : result (option json) :=
  match keys with
  | [] => Ok None
  | key :: keys' =>
      present <- py_in key pl ;;
      if present
      then (val <- py_get pl key ;;
            if truthy val
            then (val' <- py_get pl key ;;
                  Ok (Some (JStr (strip (py_str val')))))
            else cover_from_root pl keys')
      else cover_from_root pl keys'
  end.

(** [rel.get('coverArt') or rel.get('coverart') or rel.get('thumbnailArt')] *)
Definition cover_relationship (rel : json) : result json :=
  a <- py_get rel "coverArt" ;;
  if truthy a then Ok a
  else get_or rel "coverart" "thumbnailArt".

(** [for file in files]: the first truthy [href], else [cover_id]. *)
Fixpoint first_href (cover_id : json) (files : list json) : result json :=
  match files with
  | [] => Ok cover_id
  | file :: files' =>
      href <- py_get file "href" ;;
      if truthy href then Ok href else first_href cover_id files'
  end.

(** [for inc in included] of [get_cover_id]. *)
Fixpoint lookup_included (cover_id : json) (included : list json)
  : result json :=
  match included with
  | [] => Ok cover_id
  | inc :: included' =>
      i <- py_get inc "id" ;;
      if String.eqb (py_str i) (py_str cover_id)
      then (attrs_inc <- sub_object inc "attributes" ;;
            f <- py_get attrs_inc "files" ;;
            files <- py_iter (py_or f (JList [])) ;;
            first_href cover_id files)
      else lookup_included cover_id included'
  end.

(** The body of the [try] of [get_cover_id] from [cover_data] on;
    [JNull] when control leaves it without a [return]. *)
Definition referenced_cover (included cover_rel : json) : result json :=
  cover_data <- (if is_dict cover_rel then py_get cover_rel "data"
                 else Ok JNull) ;;
  cover_id <- match cover_data with
              | JDict d => Ok (dget d "id")
              | JList (x :: _) => py_get x "id"
              | _ => Ok JNull
              end ;;
  if truthy cover_id
  then (incs <- py_iter included ;; lookup_included cover_id incs)
  else Ok JNull.

(** The body of the [try] of [get_cover_id]. *)
Definition cover_from_relationships (included pl : json) : result json :=
  rel <- sub_object pl "relationships" ;;
  cover_rel <- cover_relationship rel ;;
  referenced_cover included cover_rel.

Definition get_cover_id (included pl : json) : result json :=
  attrs <- sub_object pl "attributes" ;;
  from_attrs <- cover_from_attributes attrs priority_keys ;;
  match from_attrs with
  | Some c => Ok c
  | None =>
      from_root <- cover_from_root pl priority_keys ;;
      match from_root with
      | Some c => Ok c
      | None => Ok (try_except (cover_from_relationships included pl) JNull)
      end
  end.

(** The filter [if pl.get('uuid') or pl.get('id')] of the comprehension. *)
Definition playlist_kept (pl : json) : result bool :=
  v <- get_or pl "uuid" "id" ;; Ok (truthy v).

(** The keyword arguments of the [PlaylistSearchResult(...)] call. *)
Definition playlist_args (included pl : json) : result PlaylistSearchResult :=
  id <- (v <- get_or pl "uuid" "id" ;; Ok (JStr (py_str v))) ;;
  title <- (t <- get_or pl "title" "name" ;;
            Ok (py_or t (JStr "Untitled Playlist"))) ;;
  creator <- (c <- py_get pl "creator" ;;
              if is_dict c
              then (c' <- py_get_d pl "creator" empty_dict ;;
                    py_get (py_or c' empty_dict) "name")
              else py_get pl "creator") ;;
  description <- py_get pl "description" ;;
  numberOfTracks <- get_or pl "numberOfTracks" "numberOfItems" ;;
  cover <- get_cover_id included pl ;;
  Ok {| p_id := id; p_title := title; p_creator := creator;
        p_description := description; p_numberOfTracks := numberOfTracks;
        p_cover := cover |}.

(** [[f pl for pl in playlists if keep pl]] *)
Fixpoint comprehension_if {A B : Type} (keep : A -> result bool)
  (f : A -> result B) (l : list A) : result (list B) :=
  match l with
  | [] => Ok []
  | x :: l' =>
      k <- keep x ;;
      if k
      then (y <- f x ;; ys <- comprehension_if keep f l' ;; Ok (y :: ys))
      else comprehension_if keep f l'
  end.

(** The [PlaylistSearchResult(...)] call. *)
Definition playlist_result {V : LaxInt} (included pl : json)
  : result PlaylistSearchResult :=
  args <- playlist_args included pl ;; validated_playlist args.

Definition search_playlists_items {V : LaxInt} (included : json)
  (playlists : list json) : result (list PlaylistSearchResult) :=
  comprehension_if playlist_kept (playlist_result included) playlists.

Definition search_playlists {V : LaxInt} (payload : json)
  : result (list PlaylistSearchResult) :=
  if negb (truthy payload) then Ok []
  else
    let playlists := extract_items payload "playlists" in
    included <- (if is_dict payload
                 then py_get_d payload "included" (JList [])
                 else Ok (JList [])) ;;
    search_playlists_items included playlists.

(* ================================================================== *)
(** ** [get_playlist_tracks] *)

Record PlaylistTracksResponse : Type := mkPlaylistTracks {
  r_playlist : json;
  r_items : list TrackSearchResult
}.

(** [cover_val = None; for key in priority_keys: if key in x and
    x.get(key): cover_val = x.get(key); break] *)
Fixpoint first_cover_val (x : json) (keys : list string) : result json :=
  match keys with
  | [] => Ok JNull
  | key :: keys' =>
      present <- py_in key x ;;
      if present
      then (val <- py_get x key ;;
            if truthy val then py_get x key else first_cover_val x keys')
      else first_cover_val x keys'
  end.

(** [a.get(ka) or b.get(k1) or b.get(k2)] *)
Definition get_or3 (a : json) (ka : string) (b : json) (k1 k2 : string)
  : result json :=
  v <- py_get a ka ;;
  if truthy v then Ok v else get_or b k1 k2.

(** [str(cover_val).strip() if cover_val else None] *)
Definition cover_string (cover_val : json) : json :=
  if truthy cover_val then JStr (strip (py_str cover_val)) else JNull.

(** The normalized [playlist_info] dict when the payload carries a
    playlist object ([if playlist_info:]). *)
Definition playlist_info_of (playlist_id : string) (playlist_info : json)
  : result json :=
  attrs <- sub_object playlist_info "attributes" ;;
  rels <- sub_object playlist_info "relationships" ;;
  cover_val <- first_cover_val attrs priority_keys ;;
  cover_val <- (if negb (truthy cover_val)
                then first_cover_val playlist_info priority_keys
                else Ok cover_val) ;;
  id <- (v <- get_or playlist_info "uuid" "id" ;;
         Ok (py_or v (JStr playlist_id))) ;;
  title <- get_or3 attrs "name" playlist_info "title" "name" ;;
  description <- (d <- py_get attrs "description" ;;
                  if truthy d then Ok d
                  else py_get playlist_info "description") ;;
  numberOfTracks <-
    get_or3 attrs "numberOfItems" playlist_info "numberOfTracks"
            "numberOfItems" ;;
  Ok (JDict [("id", id); ("title", title); ("description", description);
             ("numberOfTracks", numberOfTracks);
             ("cover", cover_string cover_val); ("relationships", rels)]).

(** The [else] branch: the payload itself describes the playlist. *)
Definition playlist_info_flat (playlist_id : string) (payload : dict) : json :=
  let r := JDict payload in
  let cover_val :=
    match find (fun key => has_key key payload && truthy (dget payload key))
               priority_keys with
    | Some key => dget payload key
    | None => JNull
    end in
  JDict [("id", py_or (dget payload "uuid") (JStr playlist_id));
         ("title", py_or (dget payload "title") (dget payload "name"));
         ("description", dget payload "description");
         ("numberOfTracks",
          py_or (dget payload "numberOfTracks") (dget payload "numberOfItems"));
         ("cover", cover_string cover_val);
         ("relationships",
          match lookup "relationships" payload with
          | Some v => v
          | None => empty_dict
          end)].

(** The [if 'items' in result: ... elif ...] chain choosing [raw_items]. *)
Definition playlist_raw_items (payload : dict) : json :=
  match lookup "items" payload with
  | Some v => v
  | None =>
      match lookup "tracks" payload with
      | Some (JDict t) =>
          match lookup "items" t with
          | Some v => v
          | None => JList []
          end
      | Some (JList l) => JList l
      | _ =>
          match dget payload "data" with
          | JList l => JList l
          | _ => JList []
          end
      end
  end.

(** [for file in files] of the playlist endpoint: the first truthy
    [href], [None] without one. *)
Fixpoint first_href_opt (files : list json) : result json :=
  match files with
  | [] => Ok JNull
  | file :: files' =>
      href <- py_get file "href" ;;
      if truthy href then Ok href else first_href_opt files'
  end.

(** [for inc in included] of the playlist endpoint, returning the
    [playlist_info] it leaves behind. *)
Fixpoint playlist_lookup_included (cover_id : json) (info : dict)
  (included : list json) : result dict :=
  match included with
  | [] => Ok info
  | inc :: included' =>
      i <- py_get inc "id" ;;
      if String.eqb (py_str i) (py_str cover_id)
      then (attrs <- sub_object inc "attributes" ;;
            f <- py_get attrs "files" ;;
            files <- py_iter (py_or f (JList [])) ;;
            href <- first_href_opt files ;;
            let info := if truthy href then dict_set "cover" href info
                        else info in
            Ok (if negb (truthy (dget info "cover"))
                then dict_set "cover" cover_id info
                else info))
      else playlist_lookup_included cover_id info included'
  end.

(** The body of the [try] that resolves a missing playlist cover. *)
Definition playlist_cover_fallback (payload included : json) (info : dict)
  : result dict :=
  rel <- sub_object payload "relationships" ;;
  cover_rel <- cover_relationship rel ;;
  cover_data <- (if is_dict cover_rel then py_get cover_rel "data"
                 else Ok JNull) ;;
  match cover_data with
  | JList (x :: _) =>
      cover_id <- py_get x "id" ;;
      incs <- py_iter included ;;
      playlist_lookup_included cover_id info incs
  | _ => Ok info
  end.

(** [if playlist_info and not playlist_info.get('cover'): try: ...] *)
Definition resolve_playlist_cover (payload included playlist_info : json)
  : json :=
  match playlist_info with
  | JDict info =>
      if truthy playlist_info && negb (truthy (dget info "cover"))
      then JDict (try_except (playlist_cover_fallback payload included info)
                             info)
      else playlist_info
  | _ => playlist_info
  end.

(** [artist_data] of the playlist loop. *)
Definition playlist_artist_data (track : json) : result json :=
  a <- py_get track "artist" ;;
  if is_dict a then py_get_d track "artist" empty_dict
  else (l <- py_get track "artists" ;;
        if truthy l
        then (l' <- py_get_d track "artists" (JList [empty_dict]) ;;
              py_first l')
        else Ok empty_dict).

(** [track_number] of the playlist loop; [idx] is the position of the
    item in [raw_items], counted from 0. *)
Definition playlist_track_number (idx : nat) (item : json) (track : dict)
  : json :=
  let tn := py_or (py_or (dget track "trackNumber") (dget track "track_number"))
                  (match item with
                   | JDict i => dget i "index"
                   | _ => JNull
                   end) in
  if negb (truthy tn) then JInt (Z.of_nat idx + 1) else tn.

Definition playlist_track_args (idx : nat) (item : json) (track : dict)
  : result TrackSearchResult :=
  let t := JDict track in
  album_data <- (a <- py_get t "album" ;;
                 if is_dict a then py_get_d t "album" empty_dict
                 else Ok empty_dict) ;;
  artist_data <- playlist_artist_data t ;;
  let track_number := playlist_track_number idx item track in
  id <- py_item t "id" ;;
  title <- py_get_d t "title" (JStr "Unknown") ;;
  artist <- py_get_d artist_data "name" (JStr "Unknown") ;;
  album <- (if truthy album_data then py_get album_data "title"
            else Ok JNull) ;;
  duration <- py_get t "duration" ;;
  cover <- (if truthy album_data then py_get album_data "cover"
            else (c <- py_get t "cover" ;;
                  if is_str c then py_get t "cover" else Ok JNull)) ;;
  quality <- py_get t "audioQuality" ;;
  Ok {| t_id := id; t_title := title; t_artist := artist; t_album := album;
        t_track_number := track_number; t_duration := duration;
        t_cover := cover; t_quality := quality; t_trackNumber := JNull;
        t_albumArtist := JNull; t_tidal_artist_id := JNull;
        t_tidal_album_id := JNull |}.

(** The [TrackSearchResult(...)] call of the playlist loop. *)
Definition playlist_track_result {V : LaxInt} (idx : nat) (item : json)
  (track : dict) : result TrackSearchResult :=
  args <- playlist_track_args idx item track ;; validated_track args.

(** [for idx, item in enumerate(raw_items)], from position [idx] on. *)
Fixpoint playlist_loop {V : LaxInt} (idx : nat) (raw_items : list json)
  : result (list TrackSearchResult) :=
  match raw_items with
  | [] => Ok []
  | item :: rest =>
      match unwrap_item item with
      | JDict track =>
          if has_key "id" track
          then (r <- playlist_track_result idx item track ;;
                rs <- playlist_loop (S idx) rest ;;
                Ok (r :: rs))
          else playlist_loop (S idx) rest
      | _ => playlist_loop (S idx) rest
      end
  end.

Definition get_playlist_tracks {V : LaxInt} (playlist_id : string)
  (payload : json) : result PlaylistTracksResponse :=
  if negb (truthy payload) then Ok (mkPlaylistTracks JNull [])
  else
    let payload := unwrap_v2 payload in
    included <- (if is_dict payload
                 then py_get_d payload "included" (JList [])
                 else Ok (JList [])) ;;
    info_items <-
      match payload with
      | JDict r =>
          let playlist_info := py_or (dget r "playlist") (dget r "info") in
          playlist_info <-
            (if negb (truthy playlist_info) && is_list (dget r "data")
                && truthy (dget r "data")
             then (d <- py_item payload "data" ;; py_first d)
             else Ok playlist_info) ;;
          playlist_info <-
            (if truthy playlist_info
             then playlist_info_of playlist_id playlist_info
             else Ok (playlist_info_flat playlist_id r)) ;;
          Ok (playlist_info, playlist_raw_items r)
      | JList _ => Ok (JNull, payload)
      | _ => Ok (JNull, JList [])
      end ;;
    let playlist_info := resolve_playlist_cover payload included
                           (fst info_items) in
    raw_items <- py_iter (snd info_items) ;;
    tracks <- playlist_loop 0 raw_items ;;
    Ok (mkPlaylistTracks playlist_info tracks).

(* ================================================================== *)
(** ** [get_artist] *)

Definition is_album_like (obj : json) : bool :=
  match obj with
  | JDict d => has_key "id" d && has_key "title" d
  | _ => false
  end.

Definition is_track_like (obj : json) : bool :=
  match obj with
  | JDict d => has_key "id" d && has_key "title" d && has_key "duration" d
  | _ => false
  end.

(** The ['year'] entry written by the nested [albums.rows] descent:
    [album.get('releaseDate', '').split('-')[0] if album.get('releaseDate')
    else (album.get('year') or '')] *)
Definition album_year_nested (album : json) : result json :=
  rd <- py_get album "releaseDate" ;;
  if truthy rd
  then (rd' <- py_get_d album "releaseDate" (JStr EmptyString) ;;
        py_split_dash_first rd')
  else (y <- py_get album "year" ;; Ok (py_or y (JStr EmptyString))).

(** The ['year'] entry written by the [albums.items] fallback and by
    the direct-albums fallback: [... if album.get('releaseDate') else ''] *)
Definition album_year_flat (album : json) : result json :=
  rd <- py_get album "releaseDate" ;;
  if truthy rd
  then (rd' <- py_get_d album "releaseDate" (JStr EmptyString) ;;
        py_split_dash_first rd')
  else Ok (JStr EmptyString).

(** The dict appended to [albums]. *)
Definition album_record (year : json -> result json) (album : json)
  : result json :=
  id <- py_item album "id" ;;
  title <- py_item album "title" ;;
  y <- year album ;;
  cover <- py_get album "cover" ;;
  n <- py_get album "numberOfTracks" ;;
  Ok (JDict [("id", id); ("title", title); ("year", y); ("cover", cover);
             ("numberOfTracks", n)]).

(** [for item in items] of the nested descent. *)
Definition nested_item_albums (item : json) : result (list json) :=
  if is_list item then Ok []
  else
    let album := unwrap_item item in
    if is_album_like album
    then (r <- album_record album_year_nested album ;; Ok [r])
    else Ok [].

Definition module_albums (module : json) : result (list json) :=
  if is_dict module
  then (paged_list <- py_get_d module "pagedList" empty_dict ;;
        if is_dict paged_list
        then (items <- py_get_d paged_list "items" (JList []) ;;
              l <- py_iter items ;;
              for_each nested_item_albums l)
        else Ok [])
  else Ok [].

Definition row_albums (row : json) : result (list json) :=
  if is_dict row
  then (modules <- py_get_d row "modules" (JList []) ;;
        l <- py_iter modules ;;
        for_each module_albums l)
  else Ok [].

(** [albums.rows[].modules[].pagedList.items[]] *)
Definition nested_albums (albums_data : json) : result (list json) :=
  rows <- py_get_d albums_data "rows" (JList []) ;;
  l <- py_iter rows ;;
  for_each row_albums l.

(** [for item in album_list] and [for item in raw_items] of the two
    fallbacks. *)
Definition flat_item_albums (item : json) : result (list json) :=
  let album := unwrap_item item in
  if is_album_like album
  then (r <- album_record album_year_flat album ;; Ok [r])
  else Ok [].

Definition is_nil {A : Type} (l : list A) : bool :=
  match l with
  | [] => true
  | _ => false
  end.

(** The albums gathered from the artist page itself. *)
Definition page_albums (artist_info : json) : result (list json) :=
  albums_data <- py_get_d artist_info "albums" empty_dict ;;
  if is_dict albums_data
  then (albums <- nested_albums albums_data ;;
        if is_nil albums
        then (album_list <- py_get_d albums_data "items" (JList []) ;;
              l <- py_iter album_list ;;
              for_each flat_item_albums l)
        else Ok albums)
  else Ok [].

(** The albums read from the payload of the direct albums endpoint. *)
Definition direct_endpoint_albums (direct_albums : json)
  : result (list json) :=
  if truthy direct_albums
  then (raw_items <- (if is_dict direct_albums
                      then py_get_d direct_albums "items" (JList [])
                      else Ok direct_albums) ;;
        l <- py_iter raw_items ;;
        for_each flat_item_albums l)
  else Ok [].

(** One round of [for item in track_list[:10]]. *)
Definition top_track (item : json) : result (list json) :=
  let track := unwrap_item item in
  if is_track_like track
  then (a <- py_get track "album" ;;
        album_data <- (if is_dict a then py_get_d track "album" empty_dict
                       else Ok empty_dict) ;;
        id <- py_item track "id" ;;
        title <- py_item track "title" ;;
        trackNumber <- py_get track "trackNumber" ;;
        album <- (if truthy album_data
                  then (i <- py_get album_data "id" ;;
                        t <- py_get album_data "title" ;;
                        c <- py_get album_data "cover" ;;
                        Ok (JDict [("id", i); ("title", t); ("cover", c)]))
                  else Ok JNull) ;;
        artist <- py_get_d track "artist" empty_dict ;;
        duration <- py_item track "duration" ;;
        quality <- py_get_d track "audioQuality" (JStr "LOSSLESS") ;;
        Ok [JDict [("id", id); ("title", title); ("trackNumber", trackNumber);
                   ("album", album); ("artist", artist);
                   ("duration", duration); ("audioQuality", quality)]])
  else Ok [].

Definition top_tracks_of (artist_info : json) : result (list json) :=
  tracks_data <- py_get_d artist_info "tracks" (JList []) ;;
  track_list <- match tracks_data with
                | JList _ => Ok tracks_data
                | JDict _ =>
                    rows <- py_get_d tracks_data "rows" (JList []) ;;
                    py_get_d tracks_data "items" rows
                | _ => Ok (JList [])
                end ;;
  top <- py_slice_to 10 track_list ;;
  l <- py_iter top ;;
  for_each top_track l.

(** [get_album_timestamp]: the sort key. *)
Definition get_album_timestamp (album : json) : Z :=
  match py_get_d album "year" (JStr EmptyString) with
  | Ok year =>
      if negb (truthy year) then 0
      else try_except (py_int year) 0
  | Raise _ => 0
  end.

(** [albums.sort(key=key, reverse=True)]: the sort is stable, and with
    [reverse=True] elements of equal key keep their original order. *)
Fixpoint insert_desc {A : Type} (key : A -> Z) (x : A) (l : list A) : list A :=
  match l with
  | [] => [x]
  | y :: l' =>
      if key x <? key y then y :: insert_desc key x l' else x :: l
  end.

Fixpoint sort_desc {A : Type} (key : A -> Z) (l : list A) : list A :=
  match l with
  | [] => []
  | x :: l' => insert_desc key x (sort_desc key l')
  end.

Definition sort_albums (albums : list json) : list json :=
  sort_desc get_album_timestamp albums.

Fixpoint find_artist_object_recursive (data target_id : json) : json :=
  match data with
  | JDict d =>
      if has_key "id" d
         && String.eqb (py_str (dget d "id")) (py_str target_id)
         && has_key "name" d
      then data
      else (fix values (l : dict) : json :=
              match l with
              | [] => JNull
              | (_, v) :: l' =>
                  let res := find_artist_object_recursive v target_id in
                  if truthy res then res else values l'
              end) d
  | JList l =>
      (fix items (l : list json) : json :=
         match l with
         | [] => JNull
         | item :: l' =>
             let res := find_artist_object_recursive item target_id in
             if truthy res then res else items l'
         end) l
  | _ => JNull
  end.

Record ArtistResponse : Type := mkArtistResponse {
  a_artist : json;
  a_tracks : list json;
  a_albums : list json
}.

(** Name and picture of the artist, as the end of [get_artist] settles
    them; [info] is the artist page, a dict at that point. *)
Definition artist_name_picture (artist_id : Z) (info : dict)
  : result (json * json) :=
  let artist_name := dget info "name" in
  let found_obj :=
    if negb (truthy artist_name) || negb (truthy (dget info "picture"))
    then find_artist_object_recursive (JDict info) (JInt artist_id)
    else JNull in
  np <- (if truthy found_obj
         then (name <- (if negb (truthy artist_name)
                        then py_get found_obj "name"
                        else Ok artist_name) ;;
               picture <- py_get found_obj "picture" ;;
               Ok (name, picture))
         else Ok (artist_name, JNull)) ;;
  artist_picture <-
    (if negb (truthy (snd np))
     then
       let p := dget info "picture" in
       if negb (truthy p) && has_key "images" info
       then match lookup "images" info with
            | Some (JList (first :: _)) => get_or first "id" "url"
            | _ => Ok p
            end
       else Ok p
     else Ok (snd np)) ;;
  Ok (fst np, artist_picture).

(** The endpoint; [direct_albums] is the payload the direct albums
    endpoint of the catalog client answers with, read only when the
    artist page yields no album.  An absent page gives the empty
    response; a page that is not a dict fails at
    [artist_info.get('albums', {})]. *)
Definition get_artist (artist_id : Z) (artist_info direct_albums : json)
  : result ArtistResponse :=
  if negb (truthy artist_info) then Ok (mkArtistResponse JNull [] [])
  else
    match artist_info with
    | JDict info =>
        albums <- page_albums artist_info ;;
        top_tracks <- top_tracks_of artist_info ;;
        albums <- (if is_nil albums then direct_endpoint_albums direct_albums
                   else Ok albums) ;;
        let albums := sort_albums albums in
        np <- artist_name_picture artist_id info ;;
        Ok (mkArtistResponse
              (JDict [("id", JInt artist_id);
                      ("name", py_or (fst np)
                                 (JStr ("Artist " ++ string_of_Z artist_id)));
                      ("picture", snd np);
                      ("popularity", dget info "popularity")])
              top_tracks albums)
    | _ => Raise AttributeError
    end.

(* ================================================================== *)
(** ** Notions used in the statements *)

(** The items of a raw sequence whose unwrapped track carries an [id]. *)
Definition id_items (raw_items : list json) : list json :=
  filter (fun item => has_id (unwrap_item item)) raw_items.

(** The track an item wraps. *)
Definition item_track (item : json) : dict :=
  match unwrap_item item with
  | JDict track => track
  | _ => []
  end.

(** The raw items the album endpoint runs over: the payload itself or
    its [items], after the envelope is removed; none where the endpoint
    answers before its loop. *)
Definition album_raw_items (payload : json) : list json :=
  if negb (truthy payload) then []
  else
    let payload := unwrap_v2 payload in
    match (raw_items <- (if is_dict payload
                         then py_get_d payload "items" (JList [])
                         else Ok payload) ;;
           py_iter raw_items) with
    | Ok items => items
    | Raise _ => []
    end.

(** The raw items the playlist endpoint runs over. *)
Definition playlist_raw_sequence (payload : json) : list json :=
  if negb (truthy payload) then []
  else
    match unwrap_v2 payload with
    | JDict r =>
        match py_iter (playlist_raw_items r) with
        | Ok items => items
        | Raise _ => []
        end
    | JList items => items
    | _ => []
    end.

(** Two items, the first without an id. *)
Definition idless_then_track : list json :=
  [JDict [("title", JStr "A")]; JDict [("id", JInt 1); ("title", JStr "B")]].

(** The items of an answer of [get_playlist_tracks]. *)
Definition playlist_items (r : result PlaylistTracksResponse)
  : option (list TrackSearchResult) :=
  match r with
  | Ok resp => Some (r_items resp)
  | Raise _ => None
  end.

(** The ['year'] entry of an album record. *)
Definition year_of (album : json) : json :=
  match album with
  | JDict d => dget d "year"
  | _ => JNull
  end.

(** The years of the albums an answer of [get_artist] lists. *)
Definition album_years (r : result ArtistResponse) : option (list json) :=
  match r with
  | Ok resp => Some (map year_of (a_albums resp))
  | Raise _ => None
  end.

(** An album that has a [year] field and no [releaseDate]. *)
Definition year_only_album : json :=
  JDict [("id", JInt 1); ("title", JStr "A"); ("year", JStr "1999")].

(** An artist page holding [items] under
    [albums.rows[0].modules[0].pagedList.items]. *)
Definition paged_module (items : json) : json :=
  JDict [("pagedList", JDict [("items", items)])].

Definition page_row (items : json) : json :=
  JDict [("modules", JList [paged_module items])].

Definition nested_page (items : json) : json :=
  JDict [("albums", JDict [("rows", JList [page_row items])])].


(** The identifier the playlist search comprehension reads from an
    item: [pl.get('uuid') or pl.get('id')]. *)
Definition chosen_id (pl : json) : json :=
  match pl with
  | JDict d => py_or (dget d "uuid") (dget d "id")
  | _ => JNull
  end.

(** The items that pass the filter of the playlist comprehension. *)
Definition is_kept (pl : json) : bool :=
  match playlist_kept pl with
  | Ok true => true
  | _ => false
  end.

(** The ['id'] entry of the playlist object an answer of
    [get_playlist_tracks] carries. *)
Definition playlist_id_of (r : result PlaylistTracksResponse) : option json :=
  match r with
  | Ok resp =>
      match r_playlist resp with
      | JDict info => Some (dget info "id")
      | _ => None
      end
  | Raise _ => None
  end.

(** The canonical ids an answer of playlist search lists. *)
Definition playlist_ids (r : result (list PlaylistSearchResult))
  : option (list json) :=
  match r with
  | Ok out => Some (map p_id out)
  | Raise _ => None
  end.

(** A playlist item whose [uuid] is present but empty. *)
Definition empty_uuid_item : dict :=
  [("uuid", JStr EmptyString); ("id", JStr "x")].

(** The values the first two tiers of [get_cover_id] read, in the
    order they are read: the priority keys of the attributes, then the
    priority keys of the item itself. *)
Definition direct_candidates (attrs pl : dict) : list json :=
  (map (dget attrs) priority_keys ++ map (dget pl) priority_keys)%list.

(** The item of the cover-priority scenario. *)
Definition square_and_image : dict :=
  [("attributes", JDict [("squareImage", JStr "sq")]); ("image", JStr "im")].

(** The same item with white space around the attribute value. *)
Definition padded_square : dict :=
  [("attributes", JDict [("squareImage", JStr " sq ")]); ("image", JStr "im")].

(** *** The relationship tier in the words of its description *)

Definition first_truthy (l : list json) : json :=
  match find truthy l with
  | Some v => v
  | None => JNull
  end.

(** The id a cover relationship refers to: [data] is one reference
    object or a list of them, of which the first counts. *)
Definition referenced_id (cover_rel : json) : json :=
  match cover_rel with
  | JDict cr =>
      match dget cr "data" with
      | JDict ref => dget ref "id"
      | JList (JDict ref :: _) => dget ref "id"
      | _ => JNull
      end
  | _ => JNull
  end.

(** The [files] list of a sideloaded resource. *)
Definition resource_files (inc : dict) : list json :=
  match dget inc "attributes" with
  | JDict attrs =>
      match dget attrs "files" with
      | JList files => files
      | _ => []
      end
  | _ => []
  end.

Definition hrefs (files : list json) : list json :=
  map (fun file => match file with
                   | JDict f => dget f "href"
                   | _ => JNull
                   end) files.

(** The first sideloaded resource whose id has the string form of
    [cover_id]. *)
Definition sideload_lookup (incs : list dict) (cover_id : json)
  : option dict :=
  find (fun inc => String.eqb (py_str (dget inc "id")) (py_str cover_id)) incs.

(** The id the item's cover relationship refers to: the first truthy
    entry among [coverArt], [coverart] and [thumbnailArt] of its
    [relationships] decides; null when nothing is referenced. *)
Definition reference_of (pl : dict) : json :=
  match dget pl "relationships" with
  | JDict rel =>
      referenced_id (first_truthy [dget rel "coverArt"; dget rel "coverart";
                                   dget rel "thumbnailArt"])
  | _ => JNull
  end.

(** The cover the relationship tier resolves: the first non-empty
    [href] among the files of the referenced resource, the referenced
    id itself when the resource has none or is not sideloaded, null
    when no id is referenced. *)
Definition relationship_cover (incs : list dict) (pl : dict) : json :=
  let cover_id := reference_of pl in
  if truthy cover_id
  then match sideload_lookup incs cover_id with
       | Some inc =>
           match find truthy (hrefs (resource_files inc)) with
           | Some href => href
           | None => cover_id
           end
       | None => cover_id
       end
  else JNull.

(** A sideloaded resource of the expected shape: [attributes], when
    present, is an object whose [files], when non-empty, is a list of
    objects. *)
Definition well_formed_resource (inc : dict) : bool :=
  match lookup "attributes" inc with
  | None => true
  | Some (JDict attrs) =>
      match dget attrs "files" with
      | JList files => forallb is_dict files
      | f => negb (truthy f)
      end
  | Some _ => false
  end.

(** The payload pieces of the cover-via-relationship scenario. *)
Definition cover_art_reference (data : json) : dict :=
  [("relationships", JDict [("coverArt", JDict [("data", data)])])].

Definition resource_with_files (id : json) (files : list json) : json :=
  JDict [("id", id); ("attributes", JDict [("files", JList files)])].

(** Two file entries of which only the second has an [href]. *)
Definition second_file_href : list json :=
  [JDict []; JDict [("href", JStr "v")]].

(** The ['cover'] entry of the playlist object an answer of
    [get_playlist_tracks] carries. *)
Definition playlist_cover_of (r : result PlaylistTracksResponse)
  : option json :=
  match r with
  | Ok resp =>
      match r_playlist resp with
      | JDict info => Some (dget info "cover")
      | _ => None
      end
  | Raise _ => None
  end.

(** *** Track numbers in the words of their description *)

(** The positional [index] field of the wrapper of an item. *)
Definition wrapper_index (item : json) : json :=
  match item with
  | JDict i => dget i "index"
  | _ => JNull
  end.

(** The first truthy value among the track's [trackNumber], its
    [track_number] and the wrapper's [index]; [position] without one. *)
Definition track_number_chain (item : json) (track : dict) (position : nat)
  : json :=
  match find truthy [dget track "trackNumber"; dget track "track_number";
                     wrapper_index item] with
  | Some v => v
  | None => JInt (Z.of_nat position)
  end.

(** Track numbers in which the position of an item is counted among
    the items extracted so far ([extracted] of them before this call). *)
Fixpoint album_numbers (extracted : nat) (raw_items : list json) : list json :=
  match raw_items with
  | [] => []
  | item :: rest =>
      match unwrap_item item with
      | JDict track =>
          if has_key "id" track
          then track_number_chain item track (S extracted)
                 :: album_numbers (S extracted) rest
          else album_numbers extracted rest
      | _ => album_numbers extracted rest
      end
  end.

(** The tracks the album loop appends, [extracted] tracks being there
    already. *)
Fixpoint album_tracks (extracted : nat) (raw_items : list json) : list json :=
  match raw_items with
  | [] => []
  | item :: rest =>
      match unwrap_item item with
      | JDict track =>
          if has_key "id" track
          then JDict (dict_set "track_number"
                        (album_track_number item track extracted) track)
                 :: album_tracks (S extracted) rest
          else album_tracks extracted rest
      | _ => album_tracks extracted rest
      end
  end.

(** The [track_number] fields of an answer. *)
Definition track_numbers (r : result (list TrackSearchResult))
  : option (list json) :=
  match r with
  | Ok out => Some (map t_track_number out)
  | Raise _ => None
  end.

Definition playlist_track_numbers (r : result PlaylistTracksResponse)
  : option (list json) :=
  match r with
  | Ok resp => Some (map t_track_number (r_items resp))
  | Raise _ => None
  end.

(** Two wrapped items of which the first has no id. *)
Definition dropped_then_kept : list json :=
  [JDict [("item", JDict [("title", JStr "x")]); ("type", JStr "track")];
   JDict [("item", JDict [("id", JInt 7); ("title", JStr "B")]);
          ("type", JStr "track")]].

(** *** Artist names *)




(** *** The recursive locator in the words of its description *)

(** The nodes of a decoded value in depth-first order: the value, then
    the nodes of its children, the values of a dict in insertion order
    and the items of a list in sequence. *)
Fixpoint nodes (x : json) : list json :=
  x :: match x with
       | JDict d => flat_map (fun kv => match kv with (_, v) => nodes v end) d
       | JList l => flat_map nodes l
       | _ => []
       end.

(** A node matches when it is a dict with an [id] whose string form is
    that of the target and with a [name]. *)
Definition is_artist_match (target_id : json) (x : json) : bool :=
  match x with
  | JDict d =>
      has_key "id" d
      && String.eqb (py_str (dget d "id")) (py_str target_id)
      && has_key "name" d
  | _ => false
  end.

(** The first matching node in depth-first order, null without one. *)
Definition first_match (data target_id : json) : json :=
  match find (is_artist_match target_id) (nodes data) with
  | Some node => node
  | None => JNull
  end.

(** The nested artist page of the locator scenario. *)
Definition buried_artist : json :=
  nested_page
    (JList [JDict [("artist", JDict [("id", JStr "9"); ("name", JStr "Q")])]]).

(** *** Album order *)

(** [a] may stand before [b] in a list sorted newest first. *)
Definition by_year_desc (a b : json) : Prop :=
  get_album_timestamp b <= get_album_timestamp a.

(** An album record, as the endpoint builds it, with the given year. *)
Definition album_of_year (y : string) : json :=
  JDict [("id", JInt 1); ("title", JStr "T"); ("year", JStr y);
         ("cover", JNull); ("numberOfTracks", JNull)].

(** The albums the artist endpoint has gathered when it sorts: those
    of the artist page, or those of the direct albums endpoint when the
    page yields none. *)
Definition gathered_albums (artist_info direct_albums : json)
  : result (list json) :=
  if negb (truthy artist_info) then Ok []
  else
    albums <- page_albums artist_info ;;
    if is_nil albums then direct_endpoint_albums direct_albums
    else Ok albums.

(** An artist page whose albums carry the given [year] fields. *)
Definition page_of_years (years : list string) : json :=
  nested_page
    (JList (map (fun y => JDict [("id", JInt 1); ("title", JStr "T");
                                 ("year", JStr y)]) years)).

(** An artist page with three albums, the second without a year. *)
Definition three_album_page : json :=
  nested_page
    (JList [JDict [("id", JInt 1); ("title", JStr "A");
                   ("releaseDate", JStr "1999-01-01")];
            JDict [("id", JInt 2); ("title", JStr "B")];
            JDict [("id", JInt 3); ("title", JStr "C");
                   ("releaseDate", JStr "2022-03-04")]]).

(* ================================================================== *)
(** ** Further notions used in the statements *)

(** The [id] of the track an item wraps. *)
Definition item_id (item : json) : json :=
  match unwrap_item item with
  | JDict track => dget track "id"
  | _ => JNull
  end.

(** An extracted item for which the keyword arguments of the
    [TrackSearchResult(...)] call of track search evaluate without an
    exception: an object with [id] and [title] whose [artist] and
    [album], when present, are objects, the [artist] of the album being
    falsy or an object. *)
Definition absent_or_dict (x : option json) : bool :=
  match x with
  | None => true
  | Some v => is_dict v
  end.

Definition search_track_ok (track : json) : bool :=
  match track with
  | JDict t =>
      has_key "id" t && has_key "title" t
      && absent_or_dict (lookup "artist" t)
      && match lookup "album" t with
         | None => true
         | Some (JDict al) =>
             negb (truthy (dget al "artist")) || is_dict (dget al "artist")
         | Some _ => false
         end
  | _ => false
  end.

(** Whether a computation ended without an exception. *)
Definition is_ok {A : Type} (r : result A) : bool :=
  match r with
  | Ok _ => true
  | Raise _ => false
  end.

(** Values that validation accepts for a field declared [int], and
    for a field declared [Optional[...]]. *)
Definition accepts_int {V : LaxInt} (x : json) : bool := is_ok (validate_int x).

Definition accepts_opt (accepts : json -> bool) (x : json) : bool :=
  match x with
  | JNull => true
  | _ => accepts x
  end.

(** Arguments that have the types [TrackSearchResult] declares. *)
Definition track_fields_typed {V : LaxInt} (a : TrackSearchResult) : bool :=
  accepts_int (t_id a) && is_str (t_title a) && is_str (t_artist a)
  && accepts_opt is_str (t_album a)
  && accepts_opt accepts_int (t_track_number a)
  && accepts_opt accepts_int (t_duration a)
  && accepts_opt is_str (t_cover a)
  && accepts_opt is_str (t_quality a)
  && accepts_opt accepts_int (t_trackNumber a)
  && accepts_opt is_str (t_albumArtist a)
  && accepts_opt accepts_int (t_tidal_artist_id a)
  && accepts_opt accepts_int (t_tidal_album_id a).

(** Arguments that have the types [PlaylistSearchResult] declares. *)
Definition playlist_fields_typed {V : LaxInt} (a : PlaylistSearchResult)
  : bool :=
  is_str (p_id a) && is_str (p_title a)
  && accepts_opt is_str (p_creator a)
  && accepts_opt is_str (p_description a)
  && accepts_opt accepts_int (p_numberOfTracks a)
  && accepts_opt is_str (p_cover a).

(** An extracted item for which track search evaluates arguments of
    the declared types. *)
Definition search_track_typed {V : LaxInt} (track : json) : bool :=
  match search_track_args track with
  | Ok args => track_fields_typed args
  | Raise _ => false
  end.

(** A playlist item for which playlist search evaluates arguments of
    the declared types, or which it filters out. *)
Definition playlist_typed {V : LaxInt} (included pl : json) : bool :=
  negb (truthy (chosen_id pl))
  || match playlist_args included pl with
     | Ok args => playlist_fields_typed args
     | Raise _ => false
     end.

(** An album record as the artist endpoint builds it: the five keys in
    their order, with a year that is not null. *)
Definition is_album_record (album : json) : Prop :=
  exists id title year cover n : json,
    album = JDict [("id", id); ("title", title); ("year", year);
                   ("cover", cover); ("numberOfTracks", n)]
    /\ year <> JNull.

(** The ['name'] and ['id'] of the artist entry of an answer. *)
Definition artist_entry (resp : ArtistResponse) (k : string) : json :=
  match a_artist resp with
  | JDict a => dget a k
  | _ => JNull
  end.

(** The [name] of the object the recursive locator finds for the artist
    in the page, null when it finds none. *)
Definition located_name (artist_id : Z) (info : dict) : json :=
  match find_artist_object_recursive (JDict info) (JInt artist_id) with
  | JDict found => dget found "name"
  | _ => JNull
  end.

(** The name the artist endpoint falls back to. *)
Definition default_artist_name (artist_id : Z) : json :=
  JStr ("Artist " ++ string_of_Z artist_id).

(** An extracted playlist item whose filter and keyword arguments
    evaluate without an exception: an object which, when it passes the
    identifier filter, has no [attributes] entry or one that is an
    object. *)
Definition playlist_ok (pl : json) : bool :=
  match pl with
  | JDict d =>
      negb (truthy (chosen_id pl)) || absent_or_dict (lookup "attributes" d)
  | _ => false
  end.

(** The title playlist search gives an item. *)
Definition playlist_title (pl : json) : json :=
  match pl with
  | JDict d =>
      py_or (py_or (dget d "title") (dget d "name")) (JStr "Untitled Playlist")
  | _ => JNull
  end.

(** A string without white space at either end. *)
Definition trimmed (s : string) : Prop :=
  match chars s with
  | [] => True
  | c :: _ => is_space c = false
  end
  /\ match rev (chars s) with
     | [] => True
     | c :: _ => is_space c = false
     end.

(** An artist page with twelve track-like entries. *)
Definition twelve_track_page : json :=
  JDict [("tracks",
          JList (map (fun n => JDict [("id", JInt n); ("title", JStr "T");
                                      ("duration", JInt 100)])
                     [1; 2; 3; 4; 5; 6; 7; 8; 9; 10; 11; 12]))].

(* ================================================================== *)
(** ** [backend/troi_integration.py]: the playlist parser *)

Record TroiTrack : Type := mkTroiTrack {
  troi_title : string;
  troi_artist : string;
  troi_mbid : option string;
  troi_tidal_id : option Z;
  troi_tidal_artist_id : option Z;
  troi_tidal_album_id : option Z;
  troi_tidal_exists : bool;
  troi_album : option string
}.

(** [s.split(sep)] for a one-character separator; [cur] holds the
    characters of the current piece, latest first. *)
Fixpoint split_on (sep : ascii) (cur : list ascii) (l : list ascii)
  : list string :=
  match l with
  | [] => [of_chars (rev cur)]
  | c :: l' =>
      if Ascii.eqb c sep then of_chars (rev cur) :: split_on sep [] l'
      else split_on sep (c :: cur) l'
  end.

(** [output.split('\n')] *)
Definition split_lines (output : string) : list string :=
  split_on "010"%char [] (chars output).

(** [re.split(r'\s{2,}', s)]: the pieces between the maximal runs of two
    or more white-space characters.  [cur] holds the current piece and
    [pending] the white space read since its last character, both
    latest first. *)
Fixpoint split_runs (cur pending : list ascii) (l : list ascii)
  : list string :=
  match l with
  | [] =>
      if (2 <=? List.length pending)%nat
      then [of_chars (rev cur); EmptyString]
      else [of_chars (rev (pending ++ cur))]
  | c :: l' =>
      if is_space c then split_runs cur (c :: pending) l'
      else if (2 <=? List.length pending)%nat
           then of_chars (rev cur) :: split_runs [c] [] l'
           else split_runs (c :: pending ++ cur)%list [] l'
  end.

Definition re_split_spaces (s : string) : list string :=
  split_runs [] [] (chars s).

Definition non_empty (s : string) : bool :=
  match s with
  | EmptyString => false
  | _ => true
  end.

(** [s[:n]] on a string. *)
Definition str_prefix (n : nat) (s : string) : string :=
  of_chars (firstn n (chars s)).

(** The track a data line stands for, if any: the body of the loop of
    [_parse_output] from [re.split] on. *)
Definition parse_track_line (line : string) : option TroiTrack :=
  match re_split_spaces (strip line) with
  | p0 :: p1 :: more =>
      let title := strip p0 in
      let artist := strip p1 in
      let mbid := match more with
                  | p2 :: _ => Some (str_prefix 5 (strip p2))
                  | [] => None
                  end in
      if non_empty title && non_empty artist
      then Some (mkTroiTrack title artist mbid None None None false None)
      else None
  | _ => None
  end.

(** [for line in lines] of [_parse_output], [in_track_list] being the
    flag at that point. *)
Fixpoint parse_lines (in_track_list : bool) (lines : list string)
  : list TroiTrack :=
  match lines with
  | [] => []
  | line :: rest =>
      if str_contains "playlist:" line then parse_lines true rest
      else if negb in_track_list then parse_lines in_track_list rest
      else if str_contains "description:" line || negb (non_empty (strip line))
           then if str_contains "description:" line then []
                else parse_lines in_track_list rest
           else match parse_track_line line with
                | Some track => track :: parse_lines in_track_list rest
                | None => parse_lines in_track_list rest
                end
  end.

(** [TroiIntegration._parse_output] *)
Definition _parse_output (output : string) : list TroiTrack :=
  parse_lines false (split_lines output).

(** A line that opens the track list, and one that closes it. *)
Definition is_header (line : string) : bool := str_contains "playlist:" line.

Definition is_footer (line : string) : bool :=
  str_contains "description:" line && negb (str_contains "playlist:" line).

(** What the parser guarantees of a track. *)
Definition troi_track_ok (t : TroiTrack) : Prop :=
  troi_title t <> EmptyString /\ troi_artist t <> EmptyString
  /\ trimmed (troi_title t) /\ trimmed (troi_artist t)
  /\ match troi_mbid t with
     | Some m => (String.length m <= 5)%nat
     | None => True
     end.

(* ================================================================== *)
(** ** [backend/api/clients/spotify.py] *)

(** The dataclass [SpotifyTrack]; a dataclass checks no field type, so
    every field holds the value the code puts there. *)
Record SpotifyTrack : Type := mkSpotifyTrack {
  sp_title : json;
  sp_artist : json;
  sp_album : json;
  sp_duration_ms : json;
  sp_spotify_id : json
}.

(** [sep.join(l)]: a [TypeError] on the first element that is no
    string. *)
Definition py_join (sep : string) (l : list json) : result string :=
  strs <- comprehension (fun x => match x with
                                  | JStr s => Ok s
                                  | _ => Raise TypeError
                                  end) l ;;
  Ok (join sep strs).

(** The body of [for item in items] of [_fetch_tracks_from_api]: the
    tracks it appends. *)
Definition api_item_tracks (item : json) : result (list SpotifyTrack) :=
  track_obj <- py_get item "track" ;;
  if negb (truthy track_obj) then Ok []
  else
    is_local <- py_get track_obj "is_local" ;;
    if truthy is_local then Ok []
    else
      raw <- py_get_d track_obj "artists" (JList []) ;;
      l <- py_iter raw ;;
      artists <- comprehension (fun a => py_item a "name") l ;;
      artist_str <- (if truthy (JList artists) then py_join ", " artists
                     else Ok "Unknown Artist") ;;
      title <- py_get_d track_obj "name" (JStr "Unknown Title") ;;
      album_obj <- py_get_d track_obj "album" (JDict []) ;;
      album <- py_get album_obj "name" ;;
      duration_ms <- py_get track_obj "duration_ms" ;;
      spotify_id <- py_get track_obj "id" ;;
      Ok [mkSpotifyTrack title (JStr artist_str) album duration_ms spotify_id].

(** One turn of the [while True] loop on the decoded response [data]:
    the tracks it appends, and whether the loop goes on to the next
    offset. *)
Definition api_page (data : json) : result (list SpotifyTrack * bool) :=
  items <- py_get_d data "items" (JList []) ;;
  if negb (truthy items) then Ok ([], false)
  else
    l <- py_iter items ;;
    tracks <- for_each api_item_tracks l ;;
    next <- py_get data "next" ;;
    Ok (tracks, truthy next).

(** The [while True] loop from [offset] on.  [fetch offset] is what the
    request for that offset gives: the decoded body, or the exception
    of the request, of [raise_for_status] or of [response.json()].
    [None] when the loop has not ended within [fuel] requests. *)
Fixpoint api_pages (fetch : Z -> result json) (fuel : nat) (offset : Z)
  : option (result (list SpotifyTrack)) :=
  match fuel with
  | O => None
  | S fuel' =>
      match (data <- fetch offset ;; api_page data) with
      | Raise e => Some (Raise e)
      | Ok (tracks, false) => Some (Ok tracks)
      | Ok (tracks, true) =>
          match api_pages fetch fuel' (offset + 100) with
          | Some (Ok more) => Some (Ok (tracks ++ more)%list)
          | other => other
          end
      end
  end.

(** [SpotifyClient._fetch_tracks_from_api]; [fallback] is the answer of
    [_scrape_embed_tracks_fallback]. *)
Definition _fetch_tracks_from_api (fetch : Z -> result json)
  (fallback : list SpotifyTrack) (fuel : nat) : option (list SpotifyTrack) :=
  match api_pages fetch fuel 0 with
  | Some r => Some (try_except r fallback)
  | None => None
  end.

(** The body of [for item in items] of [_scrape_embed_tracks_fallback]. *)
Definition embed_item_tracks (item : json) : result (list SpotifyTrack) :=
  title <- py_get item "title" ;;
  artist <- py_get item "subtitle" ;;
  if truthy title && truthy artist
  then (duration <- py_get item "duration" ;;
        uid <- py_get item "uid" ;;
        Ok [mkSpotifyTrack title artist JNull duration uid])
  else Ok [].

(** [data['props']['pageProps']['state']['data']['entity']['trackList']] *)
Definition track_list (data : json) : result json :=
  a <- py_item data "props" ;;
  b <- py_item a "pageProps" ;;
  c <- py_item b "state" ;;
  d <- py_item c "data" ;;
  e <- py_item d "entity" ;;
  py_item e "trackList".

(** [_scrape_embed_tracks_fallback] from the decoded [data] on; the
    inner handler turns a [KeyError] of the path into an empty answer. *)
Definition embed_tracks (data : json) : result (list SpotifyTrack) :=
  match track_list data with
  | Raise (KeyError _) => Ok []
  | Raise e => Raise e
  | Ok items => l <- py_iter items ;; for_each embed_item_tracks l
  end.

(** [SpotifyClient._scrape_embed_tracks_fallback].  [page] is what the
    request and the search for the data script give: an exception (of
    the request, of [raise_for_status] or of [json.loads]), no match,
    or the decoded data. *)
Definition _scrape_embed_tracks_fallback (page : result (option json))
  : list SpotifyTrack :=
  try_except (m <- page ;;
              match m with
              | None => Ok []
              | Some data => embed_tracks data
              end) [].

(** A track of the embed page as the fallback emits it. *)
Definition embed_track_ok (t : SpotifyTrack) : Prop :=
  truthy (sp_title t) = true /\ truthy (sp_artist t) = true
  /\ sp_album t = JNull.

(** The items of a response that the API loop turns into tracks. *)
Definition api_kept (item : json) : bool :=
  match item with
  | JDict d =>
      match dget d "track" with
      | JDict t => truthy (JDict t) && negb (truthy (dget t "is_local"))
      | _ => false
      end
  | _ => false
  end.

(** The id of the track of an item. *)
Definition api_track_id (item : json) : json :=
  match item with
  | JDict d => match dget d "track" with
               | JDict t => dget t "id"
               | _ => JNull
               end
  | _ => JNull
  end.

(** The responses that [fetch] gives from [offset] on are the bodies
    listed in [pages], each yielding the tracks listed with it and
    asking for a further page. *)
Fixpoint pages_at (fetch : Z -> result json) (offset : Z)
  (pages : list (json * list SpotifyTrack)) : Prop :=
  match pages with
  | [] => True
  | (data, tracks) :: rest =>
      fetch offset = Ok data /\ api_page data = Ok (tracks, true)
      /\ pages_at fetch (offset + 100) rest
  end.

(** Two responses of the tracks API, the second without a further
    page, and the requests that give them. *)
Definition spotify_page (id : string) (next : json) : json :=
  JDict [("items",
          JList [JDict [("track",
                         JDict [("name", JStr "Song");
                                ("artists", JList [JDict [("name", JStr "A")];
                                                   JDict [("name", JStr "B")]]);
                                ("id", JStr id)])];
                 JDict [("track", JNull)]]);
         ("next", next)].

Definition two_pages (offset : Z) : result json :=
  if offset =? 0 then Ok (spotify_page "t1" (JStr "more"))
  else if offset =? 100 then Ok (spotify_page "t2" JNull)
  else Raise ValueError.

(** Decoded embed data whose track list holds [items]. *)
Definition embed_data (items : list json) : json :=
  JDict [("props",
    JDict [("pageProps",
      JDict [("state",
        JDict [("data",
          JDict [("entity",
            JDict [("trackList", JList items)])])])])])].
(* ================================================================== *)
(** * Properties *)

(** ** Basic facts about the Python operations *)

Lemma py_get_dict (d : dict) (k : string) : py_get (JDict d) k = Ok (dget d k).
Proof. reflexivity. Qed.

Lemma get_or_dict (d : dict) (k1 k2 : string) :
  get_or (JDict d) k1 k2 = Ok (py_or (dget d k1) (dget d k2)).
Proof.
  unfold get_or, py_or. rewrite py_get_dict. simpl.
  destruct (truthy (dget d k1)); reflexivity.
Qed.

Lemma truthy_not_null (v : json) : truthy v = true -> v <> JNull.
Proof. intros H E. subst v. discriminate H. Qed.

Lemma py_or_truthy (a b : json) :
  truthy b = true -> truthy (py_or a b) = true.
Proof. intros Hb. unfold py_or. destruct (truthy a) eqn:Ha; assumption. Qed.

Lemma comprehension_length {A B : Type} (f : A -> result B) (l : list A)
  (out : list B) :
  comprehension f l = Ok out -> List.length out = List.length l.
Proof.
  revert out. induction l as [|x l IH]; intros out H; simpl in H.
  - injection H as <-. reflexivity.
  - destruct (f x) as [y|e]; simpl in H; [|discriminate].
    destruct (comprehension f l) as [ys|e]; simpl in H; [|discriminate].
    injection H as <-. simpl. f_equal. apply IH. reflexivity.
Qed.

Lemma comprehension_raise {A B : Type} (f : A -> result B) (l : list A)
  (x : A) (e : exn) :
  In x l -> f x = Raise e -> exists e', comprehension f l = Raise e'.
Proof.
  induction l as [|y l IH]; intros Hin Hx; [contradiction|].
  simpl. destruct Hin as [->|Hin].
  - rewrite Hx. eexists. reflexivity.
  - destruct (f y) as [b|e1]; simpl; [|eexists; reflexivity].
    destruct (IH Hin Hx) as [e' ->]. eexists. reflexivity.
Qed.

(** Inversion of a successful monadic sequence, one step at a time. *)
Ltac inv_bind H :=
  match type of H with
  | bind ?m _ = Ok _ =>
      let E := fresh "E" in
      destruct m eqn:E; [cbv beta iota delta [bind] in H | discriminate H]
  | match ?m with Ok _ => _ | Raise _ => _ end = Ok _ =>
      let E := fresh "E" in
      destruct m eqn:E; [cbv beta iota in H | discriminate H]
  end.

Ltac inv_binds :=
  repeat match goal with
         | H : bind _ _ = Ok _ |- _ => inv_bind H
         | H : match ?m with Ok _ => _ | Raise _ => _ end = Ok _ |- _ =>
             inv_bind H
         | H : Ok _ = Ok _ |- _ => injection H as H; try subst
         end.

(* ------------------------------------------------------------------ *)
(** ** Field validation *)

Lemma validate_str_ok (x y : json) :
  validate_str x = Ok y -> y = x /\ is_str x = true.
Proof.
  destruct x; intros H; try discriminate H.
  injection H as <-. split; reflexivity.
Qed.

Lemma validate_int_ok {V : LaxInt} (x y : json) :
  validate_int x = Ok y ->
  (exists n : Z, y = JInt n) /\ (forall n : Z, x = JInt n -> y = x).
Proof.
  destruct x as [|b|n|s|l|d]; cbn [validate_int]; intros H;
    try discriminate H.
  - destruct (lax_int (JBool b)) as [m|]; [|discriminate H].
    injection H as <-. split; [eexists; reflexivity|discriminate].
  - injection H as <-. split; [eexists; reflexivity|reflexivity].
  - destruct (lax_int (JStr s)) as [m|]; [|discriminate H].
    injection H as <-. split; [eexists; reflexivity|discriminate].
Qed.

Lemma optional_int_ok {V : LaxInt} (x y : json) :
  optional validate_int x = Ok y ->
  (y = JNull \/ exists n : Z, y = JInt n)
  /\ (forall n : Z, x = JInt n -> y = x).
Proof.
  destruct x as [|b|n|s|l|d]; cbn [optional]; intros H;
    try (destruct (validate_int_ok _ _ H) as [Hn Hi];
         split; [right; exact Hn|exact Hi]).
  injection H as <-. split; [left; reflexivity|discriminate].
Qed.

(** What validation leaves of the arguments of a track record: the
    string fields as given, the integer fields as validated. *)
Lemma validated_track_fields {V : LaxInt} (args r : TrackSearchResult) :
  validated_track args = Ok r ->
  validate_int (t_id args) = Ok (t_id r)
  /\ t_title r = t_title args /\ t_artist r = t_artist args
  /\ is_str (t_title args) = true /\ is_str (t_artist args) = true
  /\ optional validate_int (t_track_number args) = Ok (t_track_number r).
Proof.
  intros H. unfold validated_track in H. repeat inv_bind H.
  injection H as <-. cbn [t_id t_title t_artist t_track_number].
  repeat match goal with
         | Hs : validate_str _ = Ok _ |- _ =>
             apply validate_str_ok in Hs; destruct Hs as [-> ?]
         end.
  repeat split; assumption.
Qed.

Lemma validated_playlist_fields {V : LaxInt} (args r : PlaylistSearchResult) :
  validated_playlist args = Ok r ->
  p_id r = p_id args /\ p_title r = p_title args
  /\ is_str (p_id args) = true /\ is_str (p_title args) = true.
Proof.
  intros H. unfold validated_playlist in H. repeat inv_bind H.
  injection H as <-. cbn [p_id p_title].
  repeat match goal with
         | Hs : validate_str _ = Ok _ |- _ =>
             apply validate_str_ok in Hs; destruct Hs as [-> ?]
         end.
  repeat split; assumption.
Qed.

Lemma validate_str_is_ok (x : json) : is_ok (validate_str x) = is_str x.
Proof. destruct x; reflexivity. Qed.

Lemma optional_is_ok (validate : json -> result json) (x : json) :
  is_ok (optional validate x) = accepts_opt (fun y => is_ok (validate y)) x.
Proof. destruct x; reflexivity. Qed.

Lemma accepts_opt_ext (f g : json -> bool) (x : json) :
  (forall y, f y = g y) -> accepts_opt f x = accepts_opt g x.
Proof. intros H. destruct x; cbn [accepts_opt]; try apply H. reflexivity. Qed.

(** Validation accepts the arguments of a record exactly when every
    field has its declared type. *)
Lemma validated_track_ok {V : LaxInt} (args : TrackSearchResult) :
  is_ok (validated_track args) = track_fields_typed args.
Proof.
  unfold validated_track, track_fields_typed, accepts_int.
  rewrite <- !validate_str_is_ok.
  rewrite <- !(accepts_opt_ext _ _ _ validate_str_is_ok).
  rewrite <- !optional_is_ok.
  cbv beta iota delta [bind].
  repeat match goal with
         | |- context [match ?m with Ok _ => _ | Raise _ => _ end] =>
             destruct m; cbn [is_ok andb]; rewrite ?andb_false_r;
             try reflexivity
         end.
Qed.

Lemma validated_playlist_ok {V : LaxInt} (args : PlaylistSearchResult) :
  is_ok (validated_playlist args) = playlist_fields_typed args.
Proof.
  unfold validated_playlist, playlist_fields_typed, accepts_int.
  rewrite <- !validate_str_is_ok.
  rewrite <- !(accepts_opt_ext _ _ _ validate_str_is_ok).
  rewrite <- !optional_is_ok.
  cbv beta iota delta [bind].
  repeat match goal with
         | |- context [match ?m with Ok _ => _ | Raise _ => _ end] =>
             destruct m; cbn [is_ok andb]; rewrite ?andb_false_r;
             try reflexivity
         end.
Qed.

(** What validation returns has the declared types. *)
Lemma validate_int_accepted {V : LaxInt} (x y : json) :
  validate_int x = Ok y -> accepts_int y = true.
Proof.
  intros H. destruct (validate_int_ok _ _ H) as [[n ->] _]. reflexivity.
Qed.

Lemma optional_int_accepted {V : LaxInt} (x y : json) :
  optional validate_int x = Ok y -> accepts_opt accepts_int y = true.
Proof.
  intros H. destruct (optional_int_ok _ _ H) as [[->|[n ->]] _]; reflexivity.
Qed.

Lemma optional_str_accepted (x y : json) :
  optional validate_str x = Ok y -> accepts_opt is_str y = true.
Proof.
  destruct x; intros H; try discriminate H; injection H as <-; reflexivity.
Qed.

Lemma validated_track_typed {V : LaxInt} (args r : TrackSearchResult) :
  validated_track args = Ok r -> track_fields_typed r = true.
Proof.
  intros H. unfold validated_track in H. repeat inv_bind H.
  injection H as <-. unfold track_fields_typed.
  cbn [t_id t_title t_artist t_album t_track_number t_duration t_cover
       t_quality t_trackNumber t_albumArtist t_tidal_artist_id
       t_tidal_album_id].
  repeat match goal with
         | Hs : validate_str _ = Ok _ |- _ =>
             apply validate_str_ok in Hs; destruct Hs as [-> ->]
         | Hs : validate_int _ = Ok _ |- _ =>
             apply validate_int_accepted in Hs; rewrite Hs
         | Hs : optional validate_int _ = Ok _ |- _ =>
             apply optional_int_accepted in Hs; rewrite Hs
         | Hs : optional validate_str _ = Ok _ |- _ =>
             apply optional_str_accepted in Hs; rewrite Hs
         end.
  reflexivity.
Qed.

Lemma validated_playlist_typed {V : LaxInt} (args r : PlaylistSearchResult) :
  validated_playlist args = Ok r -> playlist_fields_typed r = true.
Proof.
  intros H. unfold validated_playlist in H. repeat inv_bind H.
  injection H as <-. unfold playlist_fields_typed.
  cbn [p_id p_title p_creator p_description p_numberOfTracks p_cover].
  repeat match goal with
         | Hs : validate_str _ = Ok _ |- _ =>
             apply validate_str_ok in Hs; destruct Hs as [-> ->]
         | Hs : optional validate_int _ = Ok _ |- _ =>
             apply optional_int_accepted in Hs; rewrite Hs
         | Hs : optional validate_str _ = Ok _ |- _ =>
             apply optional_str_accepted in Hs; rewrite Hs
         end.
  reflexivity.
Qed.

(* ------------------------------------------------------------------ *)
(** ** Items without an identifier *)

Lemma album_loop_body_length (tracks : list json) (item : json) :
  List.length (album_loop_body tracks item) =
  (List.length tracks + if has_id (unwrap_item item) then 1 else 0)%nat.
Proof.
  unfold album_loop_body, has_id.
  destruct (unwrap_item item) as [| | | | |track]; try lia.
  destruct (has_key "id" track); [|lia].
  rewrite length_app. reflexivity.
Qed.

Lemma fold_album_loop_length (raw_items tracks : list json) :
  List.length (fold_left album_loop_body raw_items tracks) =
  (List.length tracks + List.length (id_items raw_items))%nat.
Proof.
  revert tracks. induction raw_items as [|item raw IH]; intros tracks; simpl.
  - lia.
  - rewrite IH, album_loop_body_length.
    destruct (has_id (unwrap_item item)); simpl; lia.
Qed.

(** The album endpoint keeps exactly the items that carry an id. *)
Lemma album_loop_length (raw_items : list json) :
  List.length (album_loop raw_items) = List.length (id_items raw_items).
Proof. unfold album_loop. rewrite fold_album_loop_length. reflexivity. Qed.

(** So does the playlist endpoint, whenever it answers. *)
Lemma playlist_loop_length {V : LaxInt} (raw_items : list json) :
  forall (idx : nat) (out : list TrackSearchResult),
    playlist_loop idx raw_items = Ok out ->
    List.length out = List.length (id_items raw_items).
Proof.
  induction raw_items as [|item raw IH]; intros idx out H; simpl in H.
  - injection H as <-. reflexivity.
  - unfold id_items; simpl. unfold has_id at 1.
    destruct (unwrap_item item) as [| | | | |track]; try (apply (IH _ _ H)).
    destruct (has_key "id" track); [|apply (IH _ _ H)].
    destruct (playlist_track_result idx item track) as [r|e]; simpl in H;
      [|discriminate].
    destruct (playlist_loop (S idx) raw) as [rs|e] eqn:E; simpl in H;
      [|discriminate].
    injection H as <-. simpl. f_equal. apply (IH _ _ E).
Qed.

(** Track search has no such guard: an extracted item without an id
    makes the whole comprehension fail. *)
Lemma search_track_result_needs_id {V : LaxInt} (track : json) :
  has_id track = false -> exists e, search_track_result track = Raise e.
Proof.
  intros H. unfold search_track_result, search_track_args.
  destruct track as [| | | | |d]; simpl; try (eexists; reflexivity).
  unfold has_id, has_key in H.
  destruct (lookup "id" d); [discriminate|]. eexists. reflexivity.
Qed.

Lemma search_tracks_items_needs_ids {V : LaxInt} (tracks : list json)
  (track : json) :
  In track tracks -> has_id track = false ->
  exists e, search_tracks_items tracks = Raise e.
Proof.
  intros Hin Hid. unfold search_tracks_items.
  destruct (match tracks with
            | [] => Ok JNull
            | t0 :: _ => _ <- py_get t0 "artist" ;; py_get t0 "album"
            end) as [v|e]; simpl; [|eexists; reflexivity].
  destruct (search_track_result_needs_id track Hid) as [e He].
  apply (comprehension_raise _ _ track e Hin He).
Qed.

(** C1.  Specified: every track-producing endpoint drops an item whose
    track object has no id and goes on with the others.  The album and
    playlist endpoints do; track search does not.  When the extracted
    sequence is [[{title: "A"}, {id: 1, title: "B"}]] the lookup
    [track['id']] raises [KeyError] and the endpoint answers with an
    error instead of the one track that carries an id, while the same
    two items give one track on the album endpoint and on the playlist
    endpoint. *)
Theorem C1_search_tracks_fails_on_idless_item {V : LaxInt} :
  search_tracks_items idless_then_track = Raise (KeyError "id")
  /\ (exists r, get_album_tracks 7 (JList idless_then_track) = Ok [r]
                /\ t_id r = JInt 1)
  /\ (exists r, playlist_items
                  (get_playlist_tracks "p" (JList idless_then_track))
                = Some [r] /\ t_id r = JInt 1).
Proof.
  split; [reflexivity|].
  split; eexists; split; reflexivity.
Qed.

(** The same failure seen from the payload, through the extraction
    step. *)
Lemma search_tracks_payload_fails {V : LaxInt} :
  search_tracks
    (JDict [("tracks", JDict [("items", JList idless_then_track)])])
  = Raise (KeyError "id").
Proof. reflexivity. Qed.

(* ------------------------------------------------------------------ *)
(** ** Album years *)

Lemma split_dash_first_app (a b : string) :
  ~ In "-"%char (chars a) ->
  split_dash_first (a ++ String "-"%char b) = a.
Proof.
  induction a as [|c a IH]; intros H; simpl.
  - reflexivity.
  - simpl in H. destruct (Ascii.eqb c "-"%char) eqn:Ec.
    + apply Ascii.eqb_eq in Ec. subst c. exfalso. apply H. left. reflexivity.
    + f_equal. apply IH. intros Hin. apply H. right. exact Hin.
Qed.

Lemma split_dash_first_no_dash (a : string) :
  ~ In "-"%char (chars a) -> split_dash_first a = a.
Proof.
  induction a as [|c a IH]; intros H; simpl; [reflexivity|].
  simpl in H. destruct (Ascii.eqb c "-"%char) eqn:Ec.
  - apply Ascii.eqb_eq in Ec. subst c. exfalso. apply H. left. reflexivity.
  - f_equal. apply IH. intros Hin. apply H. right. exact Hin.
Qed.

(** The nested descent: release date first, then the [year] field, then
    the empty string. *)
Lemma album_year_nested_spec (d : dict) :
  album_year_nested (JDict d) =
  match dget d "releaseDate" with
  | JStr (String c s) => Ok (JStr (split_dash_first (String c s)))
  | rd => if truthy rd then Raise AttributeError
          else Ok (py_or (dget d "year") (JStr EmptyString))
  end.
Proof.
  unfold album_year_nested. rewrite py_get_dict. simpl.
  unfold dget. destruct (lookup "releaseDate" d) as [rd|]; [|reflexivity].
  destruct rd as [|[]|n|[|c s]|[|x l]|[|x l]]; reflexivity.
Qed.

(** The two fallbacks: release date, else the empty string. *)
Lemma album_year_flat_spec (d : dict) :
  album_year_flat (JDict d) =
  match dget d "releaseDate" with
  | JStr (String c s) => Ok (JStr (split_dash_first (String c s)))
  | rd => if truthy rd then Raise AttributeError else Ok (JStr EmptyString)
  end.
Proof.
  unfold album_year_flat. rewrite py_get_dict. simpl.
  unfold dget. destruct (lookup "releaseDate" d) as [rd|]; [|reflexivity].
  destruct rd as [|[]|n|[|c s]|[|x l]|[|x l]]; reflexivity.
Qed.

Lemma py_or_not_null (a b : json) : b <> JNull -> py_or a b <> JNull.
Proof.
  intros Hb. unfold py_or. destruct (truthy a) eqn:Ha; [|exact Hb].
  apply truthy_not_null. exact Ha.
Qed.

Lemma album_year_never_null (d : dict) (y : json) :
  album_year_nested (JDict d) = Ok y \/ album_year_flat (JDict d) = Ok y ->
  y <> JNull.
Proof.
  rewrite album_year_nested_spec, album_year_flat_spec.
  intros [H|H];
    destruct (dget d "releaseDate") as [|[]|n|[|c s]|[|x l]|[|x l]];
    simpl in H; try discriminate H;
    try (destruct (n =? 0); simpl in H; try discriminate H);
    injection H as <-; try discriminate; apply py_or_not_null; discriminate.
Qed.

(** C7.  Specified: on all three album paths of the artist endpoint the
    year falls back to the album's literal [year] field when
    [releaseDate] is absent.  Only the nested [albums.rows] descent
    does so: for the album [{id: 1, title: "A", year: "1999"}] it
    records the year "1999", while the flat [albums.items] fallback and
    the direct-albums fallback record the empty string for the same
    album. *)
Theorem C7_flat_and_direct_paths_drop_year_field :
  album_years (get_artist 9 (nested_page (JList [year_only_album])) JNull)
    = Some [JStr "1999"]
  /\ album_years
       (get_artist 9
          (JDict [("albums", JDict [("items", JList [year_only_album])])])
          JNull) = Some [JStr EmptyString]
  /\ album_years
       (get_artist 9 (JDict [("name", JStr "N")])
          (JDict [("items", JList [year_only_album])]))
     = Some [JStr EmptyString].
Proof. split; [reflexivity|split; reflexivity]. Qed.

(* ------------------------------------------------------------------ *)
(** ** Playlist identifiers *)

Lemma comprehension_if_app {A B : Type} (keep : A -> result bool)
  (f : A -> result B) (l1 l2 : list A) (x : A) :
  keep x = Ok false ->
  comprehension_if keep f (l1 ++ x :: l2) = comprehension_if keep f (l1 ++ l2).
Proof.
  intros Hx. induction l1 as [|y l1 IH]; simpl.
  - rewrite Hx. reflexivity.
  - destruct (keep y) as [[|]|e]; simpl; try reflexivity.
    + destruct (f y) as [b|e]; simpl; [|reflexivity]. rewrite IH. reflexivity.
    + exact IH.
Qed.

(** C10.  Playlist search filters on the truth value of the identifier:
    an item whose [uuid] is absent or null and whose [id] is present
    but is the integer 0 or the empty string is left out, so the answer
    is the one obtained without the item. *)
Theorem C10_falsy_id_excluded {V : LaxInt} (included : json)
  (before after : list json) (pl : dict) :
  lookup "uuid" pl = None \/ lookup "uuid" pl = Some JNull ->
  lookup "id" pl = Some (JInt 0) \/ lookup "id" pl = Some (JStr EmptyString) ->
  playlist_kept (JDict pl) = Ok false
  /\ search_playlists_items included (before ++ JDict pl :: after)
     = search_playlists_items included (before ++ after).
Proof.
  intros Hu Hi.
  assert (Hk : playlist_kept (JDict pl) = Ok false).
  { unfold playlist_kept. rewrite get_or_dict. simpl.
    unfold py_or, dget.
    destruct Hu as [-> | ->]; destruct Hi as [-> | ->]; reflexivity. }
  split; [exact Hk|].
  unfold search_playlists_items. apply comprehension_if_app. exact Hk.
Qed.

Lemma C10_falsy_id_excluded_witness :
  search_playlists_items (V := no_coercion) (JList [])
    ([JDict [("uuid", JStr "a")]] ++
     JDict [("id", JInt 0); ("title", JStr "zero")] ::
     [JDict [("id", JStr "b")]])
  = search_playlists_items (V := no_coercion) (JList [])
      ([JDict [("uuid", JStr "a")]] ++ [JDict [("id", JStr "b")]]).
Proof.
  apply (C10_falsy_id_excluded (V := no_coercion) (JList [])
           [JDict [("uuid", JStr "a")]]
           [JDict [("id", JStr "b")]]
           [("id", JInt 0); ("title", JStr "zero")]).
  - left. reflexivity.
  - left. reflexivity.
Defined.

Lemma lookup_dict_set_other (k k' : string) (v : json) (d : dict) :
  k <> k' -> lookup k' (dict_set k v d) = lookup k' d.
Proof.
  intros Hk. induction d as [|[k0 v0] d IH]; simpl.
  - destruct (String.eqb k k') eqn:E; [|reflexivity].
    apply String.eqb_eq in E. contradiction.
  - destruct (String.eqb k0 k) eqn:E0; simpl.
    + apply String.eqb_eq in E0. subst k0.
      destruct (String.eqb k k') eqn:E; [|reflexivity].
      apply String.eqb_eq in E. contradiction.
    + destruct (String.eqb k0 k'); [reflexivity|exact IH].
Qed.

Lemma dget_dict_set_other (k k' : string) (v : json) (d : dict) :
  k <> k' -> dget (dict_set k v d) k' = dget d k'.
Proof. intros Hk. unfold dget. rewrite lookup_dict_set_other; auto. Qed.

Lemma playlist_lookup_included_id (cover_id : json) (included : list json) :
  forall info info' : dict,
    playlist_lookup_included cover_id info included = Ok info' ->
    dget info' "id" = dget info "id".
Proof.
  induction included as [|inc rest IH]; intros info info' H; simpl in H.
  - injection H as <-. reflexivity.
  - inv_bind H.
    destruct (String.eqb (py_str a) (py_str cover_id)).
    + repeat inv_bind H. injection H as <-.
      destruct (truthy a3);
        repeat match goal with
               | |- context [if ?c then _ else _] => destruct c
               end;
        repeat rewrite dget_dict_set_other by discriminate; reflexivity.
    + apply (IH _ _ H).
Qed.

Lemma resolve_playlist_cover_id (payload included : json) (info : dict) :
  exists info' : dict,
    resolve_playlist_cover payload included (JDict info) = JDict info'
    /\ dget info' "id" = dget info "id".
Proof.
  unfold resolve_playlist_cover.
  destruct (truthy (JDict info) && negb (truthy (dget info "cover")));
    [|exists info; split; reflexivity].
  destruct (playlist_cover_fallback payload included info) as [info'|e] eqn:E;
    simpl; [|exists info; split; reflexivity].
  exists info'. split; [reflexivity|].
  unfold playlist_cover_fallback in E. repeat inv_bind E.
  destruct a1 as [| | | |[|x l]|]; try (injection E as <-; reflexivity).
  repeat inv_bind E. apply (playlist_lookup_included_id _ _ _ _ E).
Qed.

Lemma playlist_info_of_shape (playlist_id : string) (pi info : json) :
  playlist_info_of playlist_id pi = Ok info ->
  exists (v : json) (rest : dict),
    info = JDict (("id", py_or v (JStr playlist_id)) :: rest).
Proof.
  intros H. unfold playlist_info_of in H. repeat inv_bind H.
  injection H as <-. inv_bind E3. injection E3 as <-.
  do 2 eexists. reflexivity.
Qed.

Lemma playlist_kept_true (pl : json) :
  playlist_kept pl = Ok true ->
  exists d : dict, pl = JDict d /\ truthy (chosen_id pl) = true.
Proof.
  intros H. destruct pl as [| | | | |d]; try discriminate H.
  exists d. split; [reflexivity|].
  unfold playlist_kept in H. rewrite get_or_dict in H. simpl in H.
  injection H as H. exact H.
Qed.

Lemma playlist_args_id (included : json) (d : dict)
  (args : PlaylistSearchResult) :
  playlist_args included (JDict d) = Ok args ->
  p_id args = JStr (py_str (chosen_id (JDict d))).
Proof.
  intros H. unfold playlist_args in H. rewrite get_or_dict in H.
  repeat inv_bind H. injection H as <-. simpl. injection E as <-. reflexivity.
Qed.

Lemma playlist_result_id {V : LaxInt} (included : json) (d : dict)
  (r : PlaylistSearchResult) :
  playlist_result included (JDict d) = Ok r ->
  p_id r = JStr (py_str (chosen_id (JDict d))).
Proof.
  intros H. unfold playlist_result in H. inv_bind H.
  destruct (validated_playlist_fields _ _ H) as [-> _].
  apply (playlist_args_id included). assumption.
Qed.

Lemma search_playlists_items_ids {V : LaxInt} (included : json)
  (playlists : list json) :
  forall out : list PlaylistSearchResult,
    search_playlists_items included playlists = Ok out ->
    Forall2 (fun pl r => p_id r = JStr (py_str (chosen_id pl))
                         /\ truthy (chosen_id pl) = true)
            (filter is_kept playlists) out.
Proof.
  unfold search_playlists_items.
  induction playlists as [|pl pls IH]; intros out H; simpl in H.
  - injection H as <-. constructor.
  - inv_bind H. simpl. unfold is_kept at 1. rewrite E.
    destruct a.
    + repeat inv_bind H. injection H as <-.
      destruct (playlist_kept_true pl E) as [d [-> Ht]].
      constructor; [|apply IH; reflexivity].
      split; [apply (playlist_result_id included d a E0)|exact Ht].
    + apply IH. exact H.
Qed.

Lemma get_playlist_tracks_id_not_null {V : LaxInt} (playlist_id : string)
  (payload : json) (resp : PlaylistTracksResponse) (info : dict) :
  get_playlist_tracks playlist_id payload = Ok resp ->
  r_playlist resp = JDict info ->
  dget info "id" <> JNull.
Proof.
  intros H Hinfo. unfold get_playlist_tracks in H.
  destruct (negb (truthy payload)).
  { injection H as <-. discriminate Hinfo. }
  set (p := unwrap_v2 payload) in *.
  inv_bind H. inv_bind H. repeat inv_bind H. injection H as <-.
  simpl in Hinfo. destruct a0 as [pinfo raw]. simpl in *.
  assert (Hshape : pinfo = JNull \/
            exists (v : json) (rest : dict),
              pinfo = JDict (("id", py_or v (JStr playlist_id)) :: rest)).
  { destruct p as [| | | |l|r]; try (injection E0 as <- _; left; reflexivity).
    right. repeat inv_bind E0. injection E0 as <- _.
    destruct (truthy a0).
    - match goal with
      | Hi : playlist_info_of _ _ = Ok _ |- _ =>
          apply (playlist_info_of_shape _ _ _ Hi)
      end.
    - match goal with
      | Hi : Ok (playlist_info_flat _ _) = Ok _ |- _ => injection Hi as <-
      end.
      unfold playlist_info_flat. do 2 eexists. reflexivity. }
  destruct Hshape as [-> | [v [rest ->]]]; [discriminate Hinfo|].
  destruct (resolve_playlist_cover_id p a
              (("id", py_or v (JStr playlist_id)) :: rest)) as [info' [Hr Hid]].
  rewrite Hr in Hinfo. injection Hinfo as <-. rewrite Hid.
  apply py_or_not_null. discriminate.
Qed.

(** C5, amended.  Playlist search emits as id the string form of the
    item's [uuid] when that is truthy, else of its [id]; an item is
    emitted only when that value is truthy, so the id is a string and
    never the string form of null.  The playlist object the
    playlist-tracks endpoint answers with never has a null id.  An
    input carrying only [uuid: "p-1"] yields the string "p-1" on both
    paths. *)
Theorem C5_playlist_id_normalization {V : LaxInt} :
  (forall (included : json) (playlists : list json)
          (out : list PlaylistSearchResult),
      search_playlists_items included playlists = Ok out ->
      Forall2 (fun pl r => p_id r = JStr (py_str (chosen_id pl))
                           /\ truthy (chosen_id pl) = true)
              (filter is_kept playlists) out)
  /\ (forall (playlist_id : string) (payload : json)
             (resp : PlaylistTracksResponse) (info : dict),
         get_playlist_tracks playlist_id payload = Ok resp ->
         r_playlist resp = JDict info ->
         dget info "id" <> JNull)
  /\ playlist_ids
       (search_playlists_items (JList []) [JDict [("uuid", JStr "p-1")]])
     = Some [JStr "p-1"]
  /\ playlist_id_of
       (get_playlist_tracks "requested"
          (JDict [("playlist", JDict [("uuid", JStr "p-1")])]))
     = Some (JStr "p-1").
Proof.
  split; [exact search_playlists_items_ids|].
  split; [exact get_playlist_tracks_id_not_null|].
  split; reflexivity.
Qed.

Lemma C5_playlist_id_normalization_witness :
  Forall2 (fun pl r => p_id r = JStr (py_str (chosen_id pl))
                       /\ truthy (chosen_id pl) = true)
          (filter is_kept [JDict [("id", JInt 0)]; JDict [("id", JInt 12)]])
          [mkPlaylist (JStr "12") (JStr "Untitled Playlist")
                      JNull JNull JNull JNull]
  /\ dget [("id", JStr "requested"); ("title", JStr "T");
           ("description", JNull); ("numberOfTracks", JNull);
           ("cover", JNull); ("relationships", JDict [])] "id" <> JNull.
Proof.
  split.
  - apply (proj1 (C5_playlist_id_normalization (V := no_coercion)) (JList [])
             [JDict [("id", JInt 0)]; JDict [("id", JInt 12)]]).
    reflexivity.
  - apply (proj1 (proj2 (C5_playlist_id_normalization (V := no_coercion)))
             "requested" (JDict [("title", JStr "T")])
             (mkPlaylistTracks
                (JDict [("id", JStr "requested"); ("title", JStr "T");
                        ("description", JNull); ("numberOfTracks", JNull);
                        ("cover", JNull); ("relationships", JDict [])])
                [])).
    + reflexivity.
    + reflexivity.
Defined.

(** The claim reads [uuid] whenever it is present; the code reads it
    only when it is truthy.  An item whose [uuid] is present but empty
    and whose [id] is "x" is emitted with the id "x", not with the
    string form of its [uuid]. *)
Lemma C5_counterexample :
  lookup "uuid" empty_uuid_item = Some (JStr EmptyString)
  /\ playlist_ids (search_playlists_items (V := no_coercion) (JList [])
                     [JDict empty_uuid_item])
     = Some [JStr "x"]
  /\ JStr "x" <> JStr (py_str (JStr EmptyString)).
Proof. split; [reflexivity|]. split; [reflexivity|discriminate]. Qed.

(* ------------------------------------------------------------------ *)
(** ** Cover resolution: the direct tiers *)

Lemma find_app_first {A : Type} (f : A -> bool) (l1 l2 : list A) :
  find f (l1 ++ l2) =
  match find f l1 with
  | Some x => Some x
  | None => find f l2
  end.
Proof.
  induction l1 as [|x l1 IH]; simpl; [reflexivity|].
  destruct (f x); [reflexivity|exact IH].
Qed.

Lemma cover_from_attributes_step (attrs : dict) (key : string)
  (keys : list string) :
  cover_from_attributes (JDict attrs) (key :: keys) =
  if truthy (dget attrs key)
  then Ok (Some (JStr (strip (py_str (dget attrs key)))))
  else cover_from_attributes (JDict attrs) keys.
Proof. reflexivity. Qed.

Lemma cover_from_root_step (pl : dict) (key : string) (keys : list string) :
  cover_from_root (JDict pl) (key :: keys) =
  if truthy (dget pl key)
  then Ok (Some (JStr (strip (py_str (dget pl key)))))
  else cover_from_root (JDict pl) keys.
Proof.
  cbn [cover_from_root]. unfold py_in, py_get, py_get_d, has_key, dget.
  destruct (lookup key pl) as [v|]; simpl; [|reflexivity].
  destruct (truthy v); reflexivity.
Qed.

Lemma cover_from_attributes_spec (attrs : dict) (keys : list string) :
  cover_from_attributes (JDict attrs) keys =
  Ok (option_map (fun v => JStr (strip (py_str v)))
        (find truthy (map (dget attrs) keys))).
Proof.
  induction keys as [|key keys IH]; [reflexivity|].
  rewrite cover_from_attributes_step. cbn [map find].
  destruct (truthy (dget attrs key)); [reflexivity|exact IH].
Qed.

Lemma cover_from_root_spec (pl : dict) (keys : list string) :
  cover_from_root (JDict pl) keys =
  Ok (option_map (fun v => JStr (strip (py_str v)))
        (find truthy (map (dget pl) keys))).
Proof.
  induction keys as [|key keys IH]; [reflexivity|].
  rewrite cover_from_root_step. cbn [map find].
  destruct (truthy (dget pl key)); [reflexivity|exact IH].
Qed.

Lemma get_cover_id_tiers (included : json) (pl attrs : dict) :
  sub_object (JDict pl) "attributes" = Ok (JDict attrs) ->
  get_cover_id included (JDict pl) =
  match find truthy (direct_candidates attrs pl) with
  | Some v => Ok (JStr (strip (py_str v)))
  | None => Ok (try_except (cover_from_relationships included (JDict pl)) JNull)
  end.
Proof.
  intros Ha. unfold get_cover_id, direct_candidates.
  rewrite Ha. cbv beta iota delta [bind].
  rewrite cover_from_attributes_spec, cover_from_root_spec, find_app_first.
  destruct (find truthy (map (dget attrs) priority_keys));
    cbn [option_map]; [reflexivity|].
  destruct (find truthy (map (dget pl) priority_keys)); reflexivity.
Qed.

(** C2, amended.  Cover resolution is a first-match-wins chain over the
    keys squareImage, image, cover, picture, imageId of the attributes
    sub-object, then the same keys of the item itself, then the
    relationship lookup.  The first truthy value found in the first two
    tiers is returned in string form with surrounding white space
    removed, whatever the later tiers hold; the relationship lookup
    decides only when both tiers have none.  An item with
    [attributes.squareImage = "sq"] and top-level [image = "im"]
    resolves to "sq". *)
Theorem C2_cover_priority_chain :
  (forall (included : json) (pl attrs : dict),
      sub_object (JDict pl) "attributes" = Ok (JDict attrs) ->
      get_cover_id included (JDict pl) =
      match find truthy (direct_candidates attrs pl) with
      | Some v => Ok (JStr (strip (py_str v)))
      | None =>
          Ok (try_except (cover_from_relationships included (JDict pl)) JNull)
      end)
  /\ get_cover_id (JList []) (JDict square_and_image) = Ok (JStr "sq").
Proof. split; [exact get_cover_id_tiers|reflexivity]. Qed.

Lemma C2_cover_priority_chain_witness :
  get_cover_id (JList [JDict [("id", JStr "42")]]) (JDict square_and_image)
  = Ok (JStr "sq").
Proof.
  exact (proj1 C2_cover_priority_chain (JList [JDict [("id", JStr "42")]])
           square_and_image [("squareImage", JStr "sq")] eq_refl).
Defined.

(** The resolved cover is not the value found but its trimmed string
    form: for [attributes.squareImage = " sq "] the first non-empty
    value in chain order is " sq " and the resolved cover is "sq". *)
Lemma C2_counterexample :
  find truthy (direct_candidates [("squareImage", JStr " sq ")] padded_square)
    = Some (JStr " sq ")
  /\ get_cover_id (JList []) (JDict padded_square) = Ok (JStr "sq")
  /\ get_cover_id (JList []) (JDict padded_square) <> Ok (JStr " sq ").
Proof. split; [reflexivity|split; [reflexivity|discriminate]]. Qed.

(* ------------------------------------------------------------------ *)
(** ** Cover resolution: the relationship tier *)

Lemma first_href_spec (cover_id : json) (files : list json) :
  forallb is_dict files = true ->
  first_href cover_id files =
  Ok (match find truthy (hrefs files) with
      | Some href => href
      | None => cover_id
      end).
Proof.
  induction files as [|file files IH]; intros Hwf; [reflexivity|].
  cbn [forallb] in Hwf. apply andb_prop in Hwf. destruct Hwf as [Hf Hfs].
  destruct file as [| | | | |f]; try discriminate Hf.
  cbn [first_href hrefs map find]. rewrite py_get_dict.
  cbv beta iota delta [bind].
  destruct (truthy (dget f "href")); [reflexivity|apply IH; exact Hfs].
Qed.

Lemma matched_resource_cover (cover_id : json) (inc : dict) :
  well_formed_resource inc = true ->
  (attrs_inc <- sub_object (JDict inc) "attributes" ;;
   f <- py_get attrs_inc "files" ;;
   files <- py_iter (py_or f (JList [])) ;;
   first_href cover_id files)
  = Ok (match find truthy (hrefs (resource_files inc)) with
        | Some href => href
        | None => cover_id
        end).
Proof.
  unfold well_formed_resource, resource_files, sub_object, py_get_d, dget.
  cbn [is_dict].
  destruct (lookup "attributes" inc) as [[| | | | |attrs]|]; intros Hwf;
    try discriminate Hwf; [|reflexivity].
  cbv beta iota delta [bind]. rewrite py_get_dict. unfold dget in *.
  destruct (lookup "files" attrs) as [[|[]|n|[|c s]|[|x l]|[|x l]]|];
    try discriminate Hwf; try reflexivity.
  - simpl in Hwf. destruct (n =? 0) eqn:En; [|discriminate Hwf].
    unfold py_or. simpl. rewrite En. reflexivity.
  - unfold py_or. cbn [truthy py_iter]. apply first_href_spec. exact Hwf.
Qed.

Lemma lookup_included_spec (cover_id : json) (incs : list dict) :
  forallb well_formed_resource incs = true ->
  lookup_included cover_id (map JDict incs) =
  Ok (match sideload_lookup incs cover_id with
      | Some inc =>
          match find truthy (hrefs (resource_files inc)) with
          | Some href => href
          | None => cover_id
          end
      | None => cover_id
      end).
Proof.
  induction incs as [|inc incs IH]; intros Hwf; [reflexivity|].
  cbn [forallb] in Hwf. apply andb_prop in Hwf. destruct Hwf as [Hi His].
  cbn [map lookup_included]. rewrite py_get_dict.
  cbv beta iota delta [bind]. unfold sideload_lookup. cbn [find].
  destruct (String.eqb (py_str (dget inc "id")) (py_str cover_id)).
  - apply (matched_resource_cover cover_id inc Hi).
  - apply IH. exact His.
Qed.

Lemma referenced_cover_spec (incs : list dict) (cover_rel : json) :
  forallb well_formed_resource incs = true ->
  try_except (referenced_cover (JList (map JDict incs)) cover_rel) JNull =
  let cover_id := referenced_id cover_rel in
  if truthy cover_id
  then match sideload_lookup incs cover_id with
       | Some inc =>
           match find truthy (hrefs (resource_files inc)) with
           | Some href => href
           | None => cover_id
           end
       | None => cover_id
       end
  else JNull.
Proof.
  intros Hwf. unfold referenced_cover, referenced_id.
  destruct cover_rel as [| | | | |cr]; try reflexivity.
  cbn [is_dict]. rewrite py_get_dict. cbv beta iota delta [bind].
  destruct (dget cr "data") as [| | | |[|x l]|ref]; try reflexivity.
  - destruct x as [| | | | |ref]; try reflexivity.
    rewrite py_get_dict. cbv zeta.
    destruct (truthy (dget ref "id")); [|reflexivity].
    cbn [py_iter]. rewrite (lookup_included_spec _ _ Hwf). reflexivity.
  - cbv zeta. destruct (truthy (dget ref "id")); [|reflexivity].
    cbn [py_iter]. rewrite (lookup_included_spec _ _ Hwf). reflexivity.
Qed.

Lemma referenced_id_falsy (c : json) : truthy c = false -> referenced_id c = JNull.
Proof.
  destruct c as [| | | | |[|kv d]]; intros H; try reflexivity. discriminate H.
Qed.

Lemma cover_relationship_dict (rel : dict) :
  cover_relationship (JDict rel) =
  Ok (py_or (dget rel "coverArt")
            (py_or (dget rel "coverart") (dget rel "thumbnailArt"))).
Proof.
  unfold cover_relationship. rewrite py_get_dict, get_or_dict.
  cbv beta iota delta [bind]. unfold py_or.
  destruct (truthy (dget rel "coverArt")); reflexivity.
Qed.

Lemma referenced_id_chain (a b c : json) :
  referenced_id (py_or a (py_or b c)) = referenced_id (first_truthy [a; b; c]).
Proof.
  unfold py_or, first_truthy. cbn [find].
  destruct (truthy a); [reflexivity|].
  destruct (truthy b); [reflexivity|].
  destruct (truthy c) eqn:Hc; [reflexivity|].
  apply referenced_id_falsy. exact Hc.
Qed.

Lemma reference_of_lookup (pl : dict) :
  reference_of pl =
  match lookup "relationships" pl with
  | Some (JDict rel) =>
      referenced_id (first_truthy [dget rel "coverArt"; dget rel "coverart";
                                   dget rel "thumbnailArt"])
  | _ => JNull
  end.
Proof.
  unfold reference_of, dget at 1.
  destruct (lookup "relationships" pl) as [[| | | | |rel]|]; reflexivity.
Qed.

Lemma cover_from_relationships_spec (incs : list dict) (pl : dict) :
  forallb well_formed_resource incs = true ->
  try_except (cover_from_relationships (JList (map JDict incs)) (JDict pl))
             JNull
  = relationship_cover incs pl.
Proof.
  intros Hwf. unfold cover_from_relationships, relationship_cover.
  rewrite reference_of_lookup. unfold sub_object, py_get_d. cbn [is_dict].
  destruct (lookup "relationships" pl) as [[| | | | |rel]|];
    try reflexivity.
  cbv beta iota delta [bind]. rewrite cover_relationship_dict.
  rewrite (referenced_cover_spec incs _ Hwf), referenced_id_chain.
  reflexivity.
Qed.

Lemma referenced_cover_none (included cover_rel : json) :
  truthy (referenced_id cover_rel) = false ->
  try_except (referenced_cover included cover_rel) JNull = JNull.
Proof.
  unfold referenced_cover, referenced_id.
  destruct cover_rel as [| | | | |cr]; try reflexivity.
  cbn [is_dict]. rewrite py_get_dict. cbv beta iota delta [bind].
  destruct (dget cr "data") as [| | | |[|x l]|ref]; try reflexivity.
  - destruct x as [| | | | |ref]; try reflexivity.
    rewrite py_get_dict. intros ->. reflexivity.
  - intros ->. reflexivity.
Qed.

Lemma cover_from_relationships_none (included : json) (pl : dict) :
  truthy (reference_of pl) = false ->
  try_except (cover_from_relationships included (JDict pl)) JNull = JNull.
Proof.
  rewrite reference_of_lookup. unfold cover_from_relationships.
  unfold sub_object, py_get_d. cbn [is_dict].
  destruct (lookup "relationships" pl) as [[| | | | |rel]|];
    try reflexivity.
  cbv beta iota delta [bind]. rewrite cover_relationship_dict.
  rewrite <- referenced_id_chain. apply referenced_cover_none.
Qed.

Lemma referenced_cover_truthy (included cover_rel : json) :
  truthy (referenced_id cover_rel) = true ->
  referenced_cover included cover_rel
  = (incs <- py_iter included ;;
     lookup_included (referenced_id cover_rel) incs).
Proof.
  unfold referenced_cover, referenced_id.
  destruct cover_rel as [| | | | |cr]; try discriminate.
  cbn [is_dict]. rewrite py_get_dict. cbv beta iota delta [bind].
  destruct (dget cr "data") as [| | | |[|x l]|ref]; try discriminate.
  - destruct x as [| | | | |ref]; try discriminate.
    rewrite py_get_dict. intros ->. reflexivity.
  - intros ->. reflexivity.
Qed.

Lemma cover_from_relationships_truthy (included : json) (pl : dict) :
  truthy (reference_of pl) = true ->
  cover_from_relationships included (JDict pl)
  = (incs <- py_iter included ;; lookup_included (reference_of pl) incs).
Proof.
  rewrite reference_of_lookup. unfold cover_from_relationships.
  unfold sub_object, py_get_d. cbn [is_dict].
  destruct (lookup "relationships" pl) as [[| | | | |rel]|];
    try discriminate.
  cbv beta iota delta [bind]. rewrite cover_relationship_dict.
  rewrite <- referenced_id_chain. apply referenced_cover_truthy.
Qed.

(** An entry of the sideloaded table that is not an object, met before
    any match, ends the lookup with an exception. *)
Lemma lookup_included_stray (cover_id x : json) (rest : list json) :
  is_dict x = false ->
  exists e : exn, lookup_included cover_id (x :: rest) = Raise e.
Proof.
  intros Hx. destruct x; try discriminate Hx; eexists; reflexivity.
Qed.

(** So does a matching resource whose [attributes] entry is not an
    object. *)
Lemma lookup_included_bad_attributes (cover_id a : json) (inc : dict)
  (rest : list json) :
  String.eqb (py_str (dget inc "id")) (py_str cover_id) = true ->
  lookup "attributes" inc = Some a -> is_dict a = false ->
  exists e : exn, lookup_included cover_id (JDict inc :: rest) = Raise e.
Proof.
  intros Hid Ha Hd. cbn [lookup_included]. rewrite py_get_dict.
  cbv beta iota delta [bind]. rewrite Hid.
  unfold sub_object, py_get_d. cbn [is_dict]. rewrite Ha.
  destruct a; try discriminate Hd; eexists; reflexivity.
Qed.

(** C3, amended.  For an item (an object whose [attributes] entry is
    absent or an object) without a direct cover field the resolver of
    playlist search reads [relationships.coverArt], else [coverart],
    else [thumbnailArt], takes the referenced id from a single
    reference object or from the first element of a list of references
    and looks it up in the sideloaded table.  When the table is a list
    of objects in which every [attributes] entry is an object and every
    [files] entry is empty or a list of objects, it returns the first
    non-empty [href] among the [files] entries of the first matching
    resource, and the raw referenced id when that resource has no such
    [href] or when no resource matches.  The resolver never fails:
    without a referenced id it yields null, and so it does when the
    table starts with an entry that is not an object or with a matching
    resource whose [attributes] entry is not an object.
    [relationships.coverArt.data = [{id: "42"}]] with
    [included = [{id: "42", attributes: {files: [{href: "u"}]}}]]
    resolves to "u", in playlist search and in the playlist-tracks
    endpoint alike. *)
Theorem C3_cover_via_relationship {V : LaxInt} :
  (forall (incs : list dict) (pl attrs : dict),
      sub_object (JDict pl) "attributes" = Ok (JDict attrs) ->
      find truthy (direct_candidates attrs pl) = None ->
      forallb well_formed_resource incs = true ->
      get_cover_id (JList (map JDict incs)) (JDict pl)
      = Ok (relationship_cover incs pl))
  /\ (forall (included : json) (pl attrs : dict),
         sub_object (JDict pl) "attributes" = Ok (JDict attrs) ->
         find truthy (direct_candidates attrs pl) = None ->
         truthy (reference_of pl) = false ->
         get_cover_id included (JDict pl) = Ok JNull)
  /\ (forall (included : json) (pl attrs : dict),
         sub_object (JDict pl) "attributes" = Ok (JDict attrs) ->
         find truthy (direct_candidates attrs pl) = None ->
         exists c : json, get_cover_id included (JDict pl) = Ok c)
  /\ (forall (x : json) (rest : list json) (pl attrs : dict),
         sub_object (JDict pl) "attributes" = Ok (JDict attrs) ->
         find truthy (direct_candidates attrs pl) = None ->
         truthy (reference_of pl) = true ->
         is_dict x = false ->
         get_cover_id (JList (x :: rest)) (JDict pl) = Ok JNull)
  /\ (forall (inc : dict) (a : json) (rest : list json) (pl attrs : dict),
         sub_object (JDict pl) "attributes" = Ok (JDict attrs) ->
         find truthy (direct_candidates attrs pl) = None ->
         truthy (reference_of pl) = true ->
         String.eqb (py_str (dget inc "id")) (py_str (reference_of pl)) = true ->
         lookup "attributes" inc = Some a -> is_dict a = false ->
         get_cover_id (JList (JDict inc :: rest)) (JDict pl) = Ok JNull)
  /\ get_cover_id
       (JList [resource_with_files (JStr "42") [JDict [("href", JStr "u")]]])
       (JDict (cover_art_reference (JList [JDict [("id", JStr "42")]])))
     = Ok (JStr "u")
  /\ get_cover_id
       (JList [resource_with_files (JStr "42") [JDict [("href", JStr "u")]]])
       (JDict (cover_art_reference (JDict [("id", JStr "42")])))
     = Ok (JStr "u")
  /\ playlist_cover_of
       (get_playlist_tracks "requested"
          (JDict (("included",
                   JList [resource_with_files (JStr "42")
                            [JDict [("href", JStr "u")]]])
                    :: cover_art_reference
                         (JList [JDict [("id", JStr "42")]]))))
     = Some (JStr "u").
Proof.
  split.
  { intros incs pl attrs Ha Hnone Hwf.
    rewrite (get_cover_id_tiers _ _ _ Ha), Hnone.
    rewrite (cover_from_relationships_spec _ _ Hwf). reflexivity. }
  split.
  { intros included pl attrs Ha Hnone Href.
    rewrite (get_cover_id_tiers _ _ _ Ha), Hnone.
    rewrite (cover_from_relationships_none _ _ Href). reflexivity. }
  split.
  { intros included pl attrs Ha Hnone.
    rewrite (get_cover_id_tiers _ _ _ Ha), Hnone. eexists. reflexivity. }
  split.
  { intros x rest pl attrs Ha Hnone Href Hx.
    rewrite (get_cover_id_tiers _ _ _ Ha), Hnone.
    rewrite (cover_from_relationships_truthy _ _ Href). cbn [py_iter].
    cbv beta iota delta [bind].
    destruct (lookup_included_stray (reference_of pl) x rest Hx) as [e ->].
    reflexivity. }
  split.
  { intros inc a rest pl attrs Ha Hnone Href Hid Hat Hd.
    rewrite (get_cover_id_tiers _ _ _ Ha), Hnone.
    rewrite (cover_from_relationships_truthy _ _ Href). cbn [py_iter].
    cbv beta iota delta [bind].
    destruct (lookup_included_bad_attributes _ a inc rest Hid Hat Hd)
      as [e ->].
    reflexivity. }
  split; [reflexivity|]. split; reflexivity.
Qed.

Lemma C3_cover_via_relationship_witness :
  get_cover_id
    (JList (map JDict
              [[("id", JInt 7)];
               [("id", JStr "42");
                ("attributes",
                 JDict [("files", JList [JDict [("href", JStr "u")]])])]]))
    (JDict (cover_art_reference (JList [JDict [("id", JStr "42")]])))
  = Ok (JStr "u")
  /\ get_cover_id (JList [JNull])
       (JDict (cover_art_reference (JList [JDict [("id", JStr "42")]])))
     = Ok JNull
  /\ get_cover_id (JList [JDict [("id", JStr "42"); ("attributes", JNull)]])
       (JDict (cover_art_reference (JList [JDict [("id", JStr "42")]])))
     = Ok JNull.
Proof.
  split; [|split].
  - exact (proj1 (C3_cover_via_relationship (V := no_coercion))
             [[("id", JInt 7)];
              [("id", JStr "42");
               ("attributes",
                JDict [("files", JList [JDict [("href", JStr "u")]])])]]
             (cover_art_reference (JList [JDict [("id", JStr "42")]]))
             [] eq_refl eq_refl eq_refl).
  - exact (proj1 (proj2 (proj2 (proj2
                    (C3_cover_via_relationship (V := no_coercion)))))
             JNull []
             (cover_art_reference (JList [JDict [("id", JStr "42")]]))
             [] eq_refl eq_refl eq_refl eq_refl).
  - exact (proj1 (proj2 (proj2 (proj2 (proj2
                    (C3_cover_via_relationship (V := no_coercion))))))
             [("id", JStr "42"); ("attributes", JNull)] JNull []
             (cover_art_reference (JList [JDict [("id", JStr "42")]]))
             [] eq_refl eq_refl eq_refl eq_refl eq_refl eq_refl).
Defined.

(** The resolver does not stop at the first file entry: when only the
    second entry of [files] carries an [href], that one is returned,
    which is neither the first entry's [href] (it has none) nor the raw
    referenced id. *)
Lemma C3_counterexample :
  get_cover_id
    (JList [resource_with_files (JStr "42") second_file_href])
    (JDict (cover_art_reference (JList [JDict [("id", JStr "42")]])))
  = Ok (JStr "v")
  /\ nth 0 (hrefs second_file_href) JNull = JNull
  /\ JStr "v" <> nth 0 (hrefs second_file_href) JNull
  /\ JStr "v" <> JStr "42".
Proof.
  split; [reflexivity|]. split; [reflexivity|].
  split; discriminate.
Qed.

(* ------------------------------------------------------------------ *)
(** ** Track numbers *)

Ltac by_truth_values :=
  repeat match goal with
         | H : truthy ?x = _ |- context [truthy ?x] => rewrite H
         | |- context [negb true] => cbn [negb]
         | |- context [negb false] => cbn [negb]
         | |- context [truthy JNull] => cbn [truthy]
         end.

Lemma album_track_number_chain (item : json) (track : dict) (count : nat) :
  album_track_number item track count = track_number_chain item track (S count).
Proof.
  unfold album_track_number, track_number_chain, py_or, wrapper_index.
  cbv zeta. cbn [find]. rewrite Nat2Z.inj_succ. unfold Z.succ.
  destruct (truthy (dget track "trackNumber")) eqn:H1;
    destruct (truthy (dget track "track_number")) eqn:H2;
    destruct item as [| | | | |i]; by_truth_values; try reflexivity;
    destruct (truthy (dget i "index")) eqn:H3; by_truth_values; reflexivity.
Qed.

Lemma track_number_chain_truthy (item : json) (track : dict) (n : nat) :
  truthy (track_number_chain item track (S n)) = true.
Proof.
  unfold track_number_chain.
  destruct (find truthy _) as [v|] eqn:E.
  - apply find_some in E. apply E.
  - cbn [truthy]. rewrite Nat2Z.inj_succ.
    destruct (Z.succ (Z.of_nat n) =? 0) eqn:Ez; [|reflexivity].
    apply Z.eqb_eq in Ez. lia.
Qed.

Lemma fold_album_loop_tracks (raw_items tracks : list json) :
  fold_left album_loop_body raw_items tracks =
  (tracks ++ album_tracks (List.length tracks) raw_items)%list.
Proof.
  revert tracks. induction raw_items as [|item raw IH]; intros tracks.
  - cbn [fold_left album_tracks]. rewrite app_nil_r. reflexivity.
  - cbn [fold_left album_tracks]. rewrite IH. unfold album_loop_body.
    destruct (unwrap_item item) as [| | | | |track]; try reflexivity.
    destruct (has_key "id" track); [|reflexivity].
    rewrite length_app, <- app_assoc. cbn [List.length app].
    replace (List.length tracks + 1)%nat with (S (List.length tracks)) by lia.
    reflexivity.
Qed.

Lemma dget_dict_set_same (k : string) (v : json) (d : dict) :
  dget (dict_set k v d) k = v.
Proof.
  unfold dget. induction d as [|[k0 v0] d IH]; cbn [dict_set lookup].
  - rewrite String.eqb_refl. reflexivity.
  - destruct (String.eqb k0 k) eqn:E; cbn [lookup].
    + rewrite String.eqb_refl. reflexivity.
    + rewrite E. exact IH.
Qed.

(** C4.  Specified: an item without track number fields and without a
    wrapper index gets its 1-based position in the extracted sequence.
    The album endpoint does so; the playlist endpoint takes the place
    in the raw sequence instead, dropped items included.  For the two
    wrapped items [{item: {title: "x"}}, {item: {id: 7, title: "B"}}]
    the only extracted track gets track number 2 in the playlist
    endpoint and 1 in the album endpoint, whether the items come as a
    bare list or under [items]. *)
Theorem C4_playlist_position_counts_dropped_items {V : LaxInt} :
  playlist_track_numbers
    (get_playlist_tracks "p" (JDict [("items", JList dropped_then_kept)]))
    = Some [JInt 2]
  /\ track_numbers
       (get_album_tracks 7 (JDict [("items", JList dropped_then_kept)]))
     = Some [JInt 1]
  /\ playlist_track_numbers
       (get_playlist_tracks "p" (JList dropped_then_kept))
     = Some [JInt 2]
  /\ track_numbers (get_album_tracks 7 (JList dropped_then_kept))
     = Some [JInt 1].
Proof. repeat split. Qed.

(* ------------------------------------------------------------------ *)
(** ** The items behind the records of the track endpoints *)

Lemma comprehension_Forall2 {A B : Type} (f : A -> result B) (l : list A) :
  forall out : list B,
    comprehension f l = Ok out -> Forall2 (fun x y => f x = Ok y) l out.
Proof.
  induction l as [|x l IH]; intros out H; cbn [comprehension] in H.
  - injection H as <-. constructor.
  - repeat inv_bind H. injection H as <-.
    constructor; [assumption|apply IH; reflexivity].
Qed.

Lemma Forall2_compose {A B C : Type} (R : A -> B -> Prop) (S : B -> C -> Prop)
  (T : A -> C -> Prop) (la : list A) (lb : list B) (lc : list C) :
  (forall a b c, R a b -> S b c -> T a c) ->
  Forall2 R la lb -> Forall2 S lb lc -> Forall2 T la lc.
Proof.
  intros HT HR. revert lc. induction HR as [|a b la lb Hab _ IH];
    intros lc HS; inversion HS; subst; constructor; eauto.
Qed.


(** The tracks the album loop gathers are the tracks of the items that
    carry an id, each with its [track_number] entry set. *)
Lemma album_tracks_items (raw_items : list json) :
  forall extracted : nat,
    Forall2 (fun item track =>
               exists v : json,
                 track = JDict (dict_set "track_number" v (item_track item)))
            (id_items raw_items) (album_tracks extracted raw_items).
Proof.
  induction raw_items as [|item raw IH]; intros extracted; [constructor|].
  unfold id_items in *. cbn [filter album_tracks]. unfold has_id at 1.
  destruct (unwrap_item item) as [| | | | |track] eqn:Eu; try apply IH.
  destruct (has_key "id" track); [|apply IH].
  constructor; [|apply IH].
  unfold item_track. rewrite Eu. eexists. reflexivity.
Qed.

Lemma get_album_tracks_inv {V : LaxInt} (album_id : Z) (payload : json)
  (out : list TrackSearchResult) :
  get_album_tracks album_id payload = Ok out ->
  comprehension (album_track_result album_id)
                (album_tracks 0 (album_raw_items payload)) = Ok out.
Proof.
  unfold get_album_tracks, album_raw_items.
  destruct (negb (truthy payload)); [intros H; exact H|].
  cbv zeta. intros H. repeat inv_bind H.
  cbv beta iota delta [bind]. unfold album_loop in H.
  rewrite fold_album_loop_tracks in H. cbn [app List.length] in H.
  rewrite ?E0. exact H.
Qed.

Lemma get_album_tracks_items {V : LaxInt} (album_id : Z) (payload : json)
  (out : list TrackSearchResult) :
  get_album_tracks album_id payload = Ok out ->
  Forall2 (fun item r =>
             exists v : json,
               album_track_result album_id
                 (JDict (dict_set "track_number" v (item_track item))) = Ok r)
          (id_items (album_raw_items payload)) out.
Proof.
  intros H. apply get_album_tracks_inv, comprehension_Forall2 in H.
  eapply Forall2_compose; [|apply album_tracks_items|exact H].
  intros item track r [v ->] Hr. exists v. exact Hr.
Qed.

Lemma playlist_loop_items {V : LaxInt} (raw_items : list json) :
  forall (idx : nat) (out : list TrackSearchResult),
    playlist_loop idx raw_items = Ok out ->
    Forall2 (fun item r =>
               exists i : nat,
                 playlist_track_result i item (item_track item) = Ok r)
            (id_items raw_items) out.
Proof.
  induction raw_items as [|item raw IH]; intros idx out H.
  - injection H as <-. constructor.
  - cbn [playlist_loop] in H. unfold id_items in *. cbn [filter].
    unfold has_id at 1.
    destruct (unwrap_item item) as [| | | | |track] eqn:Eu;
      try (apply (IH _ _ H)).
    destruct (has_key "id" track); [|apply (IH _ _ H)].
    repeat inv_bind H. injection H as <-.
    constructor; [|eapply IH; eassumption].
    unfold item_track. rewrite Eu. eexists. eassumption.
Qed.

Lemma get_playlist_tracks_inv {V : LaxInt} (playlist_id : string)
  (payload : json) (resp : PlaylistTracksResponse) :
  get_playlist_tracks playlist_id payload = Ok resp ->
  playlist_loop 0 (playlist_raw_sequence payload) = Ok (r_items resp).
Proof.
  unfold get_playlist_tracks, playlist_raw_sequence.
  destruct (negb (truthy payload)); [intros H; injection H as <-; reflexivity|].
  cbv zeta. intros H. inv_bind H. inv_bind H. repeat inv_bind H.
  injection H as <-. cbn [r_items].
  destruct (unwrap_v2 payload) as [| | | |l|r].
  - injection E0 as <-. cbn [snd py_iter] in E1. injection E1 as <-. assumption.
  - injection E0 as <-. cbn [snd py_iter] in E1. injection E1 as <-. assumption.
  - injection E0 as <-. cbn [snd py_iter] in E1. injection E1 as <-. assumption.
  - injection E0 as <-. cbn [snd py_iter] in E1. injection E1 as <-. assumption.
  - injection E0 as <-. cbn [snd py_iter] in E1. injection E1 as <-. assumption.
  - repeat inv_bind E0. injection E0 as <-. cbn [snd] in E1. rewrite E1.
    assumption.
Qed.

Lemma get_playlist_tracks_items {V : LaxInt} (playlist_id : string)
  (payload : json) (resp : PlaylistTracksResponse) :
  get_playlist_tracks playlist_id payload = Ok resp ->
  Forall2 (fun item r =>
             exists i : nat,
               playlist_track_result i item (item_track item) = Ok r)
          (id_items (playlist_raw_sequence payload)) (r_items resp).
Proof.
  intros H. apply get_playlist_tracks_inv in H.
  apply (playlist_loop_items _ _ _ H).
Qed.

(* ------------------------------------------------------------------ *)
(** ** Artist display names *)















(* ------------------------------------------------------------------ *)
(** ** The recursive locator *)

(** Structural induction on decoded values, with the hypothesis on
    every element of a list and on every value of a dict. *)
Lemma json_induction (P : json -> Prop) :
  P JNull ->
  (forall b, P (JBool b)) ->
  (forall n, P (JInt n)) ->
  (forall s, P (JStr s)) ->
  (forall l, Forall P l -> P (JList l)) ->
  (forall d, Forall (fun kv => P (snd kv)) d -> P (JDict d)) ->
  forall x, P x.
Proof.
  intros Hnull Hbool Hint Hstr Hlist Hdict.
  fix IH 1. intros [| b | n | s | l | d].
  - exact Hnull.
  - apply Hbool.
  - apply Hint.
  - apply Hstr.
  - apply Hlist. induction l as [|y l IHl]; constructor; [apply IH|exact IHl].
  - apply Hdict. induction d as [|[k v] d IHd]; constructor;
      [apply IH|exact IHd].
Qed.

Lemma is_artist_match_truthy (target_id x : json) :
  is_artist_match target_id x = true -> truthy x = true.
Proof.
  destruct x as [| | | | |[|kv d]]; intros H; try discriminate H; reflexivity.
Qed.

Lemma first_match_truthy (data target_id : json) :
  truthy (first_match data target_id) =
  match find (is_artist_match target_id) (nodes data) with
  | Some _ => true
  | None => false
  end.
Proof.
  unfold first_match.
  destruct (find (is_artist_match target_id) (nodes data)) as [n|] eqn:E;
    [|reflexivity].
  apply find_some in E. apply (is_artist_match_truthy target_id n), E.
Qed.

Lemma find_artist_object_recursive_spec (target_id data : json) :
  find_artist_object_recursive data target_id = first_match data target_id.
Proof.
  induction data as [| b | n | s | l IHl | d IHd] using json_induction;
    try reflexivity.
  - (* a list: the items in sequence *)
    unfold first_match. cbn [find_artist_object_recursive nodes find].
    cbn [is_artist_match].
    induction IHl as [|x l Hx _ IH]; [reflexivity|].
    cbn [flat_map]. rewrite find_app_first, Hx.
    pose proof (first_match_truthy x target_id) as Ht.
    unfold first_match in *.
    destruct (find (is_artist_match target_id) (nodes x)) as [n|].
    + rewrite Ht. reflexivity.
    + rewrite Ht. exact IH.
  - (* a dict: itself, then its values in insertion order *)
    unfold first_match. cbn [find_artist_object_recursive nodes find].
    cbn [is_artist_match].
    destruct (has_key "id" d
              && String.eqb (py_str (dget d "id")) (py_str target_id)
              && has_key "name" d); [reflexivity|].
    induction IHd as [|[k v] d Hv _ IH]; [reflexivity|].
    cbn [flat_map snd] in *. rewrite find_app_first, Hv.
    pose proof (first_match_truthy v target_id) as Ht.
    unfold first_match in *.
    destruct (find (is_artist_match target_id) (nodes v)) as [n|].
    + rewrite Ht. reflexivity.
    + rewrite Ht. exact IH.
Qed.

(** C8.  The locator is a depth-first search: it returns the first node,
    in the order that visits a node before its children and the
    children in sequence, that is a dict with an [id] equal to the
    target under string comparison and with a [name]; it returns null
    when there is none.  In the nested structure
    [{albums: {rows: [{modules: [{pagedList: {items: [{artist: {id: "9",
    name: "Q"}}]}}]}]}}] the target "9" finds [{id: "9", name: "Q"}]. *)
Theorem C8_recursive_locator :
  (forall data target_id : json,
      find_artist_object_recursive data target_id =
      match find (is_artist_match target_id) (nodes data) with
      | Some node => node
      | None => JNull
      end)
  /\ find_artist_object_recursive buried_artist (JStr "9")
     = JDict [("id", JStr "9"); ("name", JStr "Q")].
Proof.
  split; [|reflexivity].
  intros data target_id. apply find_artist_object_recursive_spec.
Qed.

(* ------------------------------------------------------------------ *)
(** ** Album order *)

Section SortDesc.

Variable A : Type.
Variable key : A -> Z.

Let ge_key (a b : A) : Prop := key b <= key a.

Lemma insert_desc_perm (x : A) (l : list A) :
  Permutation (x :: l) (insert_desc key x l).
Proof.
  induction l as [|y l IH]; cbn [insert_desc]; [apply Permutation_refl|].
  destruct (key x <? key y); [|apply Permutation_refl].
  apply perm_trans with (y :: x :: l); [apply perm_swap|].
  apply perm_skip. exact IH.
Qed.

Lemma sort_desc_perm (l : list A) : Permutation l (sort_desc key l).
Proof.
  induction l as [|x l IH]; cbn [sort_desc]; [apply perm_nil|].
  apply perm_trans with (x :: sort_desc key l).
  - apply perm_skip. exact IH.
  - apply insert_desc_perm.
Qed.

Lemma insert_desc_sorted (x : A) (l : list A) :
  StronglySorted ge_key l -> StronglySorted ge_key (insert_desc key x l).
Proof.
  induction 1 as [|y l Hs IH Hy]; cbn [insert_desc].
  - constructor; constructor.
  - destruct (key x <? key y) eqn:E.
    + apply Z.ltb_lt in E. constructor; [exact IH|].
      apply (Permutation_Forall (insert_desc_perm x l)).
      constructor; [unfold ge_key; lia|exact Hy].
    + apply Z.ltb_ge in E. constructor.
      * constructor; assumption.
      * constructor; [exact E|].
        apply (Forall_impl _ (P := ge_key y)); [|exact Hy].
        intros b Hb. unfold ge_key in *. lia.
Qed.

Lemma sort_desc_sorted (l : list A) : StronglySorted ge_key (sort_desc key l).
Proof.
  induction l as [|x l IH]; cbn [sort_desc]; [constructor|].
  apply insert_desc_sorted. exact IH.
Qed.

(** Elements of equal key keep their original order. *)
Lemma insert_desc_stable (k : Z) (x : A) (l : list A) :
  filter (fun a => key a =? k) (insert_desc key x l) =
  filter (fun a => key a =? k) (x :: l).
Proof.
  induction l as [|y l IH]; cbn [insert_desc]; [reflexivity|].
  destruct (key x <? key y) eqn:E; [|reflexivity].
  apply Z.ltb_lt in E. cbn [filter] in *. rewrite IH.
  destruct (key x =? k) eqn:Ex; destruct (key y =? k) eqn:Ey;
    try reflexivity.
  apply Z.eqb_eq in Ex, Ey. lia.
Qed.

Lemma sort_desc_stable (k : Z) (l : list A) :
  filter (fun a => key a =? k) (sort_desc key l) =
  filter (fun a => key a =? k) l.
Proof.
  induction l as [|x l IH]; cbn [sort_desc]; [reflexivity|].
  rewrite insert_desc_stable. cbn [filter]. rewrite IH. reflexivity.
Qed.

Lemma sorted_after (l1 l2 : list A) (a : A) :
  StronglySorted ge_key (l1 ++ a :: l2) -> Forall (ge_key a) l2.
Proof.
  induction l1 as [|x l1 IH]; cbn [app]; intros H;
    apply StronglySorted_inv in H; destruct H as [Hs Hf].
  - exact Hf.
  - apply IH. exact Hs.
Qed.

Lemma sorted_before (l1 l2 : list A) (a : A) :
  StronglySorted ge_key (l1 ++ a :: l2) -> Forall (fun b => ge_key b a) l1.
Proof.
  induction l1 as [|x l1 IH]; cbn [app]; intros H; [constructor|].
  apply StronglySorted_inv in H. destruct H as [Hs Hf].
  constructor; [|apply IH; exact Hs].
  rewrite Forall_forall in Hf. apply Hf. apply in_or_app. right. left.
  reflexivity.
Qed.

End SortDesc.

Lemma get_album_timestamp_missing (d : dict) :
  lookup "year" d = None -> get_album_timestamp (JDict d) = 0.
Proof.
  intros H. unfold get_album_timestamp, py_get_d. rewrite H. reflexivity.
Qed.

Lemma get_album_timestamp_string (d : dict) (s : string) :
  lookup "year" d = Some (JStr s) ->
  get_album_timestamp (JDict d) =
  match parse_int s with
  | Some n => n
  | None => 0
  end.
Proof.
  intros H. unfold get_album_timestamp, py_get_d. rewrite H.
  destruct s as [|c s]; [reflexivity|].
  cbn [truthy negb py_int].
  destruct (parse_int (String c s)); reflexivity.
Qed.

Lemma get_artist_albums (artist_id : Z) (artist_info direct_albums : json)
  (resp : ArtistResponse) :
  get_artist artist_id artist_info direct_albums = Ok resp ->
  exists albums : list json,
    gathered_albums artist_info direct_albums = Ok albums
    /\ a_albums resp = sort_albums albums.
Proof.
  unfold get_artist, gathered_albums. destruct (negb (truthy artist_info)).
  { intros H. injection H as <-. exists []. split; reflexivity. }
  destruct artist_info as [| | | | |info]; try discriminate.
  intros H. repeat inv_bind H. injection H as <-.
  cbv beta iota delta [bind]. eexists. split; [eassumption|reflexivity].
Qed.

(** C6, amended.  The albums the artist endpoint lists are the albums
    it gathered, rearranged so that the year parsed as an integer never
    increases along the list.  A missing year and a year string that
    does not parse count as 0: such an album comes after every album
    whose year parses to a positive number (no album before it has a
    negative year, none after it a positive one).  Albums with years
    "2020", "", "2022", "1999" come out as "2022", "2020", "1999", "". *)
Theorem C6_albums_sorted_by_year :
  (forall (artist_id : Z) (artist_info direct_albums : json)
          (resp : ArtistResponse),
      get_artist artist_id artist_info direct_albums = Ok resp ->
      exists albums : list json,
        gathered_albums artist_info direct_albums = Ok albums
        /\ Permutation albums (a_albums resp)
        /\ StronglySorted by_year_desc (a_albums resp))
  /\ (forall d : dict,
         lookup "year" d = None -> get_album_timestamp (JDict d) = 0)
  /\ (forall (d : dict) (s : string),
         lookup "year" d = Some (JStr s) ->
         get_album_timestamp (JDict d) =
         match parse_int s with
         | Some n => n
         | None => 0
         end)
  /\ (forall (artist_id : Z) (artist_info direct_albums : json)
             (resp : ArtistResponse) (before after : list json) (a : json),
         get_artist artist_id artist_info direct_albums = Ok resp ->
         a_albums resp = (before ++ a :: after)%list ->
         get_album_timestamp a = 0 ->
         Forall (fun b => 0 <= get_album_timestamp b) before
         /\ Forall (fun b => get_album_timestamp b <= 0) after)
  /\ album_years (get_artist 9 (page_of_years ["2020"; EmptyString; "2022";
                                               "1999"]) JNull)
     = Some [JStr "2022"; JStr "2020"; JStr "1999"; JStr EmptyString].
Proof.
  split.
  { intros artist_id artist_info direct_albums resp H.
    destruct (get_artist_albums _ _ _ _ H) as [albums [Hg ->]].
    exists albums. split; [exact Hg|].
    split; [apply sort_desc_perm|apply sort_desc_sorted]. }
  split; [exact get_album_timestamp_missing|].
  split; [exact get_album_timestamp_string|].
  split; [|reflexivity].
  intros artist_id artist_info direct_albums resp before after a H Hs Ha.
  destruct (get_artist_albums _ _ _ _ H) as [albums [_ Hsort]].
  pose proof (sort_desc_sorted _ get_album_timestamp albums) as Hsorted.
  unfold sort_albums in Hsort. rewrite <- Hsort, Hs in Hsorted.
  split.
  - apply sorted_before in Hsorted. rewrite Ha in Hsorted. exact Hsorted.
  - apply sorted_after in Hsorted. rewrite Ha in Hsorted. exact Hsorted.
Qed.

Lemma C6_albums_sorted_by_year_witness :
  get_album_timestamp (album_of_year "20x0") = 0
  /\ get_album_timestamp (album_of_year "2020") = 2020
  /\ (exists albums : list json,
        gathered_albums three_album_page JNull = Ok albums
        /\ Permutation albums
             [JDict [("id", JInt 3); ("title", JStr "C"); ("year", JStr "2022");
                     ("cover", JNull); ("numberOfTracks", JNull)];
              JDict [("id", JInt 1); ("title", JStr "A"); ("year", JStr "1999");
                     ("cover", JNull); ("numberOfTracks", JNull)];
              JDict [("id", JInt 2); ("title", JStr "B");
                     ("year", JStr EmptyString);
                     ("cover", JNull); ("numberOfTracks", JNull)]]
        /\ StronglySorted by_year_desc
             [JDict [("id", JInt 3); ("title", JStr "C"); ("year", JStr "2022");
                     ("cover", JNull); ("numberOfTracks", JNull)];
              JDict [("id", JInt 1); ("title", JStr "A"); ("year", JStr "1999");
                     ("cover", JNull); ("numberOfTracks", JNull)];
              JDict [("id", JInt 2); ("title", JStr "B");
                     ("year", JStr EmptyString);
                     ("cover", JNull); ("numberOfTracks", JNull)]])
  /\ Forall (fun b => 0 <= get_album_timestamp b)
            [JDict [("id", JInt 3); ("title", JStr "C"); ("year", JStr "2022");
                    ("cover", JNull); ("numberOfTracks", JNull)];
             JDict [("id", JInt 1); ("title", JStr "A"); ("year", JStr "1999");
                    ("cover", JNull); ("numberOfTracks", JNull)]].
Proof.
  split; [|split; [|split]].
  - exact (proj1 (proj2 (proj2 C6_albums_sorted_by_year))
             [("id", JInt 1); ("title", JStr "T"); ("year", JStr "20x0");
              ("cover", JNull); ("numberOfTracks", JNull)]
             "20x0" eq_refl).
  - exact (proj1 (proj2 (proj2 C6_albums_sorted_by_year))
             [("id", JInt 1); ("title", JStr "T"); ("year", JStr "2020");
              ("cover", JNull); ("numberOfTracks", JNull)]
             "2020" eq_refl).
  - exact (proj1 C6_albums_sorted_by_year 9 three_album_page JNull _ eq_refl).
  - apply (proj1 (proj1 (proj2 (proj2 (proj2 C6_albums_sorted_by_year)))
                    9 three_album_page JNull
                    (mkArtistResponse
                       (JDict [("id", JInt 9); ("name", JStr "Artist 9");
                               ("picture", JNull); ("popularity", JNull)])
                       []
                       [JDict [("id", JInt 3); ("title", JStr "C");
                               ("year", JStr "2022");
                               ("cover", JNull); ("numberOfTracks", JNull)];
                        JDict [("id", JInt 1); ("title", JStr "A");
                               ("year", JStr "1999");
                               ("cover", JNull); ("numberOfTracks", JNull)];
                        JDict [("id", JInt 2); ("title", JStr "B");
                               ("year", JStr EmptyString);
                               ("cover", JNull); ("numberOfTracks", JNull)]])
                    [JDict [("id", JInt 3); ("title", JStr "C");
                            ("year", JStr "2022");
                            ("cover", JNull); ("numberOfTracks", JNull)];
                     JDict [("id", JInt 1); ("title", JStr "A");
                            ("year", JStr "1999");
                            ("cover", JNull); ("numberOfTracks", JNull)]]
                    []
                    (JDict [("id", JInt 2); ("title", JStr "B");
                            ("year", JStr EmptyString);
                            ("cover", JNull); ("numberOfTracks", JNull)])
                    eq_refl eq_refl eq_refl)).
Defined.

(** An album whose year parses to a negative number sorts after the
    albums without a year: with a first album that has no year and a
    second of year "-1", the album without a year comes first, not
    last. *)
Lemma C6_counterexample :
  album_years (get_artist 9 (page_of_years [EmptyString; "-1"]) JNull)
    = Some [JStr EmptyString; JStr "-1"]
  /\ get_album_timestamp (album_of_year EmptyString) = 0
  /\ get_album_timestamp (album_of_year "-1") = -1
  /\ album_years (get_artist 9 (page_of_years [EmptyString; "-1"]) JNull)
     <> Some [JStr "-1"; JStr EmptyString].
Proof.
  split; [reflexivity|]. split; [reflexivity|]. split; [reflexivity|].
  discriminate.
Qed.

(* ================================================================== *)
(** * Further properties of the router *)

(** ** Payload shapes of the album and playlist endpoints *)

Lemma lookup_some_truthy (d : dict) (k : string) (v : json) :
  lookup k d = Some v -> truthy (JDict d) = true.
Proof. destruct d; [discriminate|reflexivity]. Qed.

Lemma unwrap_v2_envelope (e : dict) (data : json) :
  lookup "data" e = Some data -> has_key "version" e = true ->
  unwrap_v2 (JDict e) = data.
Proof. intros Hd Hv. unfold unwrap_v2. rewrite Hd, Hv. reflexivity. Qed.

(** The album endpoint reads a version envelope [{data: X, version: v}]
    as it reads [X] itself, provided [X] is truthy and not again an
    envelope; and it reads an object [{items: L}] as the bare list [L]. *)
Theorem get_album_tracks_payload_shapes {V : LaxInt} (album_id : Z) :
  (forall (e : dict) (data : json),
      lookup "data" e = Some data -> has_key "version" e = true ->
      truthy data = true -> unwrap_v2 data = data ->
      get_album_tracks album_id (JDict e) = get_album_tracks album_id data)
  /\ (forall (d : dict) (raw_items : list json),
         unwrap_v2 (JDict d) = JDict d ->
         lookup "items" d = Some (JList raw_items) ->
         get_album_tracks album_id (JDict d)
         = get_album_tracks album_id (JList raw_items)).
Proof.
  split.
  - intros e data Hd Hv Ht Hu. unfold get_album_tracks.
    rewrite (lookup_some_truthy _ _ _ Hd), Ht. cbn [negb].
    rewrite (unwrap_v2_envelope _ _ Hd Hv), Hu. reflexivity.
  - intros d raw Hu Hi. unfold get_album_tracks.
    rewrite (lookup_some_truthy _ _ _ Hi). cbn [negb]. rewrite Hu.
    cbn [is_dict]. unfold py_get_d. rewrite Hi.
    destruct raw as [|item raw]; reflexivity.
Qed.

Lemma get_album_tracks_payload_shapes_witness :
  get_album_tracks (V := no_coercion) 7
    (JDict [("version", JStr "2.0");
            ("data", JDict [("items", JList [JDict [("id", JInt 1)]])])])
  = get_album_tracks (V := no_coercion) 7 (JList [JDict [("id", JInt 1)]]).
Proof.
  rewrite (proj1 (get_album_tracks_payload_shapes (V := no_coercion) 7)
             [("version", JStr "2.0");
              ("data", JDict [("items", JList [JDict [("id", JInt 1)]])])]
             (JDict [("items", JList [JDict [("id", JInt 1)]])])
             eq_refl eq_refl eq_refl eq_refl).
  exact (proj2 (get_album_tracks_payload_shapes (V := no_coercion) 7)
           [("items", JList [JDict [("id", JInt 1)]])]
           [JDict [("id", JInt 1)]] eq_refl eq_refl).
Defined.

(** The playlist endpoint reads a version envelope as it reads its
    truthy, non-envelope [data]. *)
Theorem get_playlist_tracks_envelope {V : LaxInt} (playlist_id : string)
  (e : dict) (data : json) :
  lookup "data" e = Some data -> has_key "version" e = true ->
  truthy data = true -> unwrap_v2 data = data ->
  get_playlist_tracks playlist_id (JDict e)
  = get_playlist_tracks playlist_id data.
Proof.
  intros Hd Hv Ht Hu. unfold get_playlist_tracks.
  rewrite (lookup_some_truthy _ _ _ Hd), Ht. cbn [negb].
  rewrite (unwrap_v2_envelope _ _ Hd Hv), Hu. reflexivity.
Qed.

Lemma get_playlist_tracks_envelope_witness :
  get_playlist_tracks (V := no_coercion) "p"
    (JDict [("data", JList [JDict [("id", JInt 1)]]); ("version", JInt 2)])
  = get_playlist_tracks (V := no_coercion) "p" (JList [JDict [("id", JInt 1)]]).
Proof.
  exact (get_playlist_tracks_envelope (V := no_coercion) "p"
           [("data", JList [JDict [("id", JInt 1)]]); ("version", JInt 2)]
           (JList [JDict [("id", JInt 1)]]) eq_refl eq_refl eq_refl eq_refl).
Defined.

(** ** Order and identity of the extracted tracks *)

Lemma album_track_args_id (album_id : Z) (track : dict)
  (r : TrackSearchResult) :
  album_track_args album_id (JDict track) = Ok r ->
  t_id r = dget track "id".
Proof.
  intros H. unfold album_track_args in H. inv_bind H.
  unfold py_item, dget in *. destruct (lookup "id" track) as [v|];
    [|discriminate E].
  injection E as <-. repeat inv_bind H. injection H as <-. reflexivity.
Qed.

Lemma playlist_track_args_id (idx : nat) (item : json) (track : dict)
  (r : TrackSearchResult) :
  playlist_track_args idx item track = Ok r -> t_id r = dget track "id".
Proof.
  intros H. unfold playlist_track_args in H. repeat inv_bind H.
  injection H as <-. cbn [t_id].
  match goal with
  | Hi : py_item (JDict track) "id" = Ok _ |- _ =>
      unfold py_item, dget in *;
      destruct (lookup "id" track); [injection Hi as <-|discriminate Hi]
  end.
  reflexivity.
Qed.

Lemma item_id_track (item : json) :
  has_id (unwrap_item item) = true -> dget (item_track item) "id" = item_id item.
Proof.
  unfold has_id, item_track, item_id.
  destruct (unwrap_item item); try discriminate. reflexivity.
Qed.

Lemma id_items_have_id (raw_items : list json) (item : json) :
  In item (id_items raw_items) -> has_id (unwrap_item item) = true.
Proof. unfold id_items. intros H. apply filter_In in H. apply H. Qed.

Lemma Forall2_left_In {A B : Type} (R : A -> B -> Prop) (P : A -> Prop)
  (la : list A) (lb : list B) :
  (forall a, In a la -> P a) ->
  Forall2 R la lb -> Forall2 (fun a b => P a /\ R a b) la lb.
Proof.
  intros HP H. induction H as [|a b la lb Hab _ IH]; constructor.
  - split; [apply HP; left; reflexivity|exact Hab].
  - apply IH. intros a' Hin. apply HP. right. exact Hin.
Qed.

(** Both track endpoints answer, for every shape of payload, with one
    record per raw item that carries an id, in the order of the raw
    sequence; the id of each record is an integer, the one validation
    makes of the id of its item, which is that id itself when it is an
    integer. *)
Theorem track_endpoints_keep_order_and_ids {V : LaxInt} :
  (forall (album_id : Z) (payload : json) (out : list TrackSearchResult),
      get_album_tracks album_id payload = Ok out ->
      Forall2 (fun item r =>
                 validate_int (item_id item) = Ok (t_id r)
                 /\ (exists n : Z, t_id r = JInt n)
                 /\ (forall n : Z, item_id item = JInt n -> t_id r = JInt n))
              (id_items (album_raw_items payload)) out)
  /\ (forall (playlist_id : string) (payload : json)
             (resp : PlaylistTracksResponse),
         get_playlist_tracks playlist_id payload = Ok resp ->
         Forall2 (fun item r =>
                    validate_int (item_id item) = Ok (t_id r)
                    /\ (exists n : Z, t_id r = JInt n)
                    /\ (forall n : Z, item_id item = JInt n -> t_id r = JInt n))
                 (id_items (playlist_raw_sequence payload)) (r_items resp)).
Proof.
  assert (Hv : forall (x : json) (r : TrackSearchResult),
             validate_int x = Ok (t_id r) ->
             validate_int x = Ok (t_id r)
             /\ (exists n : Z, t_id r = JInt n)
             /\ (forall n : Z, x = JInt n -> t_id r = JInt n)).
  { intros x r H. destruct (validate_int_ok _ _ H) as [Hn Hi].
    split; [exact H|]. split; [exact Hn|].
    intros n Hx. rewrite (Hi n Hx). exact Hx. }
  split.
  - intros album_id payload out H.
    eapply Forall2_impl;
      [|apply (Forall2_left_In _ _ _ _ (id_items_have_id _)
                 (get_album_tracks_items _ _ _ H))].
    intros item r [Hid [v Hr]]. apply Hv.
    unfold album_track_result in Hr. inv_bind Hr.
    destruct (validated_track_fields _ _ Hr) as [Hi _].
    match goal with
    | Ha : album_track_args _ _ = Ok _ |- _ =>
        rewrite (album_track_args_id _ _ _ Ha) in Hi
    end.
    rewrite dget_dict_set_other in Hi by discriminate.
    rewrite (item_id_track _ Hid) in Hi. exact Hi.
  - intros playlist_id payload resp H.
    eapply Forall2_impl;
      [|apply (Forall2_left_In _ _ _ _ (id_items_have_id _)
                 (get_playlist_tracks_items _ _ _ H))].
    intros item r [Hid [i Hr]]. apply Hv.
    unfold playlist_track_result in Hr. inv_bind Hr.
    destruct (validated_track_fields _ _ Hr) as [Hi _].
    match goal with
    | Ha : playlist_track_args _ _ _ = Ok _ |- _ =>
        rewrite (playlist_track_args_id _ _ _ _ Ha) in Hi
    end.
    rewrite (item_id_track _ Hid) in Hi. exact Hi.
Qed.

Lemma track_endpoints_keep_order_and_ids_witness :
  Forall2 (fun item r =>
             validate_int (V := no_coercion) (item_id item) = Ok (t_id r)
             /\ (exists n : Z, t_id r = JInt n)
             /\ (forall n : Z, item_id item = JInt n -> t_id r = JInt n))
          (id_items (album_raw_items
                       (JDict [("items",
                                JList [JDict [("id", JInt 5)]; JStr "noise";
                                       JDict [("item",
                                               JDict [("id", JInt 6)])]])])))
          [mkTrack (JInt 5) (JStr "Unknown") (JStr "Unknown") JNull (JInt 1)
                   JNull JNull JNull JNull (JStr "Unknown") JNull (JInt 7);
           mkTrack (JInt 6) (JStr "Unknown") (JStr "Unknown") JNull (JInt 2)
                   JNull JNull JNull JNull (JStr "Unknown") JNull (JInt 7)].
Proof.
  apply (proj1 (track_endpoints_keep_order_and_ids (V := no_coercion)) 7
           (JDict [("items",
                    JList [JDict [("id", JInt 5)]; JStr "noise";
                           JDict [("item", JDict [("id", JInt 6)])]])])).
  reflexivity.
Defined.

(** ** Track numbers of the album endpoint *)

Lemma album_tracks_numbers (raw_items : list json) :
  forall extracted : nat,
    Forall2 (fun n track =>
               exists t : dict, track = JDict (dict_set "track_number" n t))
            (album_numbers extracted raw_items)
            (album_tracks extracted raw_items).
Proof.
  induction raw_items as [|item raw IH]; intros extracted; [constructor|].
  cbn [album_numbers album_tracks].
  destruct (unwrap_item item) as [| | | | |track]; try apply IH.
  destruct (has_key "id" track); [|apply IH].
  constructor; [|apply IH].
  exists track. rewrite album_track_number_chain. reflexivity.
Qed.

Lemma album_numbers_truthy (raw_items : list json) :
  forall extracted : nat,
    Forall (fun n => truthy n = true) (album_numbers extracted raw_items).
Proof.
  induction raw_items as [|item raw IH]; intros extracted; [constructor|].
  cbn [album_numbers].
  destruct (unwrap_item item) as [| | | | |track]; try apply IH.
  destruct (has_key "id" track); [|apply IH].
  constructor; [apply track_number_chain_truthy|apply IH].
Qed.

Lemma album_track_args_number (album_id : Z) (track : dict)
  (r : TrackSearchResult) :
  album_track_args album_id (JDict track) = Ok r ->
  t_track_number r = dget track "track_number".
Proof.
  intros H. unfold album_track_args in H. repeat inv_bind H.
  injection H as <-. cbn [t_track_number].
  match goal with
  | Ht : py_get (JDict track) "track_number" = Ok _ |- _ =>
      rewrite py_get_dict in Ht; injection Ht as <-
  end.
  reflexivity.
Qed.

(** In the album endpoint the track number of a record is what
    validation makes of the first truthy value among the track's
    [trackNumber], its [track_number] and the [index] of the enclosing
    wrapper, and of the item's 1-based position among the items
    extracted so far when there is none; that value is never falsy, and
    an integer is kept as it is. *)
Theorem get_album_tracks_track_numbers {V : LaxInt} (album_id : Z)
  (payload : json) (out : list TrackSearchResult) :
  get_album_tracks album_id payload = Ok out ->
  Forall2 (fun n r =>
             truthy n = true
             /\ validate_int n = Ok (t_track_number r)
             /\ (forall k : Z, n = JInt k -> t_track_number r = JInt k))
          (album_numbers 0 (album_raw_items payload)) out.
Proof.
  intros H. apply get_album_tracks_inv, comprehension_Forall2 in H.
  pose proof (Forall2_left_In _ (fun n => truthy n = true) _ _
                (proj1 (Forall_forall _ _)
                   (album_numbers_truthy (album_raw_items payload) 0))
                (album_tracks_numbers (album_raw_items payload) 0)) as Hn.
  eapply Forall2_compose; [|exact Hn|exact H].
  intros n track r [Ht [t ->]] Hr. cbv beta in Hr.
  unfold album_track_result in Hr. inv_bind Hr.
  destruct (validated_track_fields _ _ Hr) as [_ [_ [_ [_ [_ Hv]]]]].
  match goal with
  | Ha : album_track_args _ _ = Ok _ |- _ =>
      rewrite (album_track_args_number _ _ _ Ha), dget_dict_set_same in Hv
  end.
  assert (Hi : validate_int n = Ok (t_track_number r)).
  { destruct n; try discriminate Ht; exact Hv. }
  split; [exact Ht|]. split; [exact Hi|].
  intros k Hk. destruct (validate_int_ok _ _ Hi) as [_ Hsame].
  rewrite (Hsame k Hk). exact Hk.
Qed.

Lemma get_album_tracks_track_numbers_witness :
  Forall2 (fun n r =>
             truthy n = true
             /\ validate_int (V := no_coercion) n = Ok (t_track_number r)
             /\ (forall k : Z, n = JInt k -> t_track_number r = JInt k))
          (album_numbers 0 (album_raw_items (JList dropped_then_kept)))
          [mkTrack (JInt 7) (JStr "B") (JStr "Unknown") JNull (JInt 1)
                   JNull JNull JNull JNull (JStr "Unknown") JNull (JInt 7)].
Proof.
  apply (get_album_tracks_track_numbers (V := no_coercion) 7
           (JList dropped_then_kept)).
  reflexivity.
Defined.

(** ** When track search answers *)

Lemma search_track_args_ok (track : json) :
  is_ok (search_track_args track) = search_track_ok track.
Proof.
  destruct track as [| | | | |t]; try reflexivity.
  unfold search_track_args, search_track_ok, search_track_artist.
  unfold py_item, py_get, py_get_d, has_key, absent_or_dict, dget, empty_dict.
  destruct (lookup "id" t); [|reflexivity].
  destruct (lookup "title" t); [|reflexivity].
  destruct (lookup "artist" t) as [[| | | | |a]|];
    destruct (lookup "album" t) as [[| | | | |al]|]; try reflexivity;
    cbv beta iota delta [bind]; cbn [lookup];
    destruct (lookup "artist" al) as [[|[]|n|[|c s]|[|x l]|[|x l]]|];
    try reflexivity; cbn [truthy]; destruct (n =? 0); reflexivity.
Qed.

Lemma search_track_result_ok {V : LaxInt} (track : json) :
  is_ok (search_track_result track)
  = search_track_ok track && search_track_typed track.
Proof.
  unfold search_track_result, search_track_typed.
  rewrite <- search_track_args_ok.
  destruct (search_track_args track) as [args|e]; [|reflexivity].
  cbv beta iota delta [bind]. cbn [is_ok andb]. apply validated_track_ok.
Qed.

Lemma comprehension_ok {A B : Type} (f : A -> result B) (l : list A) :
  is_ok (comprehension f l) = forallb (fun x => is_ok (f x)) l.
Proof.
  induction l as [|x l IH]; [reflexivity|].
  cbn [comprehension forallb]. destruct (f x); [|reflexivity].
  cbv beta iota delta [bind]. cbn [is_ok andb].
  rewrite <- IH. destruct (comprehension f l); reflexivity.
Qed.

(** Track search answers exactly when every extracted item is an
    object with [id] and [title] whose [artist], [album] and album
    artist are absent or objects, and the values it reads for the
    fields of the record have the declared types; it then lists one
    record per item. *)
Theorem search_tracks_answers_iff_well_formed {V : LaxInt}
  (tracks : list json) :
  is_ok (search_tracks_items tracks)
  = forallb (fun track => search_track_ok track && search_track_typed track)
            tracks
  /\ (forall track : json,
         is_ok (search_track_args track) = search_track_ok track)
  /\ (forall out : list TrackSearchResult,
         search_tracks_items tracks = Ok out ->
         List.length out = List.length tracks
         /\ Forall (fun r => track_fields_typed r = true) out).
Proof.
  split; [|split; [exact search_track_args_ok|]].
  - unfold search_tracks_items.
    assert (Hc : is_ok (comprehension search_track_result tracks)
                 = forallb (fun track => search_track_ok track
                                         && search_track_typed track) tracks).
    { rewrite comprehension_ok.
      induction tracks as [|x l IH]; [reflexivity|].
      cbn [forallb]. rewrite IH, search_track_result_ok. reflexivity. }
    destruct tracks as [|t0 rest]; [reflexivity|].
    destruct t0 as [| | | | |t]; try reflexivity.
    cbv beta iota delta [bind py_get py_get_d]. exact Hc.
  - intros out H. unfold search_tracks_items in H. inv_bind H.
    split; [apply (comprehension_length _ _ _ H)|].
    apply comprehension_Forall2 in H. clear E.
    induction H as [|track r l l' Hr _ IH]; constructor; [|exact IH].
    unfold search_track_result in Hr. inv_bind Hr.
    apply validated_track_typed in Hr. exact Hr.
Qed.

Lemma search_tracks_answers_iff_well_formed_witness :
  List.length
    [mkTrack (JInt 1) (JStr "A") (JStr "Unknown") JNull JNull JNull JNull
             JNull JNull (JStr "Unknown") JNull JNull]
  = List.length [JDict [("id", JInt 1); ("title", JStr "A")]]
  /\ Forall (fun r => track_fields_typed (V := no_coercion) r = true)
            [mkTrack (JInt 1) (JStr "A") (JStr "Unknown") JNull JNull JNull
                     JNull JNull JNull (JStr "Unknown") JNull JNull].
Proof.
  apply (proj2 (proj2 (search_tracks_answers_iff_well_formed
                         (V := no_coercion)
                         [JDict [("id", JInt 1); ("title", JStr "A")]]))).
  reflexivity.
Defined.

(** ** The artist endpoint: top tracks, name, fallback, album records *)

Lemma for_each_length_le {A B : Type} (f : A -> result (list B)) (l : list A) :
  (forall x ys, f x = Ok ys -> (List.length ys <= 1)%nat) ->
  forall out, for_each f l = Ok out ->
              (List.length out <= List.length l)%nat.
Proof.
  intros Hf. induction l as [|x l IH]; intros out H; cbn [for_each] in H.
  - injection H as <-. apply Nat.le_refl.
  - repeat inv_bind H. injection H as <-. rewrite length_app. cbn [List.length].
    match goal with
    | Hx : f x = Ok _ |- _ => pose proof (Hf _ _ Hx)
    end.
    pose proof (IH _ eq_refl). lia.
Qed.

Lemma for_each_Forall {A B : Type} (P : B -> Prop)
  (f : A -> result (list B)) (l : list A) :
  (forall x ys, f x = Ok ys -> Forall P ys) ->
  forall out, for_each f l = Ok out -> Forall P out.
Proof.
  intros Hf. induction l as [|x l IH]; intros out H; cbn [for_each] in H.
  - injection H as <-. constructor.
  - repeat inv_bind H. injection H as <-. apply Forall_app. split.
    + eapply Hf. eassumption.
    + apply IH. reflexivity.
Qed.

Lemma top_track_at_most_one (item : json) (ys : list json) :
  top_track item = Ok ys -> (List.length ys <= 1)%nat.
Proof.
  unfold top_track. destruct (is_track_like (unwrap_item item)).
  - intros H. repeat inv_bind H. injection H as <-. apply Nat.le_refl.
  - intros H. injection H as <-. apply Nat.le_0_l.
Qed.

Lemma sliced_iter_length (n : nat) (x top : json) (l : list json) :
  py_slice_to n x = Ok top -> py_iter top = Ok l -> (List.length l <= n)%nat.
Proof.
  destruct x as [| | | s | items |]; cbn [py_slice_to]; try discriminate;
    intros H; injection H as <-; cbn [py_iter]; intros H; injection H as <-.
  - rewrite length_map. unfold chars, of_chars.
    rewrite list_ascii_of_string_of_list_ascii. apply firstn_le_length.
  - apply firstn_le_length.
Qed.

Lemma top_tracks_of_length (artist_info : json) (out : list json) :
  top_tracks_of artist_info = Ok out -> (List.length out <= 10)%nat.
Proof.
  intros H. unfold top_tracks_of in H. repeat inv_bind H.
  match goal with
  | Hs : py_slice_to 10 _ = Ok _, Hi : py_iter _ = Ok _ |- _ =>
      pose proof (sliced_iter_length _ _ _ _ Hs Hi)
  end.
  pose proof (for_each_length_le top_track _ top_track_at_most_one _ H).
  lia.
Qed.

Lemma get_artist_inversion (artist_id : Z) (artist_info direct_albums : json)
  (resp : ArtistResponse) :
  truthy artist_info = true ->
  get_artist artist_id artist_info direct_albums = Ok resp ->
  exists (info : dict) (page tracks albums : list json) (np : json * json),
    artist_info = JDict info
    /\ page_albums artist_info = Ok page
    /\ top_tracks_of artist_info = Ok tracks
    /\ (if is_nil page then direct_endpoint_albums direct_albums
        else Ok page) = Ok albums
    /\ artist_name_picture artist_id info = Ok np
    /\ resp = mkArtistResponse
                (JDict [("id", JInt artist_id);
                        ("name", py_or (fst np)
                                   (JStr ("Artist " ++ string_of_Z artist_id)));
                        ("picture", snd np);
                        ("popularity", dget info "popularity")])
                tracks (sort_albums albums).
Proof.
  intros Ht H. unfold get_artist in H. rewrite Ht in H. cbn [negb] in H.
  destruct artist_info as [| | | | |info]; try discriminate H.
  repeat inv_bind H. injection H as <-.
  do 5 eexists. repeat split; try eassumption; reflexivity.
Qed.

(** The artist endpoint lists at most ten top tracks. *)
Theorem get_artist_at_most_ten_tracks (artist_id : Z)
  (artist_info direct_albums : json) (resp : ArtistResponse) :
  get_artist artist_id artist_info direct_albums = Ok resp ->
  (List.length (a_tracks resp) <= 10)%nat.
Proof.
  intros H. destruct (truthy artist_info) eqn:Ht.
  - destruct (get_artist_inversion _ _ _ _ Ht H)
      as (info & page & tracks & albums & np & _ & _ & Htr & _ & _ & ->).
    cbn [a_tracks]. apply (top_tracks_of_length _ _ Htr).
  - unfold get_artist in H. rewrite Ht in H. injection H as <-.
    cbn. lia.
Qed.

Lemma get_artist_at_most_ten_tracks_witness :
  exists resp : ArtistResponse,
    get_artist 9 twelve_track_page JNull = Ok resp
    /\ (List.length (a_tracks resp) <= 10)%nat.
Proof.
  eexists. split; [vm_compute; reflexivity|].
  apply (get_artist_at_most_ten_tracks 9 twelve_track_page JNull).
  vm_compute. reflexivity.
Defined.

Lemma found_object_shape (data target_id : json) :
  truthy (find_artist_object_recursive data target_id) = true ->
  exists found : dict, find_artist_object_recursive data target_id = JDict found.
Proof.
  rewrite find_artist_object_recursive_spec. unfold first_match.
  destruct (find (is_artist_match target_id) (nodes data)) as [n|] eqn:E;
    [|discriminate].
  apply find_some in E. destruct E as [_ E].
  destruct n as [| | | | |d]; try discriminate E. intros _. exists d. reflexivity.
Qed.

Lemma artist_name_picture_name (artist_id : Z) (info : dict) (np : json * json) :
  artist_name_picture artist_id info = Ok np ->
  py_or (fst np) (default_artist_name artist_id)
  = py_or (py_or (dget info "name") (located_name artist_id info))
          (default_artist_name artist_id).
Proof.
  unfold artist_name_picture, located_name. intros H.
  destruct (truthy (dget info "name")) eqn:Hn.
  - cbn [negb orb] in H.
    assert (Hfst : fst np = dget info "name").
    { destruct (negb (truthy (dget info "picture")));
        [destruct (truthy (find_artist_object_recursive (JDict info)
                             (JInt artist_id)))|];
        cbn [truthy] in H; inv_binds; reflexivity. }
    rewrite Hfst. unfold py_or at 3. rewrite Hn. reflexivity.
  - cbn [negb orb] in H. unfold py_or at 3. rewrite Hn.
    destruct (truthy (find_artist_object_recursive (JDict info)
                        (JInt artist_id))) eqn:Hf.
    + destruct (found_object_shape _ _ Hf) as [found Hfound].
      rewrite Hfound in *. rewrite !py_get_dict in H.
      inv_binds. reflexivity.
    + assert (Hfst : fst np = dget info "name") by (inv_binds; reflexivity).
      rewrite Hfst.
      assert (Hl : truthy match find_artist_object_recursive (JDict info)
                                  (JInt artist_id) with
                          | JDict found => dget found "name"
                          | _ => JNull
                          end = false).
      { destruct (find_artist_object_recursive (JDict info) (JInt artist_id))
          as [| | | | |[|kv d]]; try reflexivity. discriminate Hf. }
      unfold py_or. rewrite Hn, Hl. reflexivity.
Qed.

(** The artist entry of a non-empty answer echoes the requested id, and
    its name is the first truthy value among the page's own [name] and
    the [name] of the object the recursive locator finds, "Artist <id>"
    without one; the name is therefore never empty. *)
Theorem get_artist_entry (artist_id : Z) (info : dict) (direct_albums : json)
  (resp : ArtistResponse) :
  truthy (JDict info) = true ->
  get_artist artist_id (JDict info) direct_albums = Ok resp ->
  artist_entry resp "id" = JInt artist_id
  /\ artist_entry resp "name"
     = py_or (py_or (dget info "name") (located_name artist_id info))
             (default_artist_name artist_id)
  /\ truthy (artist_entry resp "name") = true.
Proof.
  intros Ht H.
  destruct (get_artist_inversion _ _ _ _ Ht H)
    as (info' & page & tracks & albums & np & Hi & _ & _ & _ & Hnp & ->).
  injection Hi as <-.
  split; [reflexivity|].
  assert (Hname : artist_entry
                    (mkArtistResponse
                       (JDict [("id", JInt artist_id);
                               ("name", py_or (fst np)
                                          (JStr ("Artist "
                                                 ++ string_of_Z artist_id)));
                               ("picture", snd np);
                               ("popularity", dget info "popularity")])
                       tracks (sort_albums albums)) "name"
                  = py_or (fst np) (default_artist_name artist_id))
    by reflexivity.
  rewrite Hname. split.
  - apply (artist_name_picture_name _ _ _ Hnp).
  - apply py_or_truthy. reflexivity.
Qed.

Lemma get_artist_entry_witness :
  exists resp : ArtistResponse,
    get_artist 9 (JDict [("albums", JDict [])]) JNull = Ok resp
    /\ artist_entry resp "name" = JStr "Artist 9".
Proof.
  eexists. split; [vm_compute; reflexivity|].
  apply (get_artist_entry 9 [("albums", JDict [])] JNull).
  - reflexivity.
  - vm_compute. reflexivity.
Defined.

(** The direct albums endpoint is a fallback only: when the artist page
    itself yields an album, its payload has no influence on the answer;
    when a non-empty page yields none, the albums listed are those of
    the direct payload, sorted. *)
Theorem get_artist_direct_albums_fallback (artist_id : Z) (info : dict) :
  (forall (a : json) (l : list json) (direct1 direct2 : json),
      page_albums (JDict info) = Ok (a :: l) ->
      get_artist artist_id (JDict info) direct1
      = get_artist artist_id (JDict info) direct2)
  /\ (forall (direct_albums : json) (resp : ArtistResponse),
         truthy (JDict info) = true ->
         page_albums (JDict info) = Ok [] ->
         get_artist artist_id (JDict info) direct_albums = Ok resp ->
         exists albums : list json,
           direct_endpoint_albums direct_albums = Ok albums
           /\ a_albums resp = sort_albums albums).
Proof.
  split.
  - intros a l d1 d2 Hp. unfold get_artist. rewrite Hp.
    cbv beta iota delta [bind]. cbn [is_nil]. reflexivity.
  - intros direct resp Ht Hp H.
    destruct (get_artist_inversion _ _ _ _ Ht H)
      as (info' & page & tracks & albums & np & _ & Hp' & _ & Ha & _ & ->).
    rewrite Hp in Hp'. injection Hp' as <-. cbn [is_nil] in Ha.
    exists albums. split; [exact Ha|reflexivity].
Qed.

Lemma get_artist_direct_albums_fallback_witness :
  get_artist 9 (nested_page (JList [year_only_album])) JNull
  = get_artist 9 (nested_page (JList [year_only_album]))
      (JDict [("items", JList [JDict [("id", JInt 2); ("title", JStr "Z")]])]).
Proof.
  apply (proj1 (get_artist_direct_albums_fallback 9
                  [("albums", JDict [("rows",
                      JList [page_row (JList [year_only_album])])])])
           (JDict [("id", JInt 1); ("title", JStr "A"); ("year", JStr "1999");
                   ("cover", JNull); ("numberOfTracks", JNull)]) []).
  reflexivity.
Defined.

Lemma album_record_shape (year : json -> result json) (album r : json) :
  (forall (d : dict) (y : json), year (JDict d) = Ok y -> y <> JNull) ->
  album_record year album = Ok r -> is_album_record r.
Proof.
  intros Hy H. unfold album_record in H.
  destruct album as [| | | | |d]; try discriminate H.
  inv_binds. do 5 eexists. split; [reflexivity|].
  eapply Hy. eassumption.
Qed.

Lemma nested_item_albums_records (item : json) (ys : list json) :
  nested_item_albums item = Ok ys -> Forall is_album_record ys.
Proof.
  unfold nested_item_albums. destruct (is_list item).
  { intros H. injection H as <-. constructor. }
  destruct (is_album_like (unwrap_item item)).
  - intros H. inv_binds. constructor; [|constructor].
    eapply album_record_shape; [|eassumption].
    intros d y Hd. apply (album_year_never_null d y). left. exact Hd.
  - intros H. injection H as <-. constructor.
Qed.

Lemma flat_item_albums_records (item : json) (ys : list json) :
  flat_item_albums item = Ok ys -> Forall is_album_record ys.
Proof.
  unfold flat_item_albums. destruct (is_album_like (unwrap_item item)).
  - intros H. inv_binds. constructor; [|constructor].
    eapply album_record_shape; [|eassumption].
    intros d y Hd. apply (album_year_never_null d y). right. exact Hd.
  - intros H. injection H as <-. constructor.
Qed.

Lemma page_albums_records (artist_info : json) (albums : list json) :
  page_albums artist_info = Ok albums -> Forall is_album_record albums.
Proof.
  unfold page_albums. intros H. inv_bind H.
  destruct (is_dict a); [|injection H as <-; constructor].
  inv_bind H.
  assert (Hn : Forall is_album_record a0).
  { match goal with
    | Hx : nested_albums _ = Ok _ |- _ =>
        unfold nested_albums in Hx; inv_binds
    end.
    eapply for_each_Forall; [|eassumption].
    intros row ys Hr. unfold row_albums in Hr.
    destruct (is_dict row); [|injection Hr as <-; constructor].
    inv_binds. eapply for_each_Forall; [|eassumption].
    intros module zs Hm. unfold module_albums in Hm.
    destruct (is_dict module); [|injection Hm as <-; constructor].
    inv_bind Hm.
    destruct (is_dict a5); [|injection Hm as <-; constructor].
    inv_binds. eapply for_each_Forall; [|eassumption].
    exact nested_item_albums_records. }
  destruct (is_nil a0).
  - inv_binds. eapply for_each_Forall; [|eassumption].
    exact flat_item_albums_records.
  - injection H as <-. exact Hn.
Qed.

Lemma direct_endpoint_albums_records (direct_albums : json)
  (albums : list json) :
  direct_endpoint_albums direct_albums = Ok albums ->
  Forall is_album_record albums.
Proof.
  unfold direct_endpoint_albums. destruct (truthy direct_albums).
  - intros H. inv_binds. eapply for_each_Forall; [|eassumption].
    exact flat_item_albums_records.
  - intros H. injection H as <-. constructor.
Qed.

(** Every album the artist endpoint lists is a record with exactly the
    keys id, title, year, cover and numberOfTracks, and its year is
    never null, whichever of the three paths produced it. *)
Theorem get_artist_album_records (artist_id : Z)
  (artist_info direct_albums : json) (resp : ArtistResponse) :
  get_artist artist_id artist_info direct_albums = Ok resp ->
  Forall is_album_record (a_albums resp).
Proof.
  intros H. destruct (truthy artist_info) eqn:Ht.
  - destruct (get_artist_inversion _ _ _ _ Ht H)
      as (info & page & tracks & albums & np & _ & Hp & _ & Ha & _ & ->).
    cbn [a_albums]. unfold sort_albums.
    apply (Permutation_Forall (sort_desc_perm _ get_album_timestamp albums)).
    destruct (is_nil page).
    + apply (direct_endpoint_albums_records _ _ Ha).
    + injection Ha as <-. apply (page_albums_records _ _ Hp).
  - unfold get_artist in H. rewrite Ht in H. injection H as <-. constructor.
Qed.

Lemma get_artist_album_records_witness :
  exists resp : ArtistResponse,
    get_artist 9 three_album_page JNull = Ok resp
    /\ Forall is_album_record (a_albums resp).
Proof.
  eexists. split; [vm_compute; reflexivity|].
  apply (get_artist_album_records 9 three_album_page JNull).
  vm_compute. reflexivity.
Defined.

(** On every album path a release date that is a string yields as year
    the text before its first dash, all of it when it has no dash. *)
Theorem release_date_year (d : dict) (a b : string) :
  ~ In "-"%char (chars a) ->
  (dget d "releaseDate" = JStr (a ++ String "-"%char b) ->
   album_year_nested (JDict d) = Ok (JStr a)
   /\ album_year_flat (JDict d) = Ok (JStr a))
  /\ (a <> EmptyString -> dget d "releaseDate" = JStr a ->
      album_year_nested (JDict d) = Ok (JStr a)
      /\ album_year_flat (JDict d) = Ok (JStr a)).
Proof.
  intros Hdash. split.
  - intros Hd. rewrite album_year_nested_spec, album_year_flat_spec, Hd.
    pose proof (split_dash_first_app a b Hdash) as Hs.
    destruct (a ++ String "-"%char b) as [|c s] eqn:E.
    + destruct a; discriminate E.
    + rewrite Hs. split; reflexivity.
  - intros Ha Hd. rewrite album_year_nested_spec, album_year_flat_spec, Hd.
    pose proof (split_dash_first_no_dash a Hdash) as Hs.
    destruct a as [|c s]; [contradiction|].
    rewrite Hs. split; reflexivity.
Qed.

Lemma release_date_year_witness :
  album_year_nested
    (JDict [("id", JInt 1); ("releaseDate", JStr "2021-06-30")])
  = Ok (JStr "2021").
Proof.
  refine (proj1 (proj1 (release_date_year
                          [("id", JInt 1); ("releaseDate", JStr "2021-06-30")]
                          "2021" "06-30" _) eq_refl)).
  cbn. intros [H|[H|[H|[H|H]]]]; try discriminate H. exact H.
Defined.

(** Albums whose years parse to the same number keep, in the sorted
    list, the order in which they were gathered. *)
Theorem sort_albums_stable (albums : list json) (year : Z) :
  filter (fun a => get_album_timestamp a =? year) (sort_albums albums)
  = filter (fun a => get_album_timestamp a =? year) albums.
Proof. apply sort_desc_stable. Qed.

(** ** Playlist search: when it answers, and what it lists *)

Lemma get_cover_id_ok (included : json) (d : dict) :
  is_ok (get_cover_id included (JDict d)) = absent_or_dict (lookup "attributes" d).
Proof.
  destruct (lookup "attributes" d) as [v|] eqn:E.
  - destruct v as [| | | | |attrs];
      try (unfold get_cover_id, sub_object, py_get_d; cbn [is_dict];
           rewrite E; reflexivity).
    rewrite (get_cover_id_tiers included d attrs).
    + destruct (find truthy (direct_candidates attrs d)); reflexivity.
    + unfold sub_object, py_get_d. cbn [is_dict]. rewrite E. reflexivity.
  - rewrite (get_cover_id_tiers included d []).
    + destruct (find truthy (direct_candidates [] d)); reflexivity.
    + unfold sub_object, py_get_d. cbn [is_dict]. rewrite E. reflexivity.
Qed.

Lemma playlist_args_ok (included : json) (d : dict) :
  is_ok (playlist_args included (JDict d))
  = absent_or_dict (lookup "attributes" d).
Proof.
  rewrite <- (get_cover_id_ok included d). unfold playlist_args.
  rewrite !get_or_dict, !py_get_dict. cbv beta iota delta [bind].
  unfold py_get_d.
  destruct (is_dict (dget d "creator")) eqn:Ec.
  - destruct (lookup "creator" d) as [c|] eqn:El.
    + assert (Hc : dget d "creator" = c) by (unfold dget; rewrite El; reflexivity).
      rewrite Hc in Ec. destruct c as [| | | | |[|kv cd]]; try discriminate Ec;
        unfold py_or; cbn [truthy empty_dict py_get py_get_d];
        destruct (get_cover_id included (JDict d)); reflexivity.
    + unfold dget in Ec. rewrite El in Ec. discriminate Ec.
  - destruct (get_cover_id included (JDict d)); reflexivity.
Qed.

Lemma search_playlists_items_ok {V : LaxInt} (included : json)
  (playlists : list json) :
  is_ok (search_playlists_items included playlists)
  = forallb (fun pl => playlist_ok pl && playlist_typed included pl) playlists.
Proof.
  unfold search_playlists_items.
  induction playlists as [|pl pls IH]; [reflexivity|].
  cbn [comprehension_if forallb].
  destruct pl as [| | | | |d]; try reflexivity.
  unfold playlist_kept. rewrite get_or_dict. cbv beta iota delta [bind].
  unfold playlist_ok at 1, playlist_typed at 1. cbn [chosen_id].
  destruct (truthy (py_or (dget d "uuid") (dget d "id"))); cbn [negb orb andb];
    [|exact IH].
  rewrite <- IH, <- (playlist_args_ok included d). unfold playlist_result.
  destruct (playlist_args included (JDict d)) as [args|e];
    cbv beta iota delta [bind]; cbn [is_ok andb]; [|reflexivity].
  rewrite <- validated_playlist_ok.
  destruct (validated_playlist args); cbn [is_ok andb]; [|reflexivity].
  destruct (comprehension_if _ _ pls); reflexivity.
Qed.

Lemma comprehension_if_Forall2 {A B : Type} (R : A -> B -> Prop)
  (keep : A -> result bool) (f : A -> result B) (l : list A) :
  (forall x y, keep x = Ok true -> f x = Ok y -> R x y) ->
  forall out, comprehension_if keep f l = Ok out ->
    Forall2 R (filter (fun x => match keep x with
                                | Ok true => true
                                | _ => false
                                end) l) out.
Proof.
  intros HR. induction l as [|x l IH]; intros out H; cbn [comprehension_if] in H.
  - injection H as <-. constructor.
  - cbn [filter]. destruct (keep x) as [[|]|e] eqn:Ek;
      cbv beta iota delta [bind] in H; try discriminate H.
    + destruct (f x) as [y|e] eqn:Ef; [|discriminate H].
      destruct (comprehension_if keep f l) as [ys|e]; [|discriminate H].
      injection H as <-. constructor; [apply HR; assumption|].
      apply IH. reflexivity.
    + apply IH. exact H.
Qed.

(** Playlist search answers exactly when every extracted item is an
    object and, for every item that passes the identifier filter, the
    [attributes] entry is absent or an object and the values read for
    the fields of the record have the declared types; the answer then
    holds one record per item that passes the filter. *)
Theorem search_playlists_answers_iff_well_formed {V : LaxInt}
  (included : json) (playlists : list json) :
  is_ok (search_playlists_items included playlists)
  = forallb (fun pl => playlist_ok pl && playlist_typed included pl) playlists
  /\ (forall d : dict,
         is_ok (playlist_args included (JDict d))
         = absent_or_dict (lookup "attributes" d))
  /\ (forall out : list PlaylistSearchResult,
         search_playlists_items included playlists = Ok out ->
         List.length out = List.length (filter is_kept playlists)
         /\ Forall (fun r => playlist_fields_typed r = true) out).
Proof.
  split; [apply search_playlists_items_ok|].
  split; [apply playlist_args_ok|].
  intros out H. split.
  - symmetry. apply (Forall2_length (search_playlists_items_ids _ _ _ H)).
  - unfold search_playlists_items in H.
    apply (comprehension_if_Forall2
             (fun _ r => playlist_fields_typed r = true)) in H.
    + clear -H. induction H; constructor; assumption.
    + intros pl r _ Hr. unfold playlist_result in Hr. inv_bind Hr.
      apply (validated_playlist_typed _ _ Hr).
Qed.

Lemma search_playlists_answers_iff_well_formed_witness :
  List.length [mkPlaylist (JStr "u") (JStr "Untitled Playlist")
                          JNull JNull JNull JNull]
  = List.length (filter is_kept [JDict [("uuid", JStr "u")];
                                 JDict [("id", JNull)]])
  /\ Forall (fun r => playlist_fields_typed (V := no_coercion) r = true)
            [mkPlaylist (JStr "u") (JStr "Untitled Playlist")
                        JNull JNull JNull JNull].
Proof.
  apply (proj2 (proj2 (search_playlists_answers_iff_well_formed
                         (V := no_coercion) (JList [])
                         [JDict [("uuid", JStr "u")]; JDict [("id", JNull)]]))).
  reflexivity.
Defined.

Lemma playlist_args_title (included : json) (d : dict)
  (r : PlaylistSearchResult) :
  playlist_args included (JDict d) = Ok r ->
  p_title r = playlist_title (JDict d).
Proof.
  intros H. unfold playlist_args in H. rewrite !get_or_dict in H.
  inv_binds. reflexivity.
Qed.

Lemma playlist_result_title {V : LaxInt} (included : json) (d : dict)
  (r : PlaylistSearchResult) :
  playlist_result included (JDict d) = Ok r ->
  p_title r = playlist_title (JDict d).
Proof.
  intros H. unfold playlist_result in H. inv_bind H.
  destruct (validated_playlist_fields _ _ H) as [_ [-> _]].
  apply (playlist_args_title included). assumption.
Qed.

(** The title of every listed playlist is the first truthy value among
    the item's [title] and [name], "Untitled Playlist" without one, so
    no listed playlist has an empty title. *)
Theorem search_playlists_titles {V : LaxInt} (included : json)
  (playlists : list json) (out : list PlaylistSearchResult) :
  search_playlists_items included playlists = Ok out ->
  Forall2 (fun pl r => p_title r = playlist_title pl) (filter is_kept playlists)
          out
  /\ Forall (fun r => truthy (p_title r) = true) out.
Proof.
  intros H.
  assert (HF : Forall2 (fun pl r => p_title r = playlist_title pl
                                    /\ truthy (p_title r) = true)
                       (filter is_kept playlists) out).
  { unfold search_playlists_items in H. unfold is_kept.
    eapply comprehension_if_Forall2; [|exact H].
    intros pl r Hk Hr. destruct (playlist_kept_true pl Hk) as [d [-> _]].
    rewrite (playlist_result_title _ _ _ Hr). split; [reflexivity|].
    apply py_or_truthy. reflexivity. }
  split.
  - eapply Forall2_impl; [|exact HF]. intros pl r [Ht _]. exact Ht.
  - clear H. induction HF as [|pl r l l' [_ Ht] _ IH]; constructor; assumption.
Qed.

Lemma search_playlists_titles_witness :
  Forall (fun r => truthy (p_title r) = true)
         [mkPlaylist (JStr "u") (JStr "Untitled Playlist")
                     JNull JNull JNull JNull].
Proof.
  apply (proj2 (search_playlists_titles (V := no_coercion) (JList [])
                  [JDict [("uuid", JStr "u"); ("title", JStr EmptyString)]] _ eq_refl)).
Defined.

(** ** The playlist object of the playlist-tracks endpoint *)

Lemma first_cover_val_spec (x : dict) (keys : list string) :
  first_cover_val (JDict x) keys = Ok (first_truthy (map (dget x) keys)).
Proof.
  unfold first_truthy. induction keys as [|key keys IH]; [reflexivity|].
  cbn [first_cover_val map find]. unfold py_in, py_get, py_get_d, has_key, dget.
  destruct (lookup key x) as [v|]; cbv beta iota delta [bind].
  - destruct (truthy v); [reflexivity|exact IH].
  - cbn [truthy]. exact IH.
Qed.

Lemma first_truthy_app (l1 l2 : list json) :
  first_truthy (l1 ++ l2) =
  if truthy (first_truthy l1) then first_truthy l1 else first_truthy l2.
Proof.
  unfold first_truthy. rewrite find_app_first.
  destruct (find truthy l1) as [v|] eqn:E; [|reflexivity].
  apply find_some in E. destruct E as [_ ->]. reflexivity.
Qed.

Lemma cover_string_first_truthy (l : list json) :
  cover_string (first_truthy l) =
  match find truthy l with
  | Some v => JStr (strip (py_str v))
  | None => JNull
  end.
Proof.
  unfold cover_string, first_truthy.
  destruct (find truthy l) as [v|] eqn:E; [|reflexivity].
  apply find_some in E. destruct E as [_ ->]. reflexivity.
Qed.

Lemma playlist_info_of_cover (playlist_id : string) (po attrs : dict)
  (info : json) :
  sub_object (JDict po) "attributes" = Ok (JDict attrs) ->
  playlist_info_of playlist_id (JDict po) = Ok info ->
  exists fields : dict,
    info = JDict fields
    /\ dget fields "cover" =
       match find truthy (direct_candidates attrs po) with
       | Some v => JStr (strip (py_str v))
       | None => JNull
       end.
Proof.
  intros Ha H. unfold playlist_info_of in H. rewrite Ha in H.
  cbv beta iota delta [bind] in H.
  rewrite !first_cover_val_spec in H.
  destruct (sub_object (JDict po) "relationships"); [|discriminate H].
  assert (Hv : (if negb (truthy (first_truthy (map (dget attrs) priority_keys)))
                then Ok (first_truthy (map (dget po) priority_keys))
                else Ok (first_truthy (map (dget attrs) priority_keys)))
               = Ok (first_truthy (direct_candidates attrs po))).
  { unfold direct_candidates. rewrite first_truthy_app.
    destruct (truthy (first_truthy (map (dget attrs) priority_keys)));
      reflexivity. }
  rewrite Hv in H. inv_binds. eexists. split; [reflexivity|].
  rewrite <- cover_string_first_truthy. reflexivity.
Qed.

Lemma truthy_JStr (s : string) : s <> EmptyString -> truthy (JStr s) = true.
Proof. destruct s; [contradiction|reflexivity]. Qed.

(** For a payload that carries a playlist object with a direct cover
    field whose trimmed string form is not empty, the cover entry of
    the playlist the playlist-tracks endpoint answers with is that
    trimmed string form of the first truthy value among the priority
    keys of [attributes], then of the object itself; the relationship
    fallback does not touch it, and playlist search resolves the same
    cover for the same object. *)
Theorem playlist_info_direct_cover {V : LaxInt} (playlist_id : string)
  (r po attrs : dict) (v : json) (resp : PlaylistTracksResponse) :
  unwrap_v2 (JDict r) = JDict r ->
  py_or (dget r "playlist") (dget r "info") = JDict po ->
  truthy (JDict po) = true ->
  sub_object (JDict po) "attributes" = Ok (JDict attrs) ->
  find truthy (direct_candidates attrs po) = Some v ->
  strip (py_str v) <> EmptyString ->
  get_playlist_tracks playlist_id (JDict r) = Ok resp ->
  playlist_cover_of (Ok resp) = Some (JStr (strip (py_str v)))
  /\ (forall included : json,
         get_cover_id included (JDict po) = Ok (JStr (strip (py_str v)))).
Proof.
  intros Hu Hp Hpo Ha Hv Hs H. split.
  - assert (Hr : truthy (JDict r) = true).
    { destruct r; [|reflexivity]. unfold py_or in Hp. cbn in Hp.
      discriminate Hp. }
    unfold get_playlist_tracks in H. rewrite Hr in H. cbn [negb] in H.
    cbv zeta in H. rewrite Hu in H. cbn [is_dict] in H.
    inv_bind H. rewrite Hp, Hpo in H. cbn [negb andb] in H.
    cbv beta iota delta [bind] in H. rewrite ?Hpo in H.
    destruct (playlist_info_of playlist_id (JDict po)) as [info|e] eqn:Ei;
      [|discriminate H].
    destruct (playlist_info_of_cover _ _ _ _ Ha Ei) as [fields [-> Hc]].
    rewrite Hv in Hc. cbn [fst snd] in H. repeat inv_bind H.
    injection H as <-. cbn [playlist_cover_of r_playlist].
    unfold resolve_playlist_cover. rewrite Hc, (truthy_JStr _ Hs).
    rewrite andb_false_r. rewrite Hc. reflexivity.
  - intros included. rewrite (get_cover_id_tiers included po attrs Ha), Hv.
    reflexivity.
Qed.

Lemma playlist_info_direct_cover_witness :
  playlist_cover_of
    (get_playlist_tracks (V := no_coercion) "requested"
       (JDict [("playlist", JDict [("uuid", JStr "p"); ("image", JStr " im ")])]))
  = Some (JStr "im")
  /\ get_cover_id (JList []) (JDict [("uuid", JStr "p"); ("image", JStr " im ")])
     = Ok (JStr "im").
Proof.
  destruct (playlist_info_direct_cover (V := no_coercion) "requested"
              [("playlist", JDict [("uuid", JStr "p"); ("image", JStr " im ")])]
              [("uuid", JStr "p"); ("image", JStr " im ")] [] (JStr " im ")
              (mkPlaylistTracks
                 (JDict [("id", JStr "p"); ("title", JNull);
                         ("description", JNull); ("numberOfTracks", JNull);
                         ("cover", JStr "im"); ("relationships", JDict [])])
                 [])
              eq_refl eq_refl eq_refl eq_refl eq_refl
              ltac:(discriminate) eq_refl) as [Hc Hg].
  split; [exact Hc|apply Hg].
Defined.

Lemma playlist_lookup_included_keeps (cover_id : json) (included : list json)
  (k : string) :
  k <> "cover" ->
  forall info info' : dict,
    playlist_lookup_included cover_id info included = Ok info' ->
    dget info' k = dget info k.
Proof.
  intros Hk. induction included as [|inc rest IH]; intros info info' H;
    cbn [playlist_lookup_included] in H.
  - injection H as <-. reflexivity.
  - inv_bind H.
    destruct (String.eqb (py_str a) (py_str cover_id)).
    + repeat inv_bind H. injection H as <-.
      repeat match goal with
             | |- context [if ?c then _ else _] => destruct c
             end;
        repeat rewrite dget_dict_set_other by (intros Hc; apply Hk; symmetry; exact Hc);
        reflexivity.
    + apply (IH _ _ H).
Qed.

(** The relationship fallback of the playlist-tracks endpoint only
    fills in a missing cover: a playlist object that has a cover is
    left as it is, and in every case all entries other than [cover]
    keep their values. *)
Theorem resolve_playlist_cover_only_cover (payload included : json)
  (info : dict) :
  exists info' : dict,
    resolve_playlist_cover payload included (JDict info) = JDict info'
    /\ (forall k : string, k <> "cover" -> dget info' k = dget info k)
    /\ (truthy (dget info "cover") = true -> info' = info).
Proof.
  unfold resolve_playlist_cover.
  destruct (truthy (dget info "cover")) eqn:Hc.
  { rewrite andb_false_r. exists info. repeat split; reflexivity. }
  destruct (truthy (JDict info) && negb false);
    [|exists info; split; [reflexivity|split; [reflexivity|discriminate]]].
  destruct (playlist_cover_fallback payload included info) as [info'|e] eqn:E;
    cbn [try_except];
    [|exists info; split; [reflexivity|split; [reflexivity|discriminate]]].
  exists info'. split; [reflexivity|]. split; [|discriminate].
  intros k Hk. unfold playlist_cover_fallback in E. repeat inv_bind E.
  destruct a1 as [| | | |[|x l]|]; try (injection E as <-; reflexivity).
  repeat inv_bind E. apply (playlist_lookup_included_keeps _ _ k Hk _ _ E).
Qed.

(** ** Trimming *)

Lemma lstrip_chars_head (l : list ascii) :
  match lstrip_chars l with
  | [] => True
  | c :: _ => is_space c = false
  end.
Proof.
  induction l as [|c l IH]; cbn [lstrip_chars]; [exact I|].
  destruct (is_space c) eqn:E; [exact IH|exact E].
Qed.

Lemma lstrip_chars_suffix (l : list ascii) :
  exists p : list ascii, l = (p ++ lstrip_chars l)%list.
Proof.
  induction l as [|c l [p Hp]]; cbn [lstrip_chars]; [exists []; reflexivity|].
  destruct (is_space c).
  - exists (c :: p). cbn [app]. f_equal. exact Hp.
  - exists []. reflexivity.
Qed.

Lemma lstrip_chars_fixed (l : list ascii) :
  match l with
  | [] => True
  | c :: _ => is_space c = false
  end -> lstrip_chars l = l.
Proof. destruct l as [|c l]; [reflexivity|]. cbn. intros ->. reflexivity. Qed.

Lemma chars_of_chars (l : list ascii) : chars (of_chars l) = l.
Proof. apply list_ascii_of_string_of_list_ascii. Qed.

Lemma of_chars_chars (s : string) : of_chars (chars s) = s.
Proof. apply string_of_list_ascii_of_string. Qed.

Lemma strip_trimmed (s : string) : trimmed (strip s).
Proof.
  unfold trimmed, strip. rewrite chars_of_chars, rev_involutive.
  split; [|apply lstrip_chars_head].
  set (l1 := lstrip_chars (chars s)).
  destruct (lstrip_chars_suffix (rev l1)) as [p Hp].
  assert (Hl1 : l1 = (rev (lstrip_chars (rev l1)) ++ rev p)%list).
  { rewrite <- rev_app_distr, <- Hp, rev_involutive. reflexivity. }
  pose proof (lstrip_chars_head (chars s)) as Hh. fold l1 in Hh.
  destruct (rev (lstrip_chars (rev l1))) as [|c t]; [exact I|].
  rewrite Hl1 in Hh. exact Hh.
Qed.

Lemma strip_fixed (s : string) : trimmed s -> strip s = s.
Proof.
  intros [Hh Ht]. unfold strip.
  rewrite (lstrip_chars_fixed _ Hh), (lstrip_chars_fixed _ Ht).
  rewrite rev_involutive. apply of_chars_chars.
Qed.

(** A cover resolved from a direct field carries no white space at
    either end, and trimming it again changes nothing. *)
Theorem direct_cover_is_trimmed (included : json) (pl attrs : dict) (v : json) :
  sub_object (JDict pl) "attributes" = Ok (JDict attrs) ->
  find truthy (direct_candidates attrs pl) = Some v ->
  exists c : string,
    get_cover_id included (JDict pl) = Ok (JStr c)
    /\ trimmed c /\ strip c = c.
Proof.
  intros Ha Hv. exists (strip (py_str v)).
  rewrite (get_cover_id_tiers included pl attrs Ha), Hv.
  split; [reflexivity|]. split; [apply strip_trimmed|].
  apply strip_fixed, strip_trimmed.
Qed.

Lemma direct_cover_is_trimmed_witness :
  exists c : string,
    get_cover_id (JList []) (JDict padded_square) = Ok (JStr c)
    /\ trimmed c /\ strip c = c.
Proof.
  exact (direct_cover_is_trimmed (JList []) padded_square
           [("squareImage", JStr " sq ")] (JStr " sq ") eq_refl eq_refl).
Defined.

Lemma resolve_playlist_cover_only_cover_witness :
  exists info' : dict,
    resolve_playlist_cover (JDict []) (JList [])
      (JDict [("id", JStr "p"); ("cover", JStr "c")]) = JDict info'
    /\ dget info' "id" = JStr "p"
    /\ info' = [("id", JStr "p"); ("cover", JStr "c")].
Proof.
  destruct (resolve_playlist_cover_only_cover (JDict []) (JList [])
              [("id", JStr "p"); ("cover", JStr "c")])
    as [info' [Hr [Hk Hc]]].
  exists info'. split; [exact Hr|]. split.
  - apply (Hk "id"). discriminate.
  - apply Hc. reflexivity.
Defined.

(* ================================================================== *)
(** * The Troi playlist parser *)

Lemma of_chars_length (l : list ascii) :
  String.length (of_chars l) = List.length l.
Proof. induction l as [|c l IH]; cbn; [reflexivity|]. f_equal. exact IH. Qed.

Lemma non_empty_true (s : string) : non_empty s = true -> s <> EmptyString.
Proof. destruct s; [discriminate|]. intros _ H. discriminate H. Qed.

Lemma parse_track_line_ok (line : string) (t : TroiTrack) :
  parse_track_line line = Some t -> troi_track_ok t.
Proof.
  unfold parse_track_line.
  destruct (re_split_spaces (strip line)) as [|p0 [|p1 more]];
    try discriminate.
  destruct (non_empty (strip p0)) eqn:H0; [|discriminate].
  destruct (non_empty (strip p1)) eqn:H1; [|discriminate].
  cbn [andb]. intros H. injection H as <-. unfold troi_track_ok.
  cbn [troi_title troi_artist troi_mbid].
  split; [apply non_empty_true; exact H0|].
  split; [apply non_empty_true; exact H1|].
  split; [apply strip_trimmed|]. split; [apply strip_trimmed|].
  destruct more as [|p2 more]; [exact I|].
  unfold str_prefix. rewrite of_chars_length. apply firstn_le_length.
Qed.

(** Every track the parser emits has a non-empty title and a non-empty
    artist, both without surrounding white space, and an mbid of at
    most five characters. *)
Theorem parse_output_tracks_ok (output : string) :
  Forall troi_track_ok (_parse_output output).
Proof.
  unfold _parse_output. generalize (split_lines output) as lines.
  generalize false as flag. intros flag lines. revert flag.
  induction lines as [|line rest IH]; intros flag; cbn [parse_lines].
  - constructor.
  - destruct (str_contains "playlist:" line); [apply IH|].
    destruct (negb flag); [apply IH|].
    destruct (str_contains "description:" line); cbn [orb];
      [constructor|].
    destruct (negb (non_empty (strip line))); [apply IH|].
    destruct (parse_track_line line) as [t|] eqn:E; [|apply IH].
    constructor; [apply (parse_track_line_ok _ _ E)|apply IH].
Qed.

Lemma parse_lines_no_header (lines : list string) :
  forallb (fun line => negb (is_header line)) lines = true ->
  parse_lines false lines = [].
Proof.
  induction lines as [|line rest IH]; [reflexivity|].
  cbn [forallb parse_lines]. unfold is_header at 1.
  destruct (str_contains "playlist:" line); [discriminate|].
  cbn [negb andb]. exact IH.
Qed.

Lemma parse_lines_footer (pre post : list string) (footer : string) :
  is_footer footer = true ->
  parse_lines true (pre ++ footer :: post) = parse_lines true pre.
Proof.
  intros Hf. unfold is_footer in Hf. apply andb_prop in Hf.
  destruct Hf as [Hd Hp]. apply negb_true_iff in Hp.
  induction pre as [|line rest IH]; cbn [app parse_lines].
  - rewrite Hp, Hd. reflexivity.
  - destruct (str_contains "playlist:" line); [exact IH|].
    cbn [negb]. destruct (str_contains "description:" line); cbn [orb];
      [reflexivity|].
    destruct (negb (non_empty (strip line))); [exact IH|].
    destruct (parse_track_line line); [f_equal|]; exact IH.
Qed.

(** The parser reads tracks only after a header line, one that
    contains "playlist:", and stops at a footer line, one that contains
    "description:" and not "playlist:" (a line with both counts as a
    header): without a header it emits nothing, and what precedes the
    first header or follows a footer never changes its output. *)
Theorem parse_lines_window :
  (forall lines : list string,
      forallb (fun line => negb (is_header line)) lines = true ->
      parse_lines false lines = [])
  /\ (forall (before pre post : list string) (header footer : string),
         forallb (fun line => negb (is_header line)) before = true ->
         is_header header = true -> is_footer footer = true ->
         parse_lines false (before ++ header :: pre ++ footer :: post)
         = parse_lines true pre)
  /\ (forall (in_track_list : bool) (line : string) (rest : list string),
         is_header line = true ->
         parse_lines in_track_list (line :: rest) = parse_lines true rest).
Proof.
  split; [exact parse_lines_no_header|]. split.
  - intros before pre post header footer Hb Hh Hf.
    induction before as [|line rest IH]; cbn [app parse_lines].
    + unfold is_header in Hh. rewrite Hh. apply parse_lines_footer. exact Hf.
    + cbn [forallb] in Hb. apply andb_prop in Hb. destruct Hb as [Hl Hr].
      unfold is_header in Hl. apply negb_true_iff in Hl. rewrite Hl.
      cbn [negb]. apply IH. exact Hr.
  - intros flag line rest Hh. cbn [parse_lines]. unfold is_header in Hh.
    rewrite Hh. reflexivity.
Qed.

Lemma parse_lines_window_witness :
  parse_lines false
    (["Troi 1.0"] ++ "playlist: Weekly Jams"
       :: ["Song One      Artist A     12345678-aaaa"]
       ++ "description: made for you" :: ["Song Two      Artist B"])
  = parse_lines true ["Song One      Artist A     12345678-aaaa"].
Proof.
  apply (proj1 (proj2 parse_lines_window) ["Troi 1.0"]
           ["Song One      Artist A     12345678-aaaa"]
           ["Song Two      Artist B"]
           "playlist: Weekly Jams" "description: made for you");
    reflexivity.
Defined.

(* ================================================================== *)
(** * Identifiers under string comparison *)

Lemma to_int_not_nil (n : Z) :
  Z.to_int n <> Decimal.Pos Decimal.Nil /\ Z.to_int n <> Decimal.Neg Decimal.Nil.
Proof.
  destruct n as [|p|p]; cbn; split; try discriminate;
    intros H; injection H as H; apply (DecimalPos.Unsigned.to_uint_nonnil p H).
Qed.

Lemma string_of_Z_inj (n m : Z) : string_of_Z n = string_of_Z m -> n = m.
Proof.
  unfold string_of_Z. intros H.
  apply DecimalZ.to_int_inj.
  destruct (to_int_not_nil n) as [Hn1 Hn2].
  destruct (to_int_not_nil m) as [Hm1 Hm2].
  pose proof (NilZero.isi _ Hn1 Hn2) as In.
  pose proof (NilZero.isi _ Hm1 Hm2) as Im.
  rewrite H in In. rewrite In in Im. injection Im as Im. exact Im.
Qed.

(** The locator compares ids by their string form; for an integer
    target and a node with an integer id this is equality of the
    integers, and a node whose id is a string matches exactly when the
    string is the decimal form of the target. *)
Theorem is_artist_match_integer_ids (target : Z) (d : dict) :
  has_key "id" d = true -> has_key "name" d = true ->
  (forall n : Z, dget d "id" = JInt n ->
                 (is_artist_match (JInt target) (JDict d) = true <-> n = target))
  /\ (forall s : string, dget d "id" = JStr s ->
                         (is_artist_match (JInt target) (JDict d) = true
                          <-> s = string_of_Z target)).
Proof.
  intros Hid Hname. unfold is_artist_match. rewrite Hid, Hname.
  cbn [andb]. rewrite andb_true_r. split.
  - intros n Hn. rewrite Hn. cbn [py_str py_repr]. rewrite String.eqb_eq.
    split; [apply string_of_Z_inj|intros ->; reflexivity].
  - intros s Hs. rewrite Hs. cbn [py_str py_repr]. apply String.eqb_eq.
Qed.

Lemma is_artist_match_integer_ids_witness :
  is_artist_match (JInt 9) (JDict [("id", JInt 9); ("name", JStr "Q")]) = true.
Proof.
  apply (proj1 (is_artist_match_integer_ids 9
                  [("id", JInt 9); ("name", JStr "Q")] eq_refl eq_refl) 9).
  - reflexivity.
  - reflexivity.
Defined.
(* ================================================================== *)
(** * The Spotify client *)

Lemma api_item_tracks_spec (item : json) (ts : list SpotifyTrack) :
  api_item_tracks item = Ok ts ->
  map sp_spotify_id ts
  = (if api_kept item then [api_track_id item] else [])
  /\ Forall (fun t => exists s : string, sp_artist t = JStr s) ts.
Proof.
  unfold api_item_tracks. intros H.
  destruct item as [| | | | |d]; try discriminate H.
  rewrite py_get_dict in H. cbv beta iota delta [bind] in H.
  cbn [api_kept api_track_id].
  destruct (truthy (dget d "track")) eqn:Ht; cbn [negb] in H.
  - destruct (dget d "track") as [| | | | |t]; try discriminate H.
    rewrite py_get_dict in H. cbv beta iota delta [bind] in H.
    rewrite Ht. cbn [andb].
    destruct (truthy (dget t "is_local")); cbn [negb].
    + injection H as <-. split; [reflexivity|constructor].
    + rewrite !py_get_dict in H. inv_binds.
      split; [reflexivity|].
      constructor; [eexists; reflexivity|constructor].
  - injection H as <-. split; [|constructor].
    destruct (dget d "track"); try reflexivity.
    rewrite Ht. reflexivity.
Qed.

Lemma api_items_spec (items : list json) (ts : list SpotifyTrack) :
  for_each api_item_tracks items = Ok ts ->
  map sp_spotify_id ts = map api_track_id (filter api_kept items)
  /\ Forall (fun t => exists s : string, sp_artist t = JStr s) ts.
Proof.
  revert ts. induction items as [|item items IH]; intros ts H;
    cbn [for_each] in H.
  - injection H as <-. split; [reflexivity|constructor].
  - repeat inv_bind H. injection H as <-.
    match goal with
    | Hx : api_item_tracks item = Ok _ |- _ =>
        destruct (api_item_tracks_spec _ _ Hx) as [Hi Ha]
    end.
    destruct (IH _ eq_refl) as [IHi IHa].
    split.
    + rewrite map_app, Hi, IHi. cbn [filter].
      destruct (api_kept item); reflexivity.
    + apply Forall_app. split; assumption.
Qed.

(** Whenever one turn of the API loop succeeds on a response, it has
    appended one track per item whose track is truthy and not local,
    in the order of the items, each with the id of its track and with a
    string as artist; the loop goes on exactly when the page has items
    and a truthy next link. *)
Theorem fetch_tracks_page_keeps_order (data : dict) (items : list json)
  (tracks : list SpotifyTrack) (more : bool) :
  dget data "items" = JList items ->
  api_page (JDict data) = Ok (tracks, more) ->
  map sp_spotify_id tracks = map api_track_id (filter api_kept items)
  /\ Forall (fun t => exists s : string, sp_artist t = JStr s) tracks
  /\ more = truthy (JList items) && truthy (dget data "next").
Proof.
  intros Hitems H. unfold api_page, py_get_d in H.
  unfold dget in Hitems.
  destruct (lookup "items" data) as [v|]; [|discriminate Hitems].
  subst v. cbv beta iota delta [bind] in H.
  destruct items as [|item items].
  - cbn [truthy negb] in H. injection H as <- <-.
    split; [reflexivity|]. split; [constructor|reflexivity].
  - cbn [truthy negb py_iter] in H. cbv beta iota delta [bind] in H.
    inv_bind H. rewrite py_get_dict in H. injection H as <- <-.
    match goal with
    | Hx : for_each api_item_tracks _ = Ok _ |- _ =>
        destruct (api_items_spec _ _ Hx) as [Hi Ha]
    end.
    split; [exact Hi|]. split; [exact Ha|reflexivity].
Qed.

Lemma fetch_tracks_page_keeps_order_witness :
  map sp_spotify_id
      [mkSpotifyTrack (JStr "Song") (JStr "A, B") JNull JNull (JStr "t1")]
  = [JStr "t1"]
  /\ Forall (fun t => exists s : string, sp_artist t = JStr s)
            [mkSpotifyTrack (JStr "Song") (JStr "A, B") JNull JNull (JStr "t1")]
  /\ true = true.
Proof.
  exact (fetch_tracks_page_keeps_order
           [("items",
             JList [JDict [("track",
                            JDict [("name", JStr "Song");
                                   ("artists", JList [JDict [("name", JStr "A")];
                                                      JDict [("name", JStr "B")]]);
                                   ("id", JStr "t1")])];
                    JDict [("track", JNull)]]);
            ("next", JStr "more")]
           _ _ _ eq_refl eq_refl).
Defined.

Lemma api_pages_run (fetch : Z -> result json)
  (pages : list (json * list SpotifyTrack)) :
  forall (offset : Z) (fuel : nat),
    pages_at fetch offset pages ->
    api_pages fetch (List.length pages + fuel) offset
    = match api_pages fetch fuel
              (offset + 100 * Z.of_nat (List.length pages)) with
      | Some (Ok more) => Some (Ok (List.concat (map snd pages) ++ more)%list)
      | other => other
      end.
Proof.
  induction pages as [|[data tracks] rest IH]; intros offset fuel Hp.
  - cbn [List.length Nat.add List.concat map app].
    replace (offset + 100 * Z.of_nat 0) with offset by lia.
    destruct (api_pages fetch fuel offset) as [[more|e]|]; reflexivity.
  - destruct Hp as [Hf [Ha Hr]].
    cbn [List.length Nat.add api_pages]. rewrite Hf.
    cbv beta iota delta [bind]. rewrite Ha.
    rewrite (IH _ _ Hr).
    replace (offset + 100 + 100 * Z.of_nat (List.length rest))
      with (offset + 100 * Z.of_nat (S (List.length rest))) by lia.
    destruct (api_pages fetch fuel
                (offset + 100 * Z.of_nat (S (List.length rest))))
      as [[more|e]|]; [|reflexivity|reflexivity].
    cbn [map snd List.concat]. rewrite app_assoc. reflexivity.
Qed.

(** The API loop asks for the offsets 0, 100, 200, ... up to the first
    response without items or without a next link and answers with the
    tracks of these responses in order; when a request or a response on
    the way raises, the answer is that of the embed fallback and the
    tracks gathered so far are dropped.  Later offsets are never
    consulted. *)
Theorem fetch_tracks_from_api_pages (fetch : Z -> result json)
  (fallback : list SpotifyTrack) (pages : list (json * list SpotifyTrack))
  (fuel : nat) :
  pages_at fetch 0 pages ->
  (List.length pages < fuel)%nat ->
  (forall tracks : list SpotifyTrack,
      (data <- fetch (100 * Z.of_nat (List.length pages)) ;; api_page data)
      = Ok (tracks, false) ->
      _fetch_tracks_from_api fetch fallback fuel
      = Some (List.concat (map snd pages) ++ tracks)%list)
  /\ (forall e : exn,
         (data <- fetch (100 * Z.of_nat (List.length pages)) ;; api_page data)
         = Raise e ->
         _fetch_tracks_from_api fetch fallback fuel = Some fallback).
Proof.
  intros Hp Hfuel. unfold _fetch_tracks_from_api.
  replace fuel with (List.length pages + S (fuel - S (List.length pages)))%nat
    by lia.
  rewrite (api_pages_run _ _ _ _ Hp). cbn [Z.add api_pages].
  split.
  - intros tracks Hl. rewrite Hl. reflexivity.
  - intros e Hl. rewrite Hl. reflexivity.
Qed.

Lemma fetch_tracks_from_api_pages_witness :
  _fetch_tracks_from_api two_pages [] 5
  = Some [mkSpotifyTrack (JStr "Song") (JStr "A, B") JNull JNull (JStr "t1");
          mkSpotifyTrack (JStr "Song") (JStr "A, B") JNull JNull (JStr "t2")].
Proof.
  apply (proj1 (fetch_tracks_from_api_pages two_pages []
                  [(spotify_page "t1" (JStr "more"),
                    [mkSpotifyTrack (JStr "Song") (JStr "A, B") JNull JNull
                                    (JStr "t1")])]
                  5 (conj eq_refl (conj eq_refl I)) ltac:(cbn; lia))
               [mkSpotifyTrack (JStr "Song") (JStr "A, B") JNull JNull
                               (JStr "t2")]).
  reflexivity.
Defined.

Lemma embed_item_tracks_ok (item : json) (ts : list SpotifyTrack) :
  embed_item_tracks item = Ok ts -> Forall embed_track_ok ts.
Proof.
  unfold embed_item_tracks. intros H.
  destruct item as [| | | | |d]; try discriminate H.
  rewrite !py_get_dict in H. cbv beta iota delta [bind] in H.
  destruct (truthy (dget d "title")) eqn:Ht;
    destruct (truthy (dget d "subtitle")) eqn:Hs; cbn [andb] in H;
    injection H as <-; constructor; [|constructor].
  unfold embed_track_ok. cbn [sp_title sp_artist sp_album].
  split; [exact Ht|]. split; [exact Hs|reflexivity].
Qed.

Lemma embed_items_raise (items : list json) :
  existsb (fun item => negb (is_dict item)) items = true ->
  exists e : exn, for_each embed_item_tracks items = Raise e.
Proof.
  induction items as [|item items IH]; [discriminate|].
  cbn [existsb for_each]. intros H.
  destruct (embed_item_tracks item) as [ts|e] eqn:E;
    cbv beta iota delta [bind]; [|eexists; reflexivity].
  destruct item as [| | | | |d]; try discriminate E.
  cbn [is_dict negb orb] in H. destruct (IH H) as [e He].
  rewrite He. eexists. reflexivity.
Qed.

(** The embed fallback never raises; every track it lists has a truthy
    title and a truthy artist and no album; and it is all or nothing:
    one track-list entry that is no object empties the whole answer. *)
Theorem scrape_embed_tracks_all_or_nothing :
  (forall page : result (option json),
      Forall embed_track_ok (_scrape_embed_tracks_fallback page))
  /\ (forall (data : json) (items : list json),
         track_list data = Ok (JList items) ->
         existsb (fun item => negb (is_dict item)) items = true ->
         _scrape_embed_tracks_fallback (Ok (Some data)) = []).
Proof.
  split.
  - intros page. unfold _scrape_embed_tracks_fallback.
    destruct page as [[data|]|e]; cbv beta iota delta [bind try_except];
      try constructor.
    unfold embed_tracks.
    destruct (track_list data) as [items|e] eqn:E.
    + destruct (py_iter items) as [l|e]; cbv beta iota delta [bind];
        [|constructor].
      destruct (for_each embed_item_tracks l) as [ts|e] eqn:F;
        [|constructor].
      apply (for_each_Forall _ _ _ embed_item_tracks_ok _ F).
    + destruct e; constructor.
  - intros data items Hl Hx. unfold _scrape_embed_tracks_fallback.
    cbv beta iota delta [bind]. unfold embed_tracks. rewrite Hl.
    cbn [py_iter]. cbv beta iota delta [bind].
    destruct (embed_items_raise _ Hx) as [e He]. rewrite He. reflexivity.
Qed.

Lemma scrape_embed_tracks_all_or_nothing_witness :
  _scrape_embed_tracks_fallback
    (Ok (Some (embed_data
                 [JDict [("title", JStr "Song"); ("subtitle", JStr "A")];
                  JStr "stray"]))) = [].
Proof.
  apply (proj2 scrape_embed_tracks_all_or_nothing _
           [JDict [("title", JStr "Song"); ("subtitle", JStr "A")];
            JStr "stray"]); reflexivity.
Defined.
